(** * The dispatch core of flask_note (Flask 1.0.2), embedded in Rocq

    Source files embedded here:
    - [src/simple/1.0.2/__globals.py]: the two context stacks and the
      lookup functions behind the proxies [current_app], [request],
      [session] and [g];
    - [src/simple/1.0.2/__flask.py]: the class [Flask], from
      [add_url_rule] to [do_teardown_request];
    - [src/__json.py]: [detect_encoding], [dumps], [htmlsafe_dumps],
      the defaults of their keyword arguments and [JSONEncoder.default];
    - [src/__cli.py]: [get_env], [get_debug_flag], [call_factory] and
      [find_best_app].

    Python objects are values of [pyval]; a method of [Flask] is a
    computation in the monad [M], which threads the interpreter state
    (the application object, the two context stacks, the state owned by
    user callbacks and a log of the observable events) and may end in a
    raised exception.

    Conventions of the embedding:
    - a user callback (view, hook, error handler, teardown function) is
      a function of its arguments and of a state [W] of its own; it
      returns a value or raises, and it does not write to the
      application object or to the context stacks; every call is logged
      with its kind, the identity of the function, its arguments and its
      outcome;
    - signals and log records are events of the log; signals have no
      receivers that could fail;
    - an object that Python mutates in place is passed on as a value (the
      response through the after-request functions, the context through
      [push]);
    - tracebacks and [sys.exc_info()] have no counterpart: an exception
      is the value that is raised;
    - the contexts of [__ctx.py], which is not among the source files,
      follow the specification; each such definition says so. *)

From Stdlib Require Import ZArith List Bool Lia.
From stdpp Require Import base gmap strings list.

Local Open Scope Z_scope.
Local Open Scope string_scope.
Local Open Scope list_scope.

(** ** Exceptions *)

(** An exception class: its method resolution order ([cls.__mro__], class
    names, most specific first) and the class attribute [code] that the
    subclasses of [werkzeug.exceptions.HTTPException] carry. *)
Record pyclass := PyClass {
  cls_mro : list string;
  cls_code : option Z
}.

(** An exception instance: its class [type(e)], the argument it was
    built with (its message; the missing key for a key error), and its
    attribute [description] when it was set on the instance ([None]
    stands for the description that the class provides). *)
Record exn := Exn {
  exc_class : pyclass;
  exc_message : string;
  exc_description : option string
}.

Definition exc_mro (e : exn) : list string := cls_mro (exc_class e).
Definition exc_code (e : exn) : option Z := cls_code (exc_class e).

(** [issubclass(cls, name)] and [isinstance(e, name)] *)
Definition issubclass (cls : pyclass) (name : string) : bool :=
  existsb (String.eqb name) (cls_mro cls).

Definition isinstance_exn (e : exn) (name : string) : bool :=
  issubclass (exc_class e) name.

Definition builtin_class (name : string) : pyclass :=
  PyClass [name; "Exception"; "BaseException"; "object"] None.

Definition http_class (name : string) (code : Z) : pyclass :=
  PyClass [name; "HTTPException"; "Exception"; "BaseException"; "object"] (Some code).

(** [cls(msg)] for a built-in exception class *)
Definition builtin_exception (name msg : string) : exn :=
  Exn (builtin_class name) msg None.

Definition RuntimeError : string -> exn := builtin_exception "RuntimeError".
Definition TypeError : string -> exn := builtin_exception "TypeError".
Definition AssertionError : string -> exn := builtin_exception "AssertionError".
Definition AttributeError : string -> exn := builtin_exception "AttributeError".
Definition KeyError (key : string) : exn :=
  Exn (PyClass ["KeyError"; "LookupError"; "Exception"; "BaseException"; "object"] None)
      key None.
Definition ImportError : string -> exn := builtin_exception "ImportError".
Definition ModuleNotFoundError (msg : string) : exn :=
  Exn (PyClass ["ModuleNotFoundError"; "ImportError"; "Exception"; "BaseException";
                "object"] None)
      msg None.

(** [werkzeug.exceptions.InternalServerError()] *)
Definition InternalServerError : exn :=
  Exn (http_class "InternalServerError" 500) "Internal Server Error" None.

(** [werkzeug.exceptions.default_exceptions], the table from status code
    to exception class (the entries for 400, 404, 405 and 500). *)
Definition default_exceptions (code : Z) : option pyclass :=
  if Z.eqb code 400 then Some (http_class "BadRequest" 400)
  else if Z.eqb code 404 then Some (http_class "NotFound" 404)
  else if Z.eqb code 405 then Some (http_class "MethodNotAllowed" 405)
  else if Z.eqb code 500 then Some (http_class "InternalServerError" 500)
  else None.

(** The quotation mark, for the messages that hold one. *)
Definition double_quote : string := String (Ascii.ascii_of_nat 34) EmptyString.

(** ** Values *)

(** The response class ([response_class = Response]).  The class itself
    comes from [__wrappers.py] and werkzeug; [Flask] reads and writes the
    attributes [status], [status_code] and [headers] and passes the body
    to the constructor. *)
Record response := Response {
  resp_body : string;
  resp_status : string;
  resp_status_code : Z;
  resp_headers : list (string * string)
}.

(** What a view, a callback or an error handler may return. *)
#[local] Set Warnings "-register-all".
Inductive pyval :=
| VNone
| VStr (s : string)                      (* text_type *)
| VBytes (s : string)                    (* bytes, bytearray *)
| VInt (n : Z)
| VTuple (l : list pyval)
| VList (l : list pyval)
| VDict (l : list (pyval * pyval))
| VHeaders (h : list (string * string))  (* werkzeug.datastructures.Headers *)
| VResponse (r : response)               (* an instance of response_class *)
| VExn (e : exn)                         (* an exception instance used as a value *)
| VWsgiApp (r : response).               (* a WSGI callable; [r] is what it answers *)

Definition is_None (v : pyval) : bool :=
  match v with VNone => true | _ => false end.

(** Outcome of running Python code: a value, or a raised exception. *)
Inductive result (A : Type) :=
| Ok (a : A)
| Raise (e : exn).
Arguments Ok {A} a.
Arguments Raise {A} e.

(** ** Requests, rules and contexts *)

Record rule := Rule {
  rule_string : string;
  rule_methods : gset string;
  endpoint : string;
  provide_automatic_options : bool
}.

(** The request object, as far as [Flask] reads it.  [blueprint] and the
    routing outcome ([url_rule] with [view_args], or [routing_exception])
    are set when the request context is built. *)
Record request := Request {
  method : string;
  path : string;
  blueprint : option string;
  url_rule : option rule;
  view_args : option (list (string * pyval));
  routing_exception : option exn
}.

Record session := Session {
  session_null : bool;
  session_data : list (string * pyval)
}.

(** Callbacks are identified by [cb_id] (Python compares functions by
    identity) and run on their arguments and on the state [W] they own.
    A Python callback can also reach the application and the context
    stacks ([app.config], the registries, a context pushed by hand);
    [cb_run] cannot.  What is proved about the dispatch is therefore
    proved for callbacks that leave the application object and the
    stacks alone, and says what the methods of [Flask] do by
    themselves. *)
Record callback (W : Type) := Callback {
  cb_id : nat;
  cb_run : list pyval -> W -> result pyval * W
}.
Arguments Callback {W} cb_id cb_run.
Arguments cb_id {W} c.
Arguments cb_run {W} c args w.

(** A view function: the function object and the attributes that
    [add_url_rule] reads from it with [getattr]. *)
Record view_function (W : Type) := ViewFunction {
  vf_func : callback W;
  vf_name : string;
  vf_methods : option (list string);
  vf_required_methods : list string;
  vf_provide_automatic_options : option bool
}.
Arguments ViewFunction {W}.
Arguments vf_func {W} v.
Arguments vf_name {W} v.
Arguments vf_methods {W} v.
Arguments vf_required_methods {W} v.
Arguments vf_provide_automatic_options {W} v.

Record app_ctx := AppContext {
  ac_app : nat;
  ac_g : list (string * pyval);
  ac_refcnt : nat
}.

Record request_ctx (W : Type) := RequestContext {
  rc_id : nat;
  rc_app : nat;
  rc_request : request;
  rc_session : session;
  rc_allowed_methods : list string;
  _after_request_functions : list (callback W);
  rc_preserve : bool;
  rc_owns_app_ctx : bool
}.
Arguments RequestContext {W}.
Arguments rc_id {W} r.
Arguments rc_app {W} r.
Arguments rc_request {W} r.
Arguments rc_session {W} r.
Arguments rc_allowed_methods {W} r.
Arguments _after_request_functions {W} r.
Arguments rc_preserve {W} r.
Arguments rc_owns_app_ctx {W} r.

(** ** The application object and the interpreter state *)

Record config := Config {
  DEBUG : bool;
  TESTING : bool;
  PROPAGATE_EXCEPTIONS : option bool;
  PRESERVE_CONTEXT_ON_EXCEPTION : option bool;
  TRAP_BAD_REQUEST_ERRORS : option bool;
  TRAP_HTTP_EXCEPTIONS : bool
}.

(** The attributes of a [Flask] instance that the dispatch core uses.
    Dictionaries keyed by a blueprint name or [None] have keys of type
    [option string]; [error_handler_spec] is keyed by blueprint, then by
    status code or [None], then by exception class. *)
Record flask (W : Type) := Flask {
  app_id : nat;
  app_config : config;
  view_functions : gmap string (view_function W);
  error_handler_spec : gmap (option string) (gmap (option Z) (gmap string (callback W)));
  before_request_funcs : gmap (option string) (list (callback W));
  before_first_request_funcs : list (callback W);
  after_request_funcs : gmap (option string) (list (callback W));
  teardown_request_funcs : gmap (option string) (list (callback W));
  teardown_appcontext_funcs : list (callback W);
  url_value_preprocessors : gmap (option string) (list (callback W));
  url_map : list rule;
  _got_first_request : bool;
  save_session : callback W
}.
Arguments Flask {W}.
Arguments app_id {W} f.
Arguments app_config {W} f.
Arguments view_functions {W} f.
Arguments error_handler_spec {W} f.
Arguments before_request_funcs {W} f.
Arguments before_first_request_funcs {W} f.
Arguments after_request_funcs {W} f.
Arguments teardown_request_funcs {W} f.
Arguments teardown_appcontext_funcs {W} f.
Arguments url_value_preprocessors {W} f.
Arguments url_map {W} f.
Arguments _got_first_request {W} f.
Arguments save_session {W} f.

(** Which registry a callback was taken from when it was called. *)
Inductive kind :=
| KBeforeFirstRequest | KUrlValuePreprocessor | KBeforeRequest | KView
| KAfterRequest | KErrorHandler | KTeardownRequest | KTeardownAppcontext
| KSaveSession.

(** Observable events, in the order they happen. *)
Inductive event :=
| EvCall (k : kind) (id : nat) (args : list pyval) (out : result pyval)
| EvSignal (name : string) (exc : option exn)
| EvLogError (msg : string) (e : option exn)
| EvLock (acquired : bool).

(** The interpreter state: the application [self], the two stacks of
    [__globals.py] (the top of a stack is the head of the list), the
    state of the user callbacks, the event log and the next fresh object
    identity. *)
Record state (W : Type) := State {
  self : flask W;
  _request_ctx_stack : list (request_ctx W);
  _app_ctx_stack : list app_ctx;
  world : W;
  log : list event;
  next_id : nat
}.
Arguments State {W}.
Arguments self {W} s.
Arguments _request_ctx_stack {W} s.
Arguments _app_ctx_stack {W} s.
Arguments world {W} s.
Arguments log {W} s.
Arguments next_id {W} s.

(** The monad of Python computations. *)
Definition M (W A : Type) : Type := state W -> result A * state W.

Declare Scope py_scope.
Delimit Scope py_scope with py.

Section Monad.
Context {W : Type}.

Definition ret {A} (a : A) : M W A := fun s => (Ok a, s).

Definition raise {A} (e : exn) : M W A := fun s => (Raise e, s).

Definition bind {A B} (m : M W A) (k : A -> M W B) : M W B :=
  fun s => match m s with
           | (Ok a, s') => k a s'
           | (Raise e, s') => (Raise e, s')
           end.

Definition gets {A} (f : state W -> A) : M W A := fun s => (Ok (f s), s).

Definition modify (f : state W -> state W) : M W unit := fun s => (Ok tt, f s).

(** [try: m  except Exception as e: h e]; an exception that is not an
    instance of [Exception] passes through. *)
Definition try_except {A} (m : M W A) (h : exn -> M W A) : M W A :=
  fun s => match m s with
           | (Ok a, s') => (Ok a, s')
           | (Raise e, s') =>
               if isinstance_exn e "Exception" then h e s' else (Raise e, s')
           end.

(** [try: m  finally: f]; an exception raised by [f] replaces the
    outcome of [m]. *)
Definition try_finally {A} (m : M W A) (f : M W unit) : M W A :=
  fun s => match m s with
           | (r, s') =>
               match f s' with
               | (Ok _, s'') => (r, s'')
               | (Raise e, s'') => (Raise e, s'')
               end
           end.
End Monad.

Notation "x <- m ;; k" := (bind m (fun x => k))
  (at level 100, m at next level, right associativity) : py_scope.
Notation "m ;;; k" := (bind m (fun _ => k))
  (at level 100, right associativity) : py_scope.
Local Open Scope py_scope.

(** Field updates of the state and of the application object. *)
Section Updates.
Context {W : Type}.

Definition set_self (a : flask W) (s : state W) : state W :=
  State a (_request_ctx_stack s) (_app_ctx_stack s) (world s) (log s) (next_id s).
Definition set_request_ctx_stack (st : list (request_ctx W)) (s : state W) : state W :=
  State (self s) st (_app_ctx_stack s) (world s) (log s) (next_id s).
Definition set_app_ctx_stack (st : list app_ctx) (s : state W) : state W :=
  State (self s) (_request_ctx_stack s) st (world s) (log s) (next_id s).
Definition set_world (w : W) (s : state W) : state W :=
  State (self s) (_request_ctx_stack s) (_app_ctx_stack s) w (log s) (next_id s).
Definition set_log (l : list event) (s : state W) : state W :=
  State (self s) (_request_ctx_stack s) (_app_ctx_stack s) (world s) l (next_id s).
Definition set_next_id (n : nat) (s : state W) : state W :=
  State (self s) (_request_ctx_stack s) (_app_ctx_stack s) (world s) (log s) n.

Definition set_view_functions (v : gmap string (view_function W)) (a : flask W) : flask W :=
  Flask (app_id a) (app_config a) v (error_handler_spec a) (before_request_funcs a)
        (before_first_request_funcs a) (after_request_funcs a) (teardown_request_funcs a)
        (teardown_appcontext_funcs a) (url_value_preprocessors a) (url_map a)
        (_got_first_request a) (save_session a).
Definition set_error_handler_spec
    (h : gmap (option string) (gmap (option Z) (gmap string (callback W))))
    (a : flask W) : flask W :=
  Flask (app_id a) (app_config a) (view_functions a) h (before_request_funcs a)
        (before_first_request_funcs a) (after_request_funcs a) (teardown_request_funcs a)
        (teardown_appcontext_funcs a) (url_value_preprocessors a) (url_map a)
        (_got_first_request a) (save_session a).
Definition set_url_map (u : list rule) (a : flask W) : flask W :=
  Flask (app_id a) (app_config a) (view_functions a) (error_handler_spec a)
        (before_request_funcs a) (before_first_request_funcs a) (after_request_funcs a)
        (teardown_request_funcs a) (teardown_appcontext_funcs a)
        (url_value_preprocessors a) u (_got_first_request a) (save_session a).
Definition set_got_first_request (b : bool) (a : flask W) : flask W :=
  Flask (app_id a) (app_config a) (view_functions a) (error_handler_spec a)
        (before_request_funcs a) (before_first_request_funcs a) (after_request_funcs a)
        (teardown_request_funcs a) (teardown_appcontext_funcs a)
        (url_value_preprocessors a) (url_map a) b (save_session a).
Definition set_config (c : config) (a : flask W) : flask W :=
  Flask (app_id a) c (view_functions a) (error_handler_spec a)
        (before_request_funcs a) (before_first_request_funcs a) (after_request_funcs a)
        (teardown_request_funcs a) (teardown_appcontext_funcs a)
        (url_value_preprocessors a) (url_map a) (_got_first_request a) (save_session a).

(** Appends an event to the log. *)
Definition emit (ev : event) : M W unit :=
  modify (fun s => set_log (log s ++ [ev]) s).

(** Calls the callback [c] with [args]: it runs on the state it owns,
    and the call is logged with its outcome. *)
Definition call (k : kind) (c : callback W) (args : list pyval) : M W pyval :=
  fun s => match cb_run c args (world s) with
           | (r, w) => (r, set_log (log s ++ [EvCall k (cb_id c) args r]) (set_world w s))
           end.
End Updates.

(** ** [__globals.py] *)

Definition _app_ctx_err_msg : string :=
"Working outside of application context.

This typically means that you attempted to use functionality that needed
to interface with the current application object in some way. To solve
this, set up an application context with app.app_context().  See the
documentation for more information.".

Definition _request_ctx_err_msg : string :=
"Working outside of request context.

This typically means that you attempted to use functionality that needed
an active HTTP request.  Consult the documentation on testing for
information about how to avoid this problem.".

(** The attributes read through the proxies. *)
Inductive attribute :=
| AApp (id : nat)
| ARequest (r : request)
| ASession (s : session)
| AG (g : list (string * pyval)).

Section Globals.
Context {W : Type}.

(** [LocalStack.top]: the last pushed context, or [None]. *)
Definition top {A} (stack : list A) : option A := head stack.

(** [getattr(ctx, name)] on a request context *)
Definition getattr_request_context (ctx : request_ctx W) (name : string)
  : result attribute :=
  if String.eqb name "request" then Ok (ARequest (rc_request ctx))
  else if String.eqb name "session" then Ok (ASession (rc_session ctx))
  else if String.eqb name "app" then Ok (AApp (rc_app ctx))
  else Raise (AttributeError name).

(** [getattr(ctx, name)] on an application context *)
Definition getattr_app_context (ctx : app_ctx) (name : string)
  : result attribute :=
  if String.eqb name "g" then Ok (AG (ac_g ctx))
  else if String.eqb name "app" then Ok (AApp (ac_app ctx))
  else Raise (AttributeError name).

Definition _lookup_req_object (name : string) : M W attribute :=
  fun s => match top (_request_ctx_stack s) with
           | None => (Raise (RuntimeError _request_ctx_err_msg), s)
           | Some ctx => (getattr_request_context ctx name, s)
           end.

Definition _find_app : M W attribute :=
  fun s => match top (_app_ctx_stack s) with
           | None => (Raise (RuntimeError _app_ctx_err_msg), s)
           | Some ctx => (Ok (AApp (ac_app ctx)), s)
           end.

Definition _lookup_app_object (name : string) : M W attribute :=
  fun s => match top (_app_ctx_stack s) with
           | None => (Raise (RuntimeError _app_ctx_err_msg), s)
           | Some ctx => (getattr_app_context ctx name, s)
           end.

(** The four proxies: what an access through the proxy evaluates. *)
Definition current_app : M W attribute := _find_app.
Definition request_proxy : M W attribute := _lookup_req_object "request".
Definition session_proxy : M W attribute := _lookup_req_object "session".
Definition g : M W attribute := _lookup_app_object "g".
End Globals.

(** ** The response class *)

(** Modelled from the spec: the response class of [__wrappers.py] (a
    subclass of werkzeug's response), which is not among the source
    files.  It is "a canonical response representation (status, headers,
    body)"; a body alone gives status 200; "when a status is supplied as
    text, it overwrites the response's status line verbatim; when
    numeric, only the status code is overwritten"; headers are
    appended. *)
Definition default_status : string := "200 OK".
Definition default_status_code : Z := 200.

Definition set_status (st : string) (r : response) : response :=
  Response (resp_body r) st (resp_status_code r) (resp_headers r).

Definition set_status_code (n : Z) (r : response) : response :=
  Response (resp_body r) (resp_status r) n (resp_headers r).

Definition headers_extend (h : list (string * string)) (r : response) : response :=
  Response (resp_body r) (resp_status r) (resp_status_code r) (resp_headers r ++ h).

(** Truth value of an object ([if headers:]). *)
Definition truthy (v : pyval) : bool :=
  match v with
  | VNone => false
  | VStr s | VBytes s => negb (String.eqb s "")
  | VInt n => negb (Z.eqb n 0)
  | VTuple l | VList l => match l with [] => false | _ => true end
  | VDict l => match l with [] => false | _ => true end
  | VHeaders h => match h with [] => false | _ => true end
  | VResponse _ | VExn _ | VWsgiApp _ => true
  end.

(** One [(key, value)] pair of strings. *)
Definition header_pair (k v : pyval) : result (string * string) :=
  match k, v with
  | VStr k', VStr v' => Ok (k', v')
  | _, _ => Raise (TypeError "header keys and values must be strings")
  end.

Fixpoint header_pairs (l : list (pyval * pyval)) : result (list (string * string)) :=
  match l with
  | [] => Ok []
  | (k, v) :: l' =>
      match header_pair k v, header_pairs l' with
      | Ok p, Ok ps => Ok (p :: ps)
      | Raise e, _ => Raise e
      | _, Raise e => Raise e
      end
  end.

Definition as_pair (v : pyval) : result (pyval * pyval) :=
  match v with
  | VTuple [k; x] | VList [k; x] => Ok (k, x)
  | _ => Raise (TypeError "cannot unpack a header item into key and value")
  end.

Fixpoint as_pairs (l : list pyval) : result (list (pyval * pyval)) :=
  match l with
  | [] => Ok []
  | v :: l' =>
      match as_pair v, as_pairs l' with
      | Ok p, Ok ps => Ok (p :: ps)
      | Raise e, _ => Raise e
      | _, Raise e => Raise e
      end
  end.

(** The items that [Headers(headers)] and [Headers.extend(headers)] take
    from a mapping, a sequence of pairs or another [Headers] object. *)
Definition header_items (v : pyval) : result (list (string * string)) :=
  match v with
  | VHeaders h => Ok h
  | VDict l => header_pairs l
  | VList l | VTuple l =>
      match as_pairs l with
      | Ok ps => header_pairs ps
      | Raise e => Raise e
      end
  | _ => Raise (TypeError "object is not iterable")
  end.

(** [rv.status = status] for a textual [status] *)
Definition assign_status (st : pyval) (r : response) : result response :=
  match st with
  | VStr t | VBytes t => Ok (set_status t r)
  | _ => Raise (TypeError "status must be text")
  end.

(** [rv.status_code = status] *)
Definition assign_status_code (st : pyval) (r : response) : result response :=
  match st with
  | VInt n => Ok (set_status_code n r)
  | _ => Raise (TypeError "status code must be an integer")
  end.

(** [rv.headers.extend(headers)] *)
Definition extend_headers (hs : pyval) (r : response) : result response :=
  match header_items hs with
  | Ok h => Ok (headers_extend h r)
  | Raise e => Raise e
  end.

(** [response_class(body, status=status, headers=headers)] *)
Definition response_class (body : string) (st hs : pyval) : result response :=
  let r0 := Response body default_status default_status_code [] in
  match (if truthy hs then extend_headers hs r0 else Ok r0) with
  | Raise e => Raise e
  | Ok r1 =>
      match st with
      | VNone => Ok r1
      | VInt _ => assign_status_code st r1
      | _ => assign_status st r1
      end
  end.

(** The response an HTTP exception renders when it is called as a WSGI
    application ([HTTPException.get_response]). *)
Definition get_response (e : exn) : response :=
  Response (default (exc_message e) (exc_description e)) default_status
           (default default_status_code (exc_code e)) [].

(** [response_class.force_type(rv, environ)]: a WSGI callable is run and
    its answer taken; anything that cannot be called is a [TypeError]. *)
Definition force_type (rv : pyval) : result response :=
  match rv with
  | VWsgiApp r => Ok r
  | VExn e =>
      if isinstance_exn e "HTTPException" then Ok (get_response e)
      else Raise (TypeError "object is not callable")
  | _ => Raise (TypeError "object is not callable")
  end.

(** [response(environ, start_response)] at the end of [wsgi_app] *)
Definition call_wsgi (rv : pyval) : result response :=
  match rv with
  | VResponse r => Ok r
  | _ => force_type rv
  end.

(** ** [__flask.py]: the class [Flask] *)

(** [FormDataRoutingRedirect(request)] of [__debughelpers.py]: an
    [AssertionError] that tells that the routing system redirected a
    request that carries form data. *)
Definition FormDataRoutingRedirect (req : request) : exn :=
  Exn (PyClass ["FormDataRoutingRedirect"; "AssertionError"; "Exception";
                "BaseException"; "object"] None)
      ("A request was sent to this URL (" ++ path req ++ ") but a redirect was issued automatically by the routing system.")
      None.

(** Private names.  In the body of a class an identifier that starts
    with two underscores and does not end with two is private to the
    class: the compiler rewrites it to [_cls] followed by the
    identifier, where [cls] is the class name without its leading
    underscores.  The name of the module in an [import] statement is
    such an identifier when it holds no dot. *)
Fixpoint strip_underscores (s : string) : string :=
  match s with
  | String c s' => if String.prefix "_" s then strip_underscores s' else s
  | EmptyString => EmptyString
  end.

Definition mangle (cls name : string) : string :=
  if String.prefix "__" name
     && negb (String.prefix "__" (String.rev name))
     && match String.index 0 "." name with Some _ => false | None => true end
     && negb (String.eqb (strip_underscores cls) "")
  then "_" ++ strip_underscores cls ++ name
  else name.

(** The modules that [__flask.py] imports by the names of their files;
    [__debughelpers] is the one that defines [FormDataRoutingRedirect].
    There is no module [_Flask__debughelpers]. *)
Definition flask_modules : list string :=
  ["__cli"; "__json"; "__compat"; "__config"; "__ctx"; "__globals"; "__helpers";
   "__logging"; "__sessions"; "__signals"; "__templating"; "__wrappers";
   "__debughelpers"].

(** [from name import ...] written in a method of the class [cls] *)
Definition import_from (cls name : string) : result unit :=
  let name := mangle cls name in
  if existsb (String.eqb name) flask_modules then Ok tt
  else Raise (ModuleNotFoundError ("No module named '" ++ name ++ "'")).

Definition pyval_of_exc (exc : option exn) : pyval :=
  match exc with Some e => VExn e | None => VNone end.

Definition pyval_of_endpoint (req : request) : pyval :=
  match url_rule req with Some r => VStr (endpoint r) | None => VNone end.

Definition pyval_of_kwargs (kw : list (string * pyval)) : pyval :=
  VDict (map (fun '(k, v) => (VStr k, v)) kw).

Definition pyval_of_view_args (req : request) : pyval :=
  match view_args req with Some kw => pyval_of_kwargs kw | None => VNone end.

Section Flask.
Context {W : Type}.

Definition debug (s : state W) : bool := DEBUG (app_config (self s)).
Definition testing (s : state W) : bool := TESTING (app_config (self s)).

(** [_request_ctx_stack.top.<attribute>]: reading an attribute of
    [None] is an [AttributeError]. *)
Definition top_request_context : M W (request_ctx W) :=
  fun s => match top (_request_ctx_stack s) with
           | Some ctx => (Ok ctx, s)
           | None => (Raise (AttributeError "'NoneType' object has no attribute"), s)
           end.

Definition lift {A} (r : result A) : M W A := fun s => (r, s).

(** The proxy [request], resolved to the request object. *)
Definition current_request : M W request :=
  a <- request_proxy ;;
  match a with
  | ARequest r => ret r
  | _ => raise (AttributeError "request")
  end.

(** [for x in xs: body x] *)
Fixpoint for_each {A} (xs : list A) (body : A -> M W unit) : M W unit :=
  match xs with
  | [] => ret tt
  | x :: xs' => body x ;;; for_each xs' body
  end.

(** [with self._before_request_lock: m] *)
Definition with_before_request_lock {A} (m : M W A) : M W A :=
  emit (EvLock true) ;;; try_finally m (emit (EvLock false)).

Definition try_trigger_before_first_request_functions : M W unit :=
  got <- gets (fun s => _got_first_request (self s)) ;;
  if got then ret tt
  else
    with_before_request_lock
      (got' <- gets (fun s => _got_first_request (self s)) ;;
       if got' then ret tt
       else
         funcs <- gets (fun s => before_first_request_funcs (self s)) ;;
         for_each funcs (fun func => call KBeforeFirstRequest func [] ;;; ret tt) ;;;
         modify (fun s => set_self (set_got_first_request true (self s)) s)).

(** [d.get(None, ())] chained with [d[bp]] when [bp] is a key of [d] *)
Definition chain_blueprint {A} (funcs : list A) (d : gmap (option string) (list A))
    (bp : option string) : list A :=
  match bp with
  | Some b =>
      match d !! Some b with
      | Some fs => funcs ++ fs
      | None => funcs
      end
  | None => funcs
  end.

(** The loop over the before-request functions: the first result that
    is not [None] is returned. *)
Fixpoint first_not_None (funcs : list (callback W)) : M W pyval :=
  match funcs with
  | [] => ret VNone
  | func :: funcs' =>
      rv <- call KBeforeRequest func [] ;;
      if is_None rv then first_not_None funcs' else ret rv
  end.

Definition preprocess_request : M W pyval :=
  ctx <- top_request_context ;;
  let bp := blueprint (rc_request ctx) in
  d <- gets (fun s => url_value_preprocessors (self s)) ;;
  let funcs := chain_blueprint (default [] (d !! None)) d bp in
  for_each funcs (fun func =>
    req <- current_request ;;
    call KUrlValuePreprocessor func [pyval_of_endpoint req; pyval_of_view_args req] ;;;
    ret tt) ;;;
  d' <- gets (fun s => before_request_funcs (self s)) ;;
  let funcs' := chain_blueprint (default [] (d' !! None)) d' bp in
  first_not_None funcs'.

Definition safe_method (m : string) : bool :=
  existsb (String.eqb m) ["GET"; "HEAD"; "OPTIONS"].

(** The import of [FormDataRoutingRedirect] is written inside the
    method, that is inside the body of the class [Flask], and comes
    before the [raise] statement. *)
Definition raise_routing_exception {A} (req : request) : M W A :=
  dbg <- gets debug ;;
  match routing_exception req with
  | Some e =>
      if negb dbg || negb (isinstance_exn e "RequestRedirect") || safe_method (method req)
      then raise e
      else
        lift (import_from "Flask" "__debughelpers") ;;;
        raise (FormDataRoutingRedirect req)
  | None => raise (TypeError "exceptions must derive from BaseException")
  end.

Definition join_methods (ms : list string) : string :=
  String.concat ", " ms.

Definition make_default_options_response : M W pyval :=
  ctx <- top_request_context ;;
  let methods := rc_allowed_methods ctx in
  ret (VResponse (Response "" default_status default_status_code
                           [("Allow", join_methods methods)])).

Definition dispatch_request : M W pyval :=
  ctx <- top_request_context ;;
  let req := rc_request ctx in
  (match routing_exception req with
   | Some _ => raise_routing_exception req
   | None => ret tt
   end) ;;;
  match url_rule req with
  | None => raise (AttributeError "'NoneType' object has no attribute 'endpoint'")
  | Some rule =>
      if provide_automatic_options rule && String.eqb (method req) "OPTIONS"
      then make_default_options_response
      else
        vf <- gets (fun s => view_functions (self s)) ;;
        match vf !! endpoint rule with
        | None => raise (KeyError (endpoint rule))
        | Some view =>
            match view_args req with
            | None => raise (TypeError "argument after ** must be a mapping, not NoneType")
            | Some kw => call KView (vf_func view) [pyval_of_kwargs kw]
            end
        end
  end.

(** [isinstance(rv[1], (Headers, dict, tuple, list))] *)
Definition is_headers_type (v : pyval) : bool :=
  match v with
  | VHeaders _ | VDict _ | VTuple _ | VList _ => true
  | _ => false
  end.

(** [isinstance(status, (text_type, bytes, bytearray))] *)
Definition is_text (v : pyval) : bool :=
  match v with
  | VStr _ | VBytes _ => true
  | _ => false
  end.

Definition invalid_tuple_msg : string :=
  "The view function did not return a valid response tuple. The tuple must have the form (body, status, headers), (body, status), or (body, headers).".

Definition none_body_msg : string :=
  "The view function did not return a valid response. The function either returned None or ended without a return statement.".

(** [rv.__class__.__name__] *)
Definition class_name (rv : pyval) : string :=
  match rv with
  | VNone => "NoneType"
  | VStr _ => "str"
  | VBytes _ => "bytes"
  | VInt _ => "int"
  | VTuple _ => "tuple"
  | VList _ => "list"
  | VDict _ => "dict"
  | VHeaders _ => "Headers"
  | VResponse _ => "Response"
  | VExn e => default "object" (head (exc_mro e))
  | VWsgiApp _ => "function"
  end.

Definition invalid_type_msg (e : exn) (rv : pyval) : string :=
  exc_message e ++ "
The view function did not return a valid response. The return type must be a string, tuple, Response instance, or WSGI callable, but it was a "
  ++ class_name rv ++ ".".

(** The tuple unpacking at the head of [make_response]: the body, the
    status and the headers, [None] where the tuple gives none. *)
Definition unpack_rv (rv : pyval) : result (pyval * pyval * pyval) :=
  match rv with
  | VTuple l =>
      match l with
      | [body; status; headers] => Ok (body, status, headers)
      | [body; x] =>
          if is_headers_type x then Ok (body, VNone, x) else Ok (body, x, VNone)
      | _ => Raise (TypeError invalid_tuple_msg)
      end
  | _ => Ok (rv, VNone, VNone)
  end.

Definition make_response (rv : pyval) : M W response :=
  unpacked <- lift (unpack_rv rv) ;;
  let '(rv, status, headers) := unpacked in
  (if is_None rv then raise (TypeError none_body_msg) else ret tt) ;;;
  coerced <-
    match rv with
    | VResponse r => ret (r, status, headers)
    | VStr body | VBytes body =>
        r <- lift (response_class body status headers) ;;
        ret (r, VNone, VNone)
    | _ =>
        _ <- current_request ;;
        match force_type rv with
        | Ok r => ret (r, status, headers)
        | Raise e =>
            if isinstance_exn e "TypeError"
            then raise (TypeError (invalid_type_msg e rv))
            else raise e
        end
    end ;;
  let '(rv, status, headers) := coerced in
  rv <- (if is_None status then ret rv
         else if is_text status then lift (assign_status status rv)
         else lift (assign_status_code status rv)) ;;
  rv <- (if truthy headers then lift (extend_headers headers rv) else ret rv) ;;
  ret rv.

(** [response = handler(response)] for each handler in turn *)
Fixpoint apply_handlers (funcs : list (callback W)) (response : pyval) : M W pyval :=
  match funcs with
  | [] => ret response
  | handler :: funcs' =>
      response' <- call KAfterRequest handler [response] ;;
      apply_handlers funcs' response'
  end.

Definition process_response (response : pyval) : M W pyval :=
  ctx <- top_request_context ;;
  let bp := blueprint (rc_request ctx) in
  d <- gets (fun s => after_request_funcs (self s)) ;;
  let funcs := _after_request_functions ctx in
  let funcs :=
    match bp with
    | Some b => match d !! Some b with Some fs => (funcs ++ rev fs)%list | None => funcs end
    | None => funcs
    end in
  let funcs :=
    match d !! None with Some fs => (funcs ++ rev fs)%list | None => funcs end in
  response <- apply_handlers funcs response ;;
  (if negb (session_null (rc_session ctx))
   then
     save <- gets (fun s => save_session (self s)) ;;
     call KSaveSession save [pyval_of_kwargs (session_data (rc_session ctx)); response] ;;;
     ret tt
   else ret tt) ;;;
  ret response.

Definition log_exception (e : exn) : M W unit :=
  req <- current_request ;;
  emit (EvLogError ("Exception on " ++ path req ++ " [" ++ method req ++ "]") (Some e)).

Definition finalize_request (rv : pyval) (from_error_handler : bool) : M W pyval :=
  response <- make_response rv ;;
  try_except
    (response' <- process_response (VResponse response) ;;
     emit (EvSignal "request-finished" None) ;;;
     ret response')
    (fun e =>
       if negb from_error_handler then raise e
       else
         emit (EvLogError "Request finalizing failed with an error while handling an error"
                          (Some e)) ;;;
         ret (VResponse response)).

Definition should_ignore_error (error : option exn) : bool := false.

Definition preserve_context_on_exception (s : state W) : bool :=
  match PRESERVE_CONTEXT_ON_EXCEPTION (app_config (self s)) with
  | Some rv => rv
  | None => debug s
  end.

Definition _get_exc_class_and_code (exc_class_or_code : Z + pyclass)
  : result (pyclass * option Z) :=
  match (match exc_class_or_code with
         | inl code =>
             match default_exceptions code with
             | Some c => Ok c
             | None => Raise (KeyError "default_exceptions")
             end
         | inr c => Ok c
         end) with
  | Raise e => Raise e
  | Ok exc_class =>
      if negb (issubclass exc_class "Exception") then Raise (AssertionError "")
      else if issubclass exc_class "HTTPException"
           then Ok (exc_class, cls_code exc_class)
           else Ok (exc_class, None)
  end.

(** [self.error_handler_spec.setdefault(name, {}).get(c)] *)
Definition setdefault_get (name : option string) (c : option Z)
  : M W (option (gmap string (callback W))) :=
  fun s =>
    match error_handler_spec (self s) !! name with
    | Some by_code => (Ok (by_code !! c), s)
    | None =>
        (Ok None,
         set_self (set_error_handler_spec (<[name := ∅]> (error_handler_spec (self s)))
                                          (self s)) s)
    end.

(** [for cls in exc_class.__mro__]: the first class with a handler *)
Fixpoint find_in_mro (handler_map : gmap string (callback W)) (mro : list string)
  : option (callback W) :=
  match mro with
  | [] => None
  | cls :: mro' =>
      match handler_map !! cls with
      | Some handler => Some handler
      | None => find_in_mro handler_map mro'
      end
  end.

(** [not handler_map]: [None] or an empty dictionary *)
Definition is_empty_map (handler_map : gmap string (callback W)) : bool :=
  match map_to_list handler_map with [] => true | _ => false end.

Fixpoint find_in_buckets (exc_class : pyclass) (buckets : list (option string * option Z))
  : M W (option (callback W)) :=
  match buckets with
  | [] => ret None
  | (name, c) :: buckets' =>
      handler_map <- setdefault_get name c ;;
      match handler_map with
      | None => find_in_buckets exc_class buckets'
      | Some hm =>
          if is_empty_map hm then find_in_buckets exc_class buckets'
          else
            match find_in_mro hm (cls_mro exc_class) with
            | Some handler => ret (Some handler)
            | None => find_in_buckets exc_class buckets'
            end
      end
  end.

Definition _find_error_handler (e : exn) : M W (option (callback W)) :=
  cc <- lift (_get_exc_class_and_code (inr (exc_class e))) ;;
  let '(exc_class, code) := cc in
  req <- current_request ;;
  let bp := blueprint req in
  find_in_buckets exc_class [(bp, code); (None, code); (bp, None); (None, None)].

Definition handle_http_exception (e : exn) : M W pyval :=
  match exc_code e with
  | None => ret (VExn e)
  | Some _ =>
      handler <- _find_error_handler e ;;
      match handler with
      | None => ret (VExn e)
      | Some h => call KErrorHandler h [VExn e]
      end
  end.

Definition trap_http_exception (e : exn) (s : state W) : bool :=
  if TRAP_HTTP_EXCEPTIONS (app_config (self s)) then true
  else
    let trap_bad_request := TRAP_BAD_REQUEST_ERRORS (app_config (self s)) in
    match trap_bad_request with
    | None =>
        if debug s && isinstance_exn e "BadRequestKeyError" then true else false
    | Some true => isinstance_exn e "BadRequest"
    | Some false => false
    end.

(** The head of [handle_user_exception]: in debug mode or when bad
    request errors are trapped, a [BadRequestKeyError] that still has the
    description of its class gets one that names the key. *)
Definition describe_key_error (e : exn) (s : state W) : exn :=
  if (debug s || default false (TRAP_BAD_REQUEST_ERRORS (app_config (self s))))
     && isinstance_exn e "BadRequestKeyError"
     && match exc_description e with None => true | Some _ => false end
  then Exn (exc_class e) (exc_message e) (Some ("KeyError: '" ++ exc_message e ++ "'")%string)
  else e.

(** [sys.exc_info()] and the traceback have no counterpart here: the
    assertion [exc_value is e] holds wherever the dispatch calls this
    method, and [reraise(exc_type, exc_value, tb)] raises [e]. *)
Definition handle_user_exception (e : exn) : M W pyval :=
  e <- gets (describe_key_error e) ;;
  trap <- gets (trap_http_exception e) ;;
  if isinstance_exn e "HTTPException" && negb trap then handle_http_exception e
  else
    handler <- _find_error_handler e ;;
    match handler with
    | None => raise e
    | Some h => call KErrorHandler h [VExn e]
    end.

Definition propagate_exceptions (s : state W) : bool :=
  match PROPAGATE_EXCEPTIONS (app_config (self s)) with
  | Some rv => rv
  | None => testing s || debug s
  end.

(** Here too [reraise(exc_type, exc_value, tb)] and [raise e] both raise
    [e]; the traceback is not part of the model. *)
Definition handle_exception (e : exn) : M W pyval :=
  emit (EvSignal "got-request-exception" (Some e)) ;;;
  handler <- _find_error_handler InternalServerError ;;
  propagate <- gets propagate_exceptions ;;
  if propagate then raise e
  else
    log_exception e ;;;
    match handler with
    | None => ret (VExn InternalServerError)
    | Some h =>
        rv <- call KErrorHandler h [VExn e] ;;
        finalize_request rv true
    end.

Definition full_dispatch_request : M W pyval :=
  try_trigger_before_first_request_functions ;;;
  rv <- try_except
          (emit (EvSignal "request-started" None) ;;;
           rv <- preprocess_request ;;
           if is_None rv then dispatch_request else ret rv)
          (fun e => handle_user_exception e) ;;
  finalize_request rv false.

Definition do_teardown_appcontext (exc : option exn) : M W unit :=
  funcs <- gets (fun s => teardown_appcontext_funcs (self s)) ;;
  for_each (rev funcs) (fun func =>
    call KTeardownAppcontext func [pyval_of_exc exc] ;;; ret tt) ;;;
  emit (EvSignal "appcontext-tearing-down" exc).

Definition do_teardown_request (exc : option exn) : M W unit :=
  d <- gets (fun s => teardown_request_funcs (self s)) ;;
  let funcs := rev (default [] (d !! None)) in
  ctx <- top_request_context ;;
  let bp := blueprint (rc_request ctx) in
  let funcs :=
    match bp with
    | Some b => match d !! Some b with Some fs => (funcs ++ rev fs)%list | None => funcs end
    | None => funcs
    end in
  for_each funcs (fun func =>
    call KTeardownRequest func [pyval_of_exc exc] ;;; ret tt) ;;;
  emit (EvSignal "request-tearing-down" exc).
End Flask.

(** ** The contexts ([__ctx.py]) and [wsgi_app] *)

(** Modelled from the spec: the WSGI environment as the constructor of
    [RequestContext] reads it ([__ctx.py], which is not among the source
    files).  The routing outcome is "captured at context-construction
    time", the session is "created via a pluggable session interface",
    and the flag tells whether "the context carries request data that
    should outlive a single call". *)
Record environ := Environ {
  env_request : request;
  env_session : session;
  env_allowed_methods : list string;
  env_preserve_context : bool
}.

Section Contexts.
Context {W : Type}.

(** Modelled from the spec: [RequestContext(self, environ)] of
    [__ctx.py], which is not among the source files.  A new context
    object with an empty list of post-response callbacks that owns no
    application context yet. *)
Definition request_context (environ : environ) : M W (request_ctx W) :=
  fun s =>
    (Ok (RequestContext (next_id s) (app_id (self s)) (env_request environ)
                        (env_session environ) (env_allowed_methods environ) []
                        (env_preserve_context environ) false),
     set_next_id (S (next_id s)) s).

(** Modelled from the spec: [AppContext.push] of [__ctx.py], which is
    not among the source files.  "If the current top of the app stack
    already wraps the same application instance, increment its reference
    count and reuse it; otherwise create a new AppContext and push
    it." *)
Definition app_context_push : M W unit :=
  fun s =>
    match _app_ctx_stack s with
    | c :: st =>
        if Nat.eqb (ac_app c) (app_id (self s))
        then (Ok tt, set_app_ctx_stack (AppContext (ac_app c) (ac_g c) (S (ac_refcnt c)) :: st) s)
        else (Ok tt, set_app_ctx_stack (AppContext (app_id (self s)) [] 1 :: c :: st) s)
    | [] => (Ok tt, set_app_ctx_stack [AppContext (app_id (self s)) [] 1] s)
    end.

(** Modelled from the spec: [AppContext.pop] of [__ctx.py], which is not
    among the source files.  "Decrement reference count; only when it
    reaches zero, run the application-level callbacks (passing the
    exception, if any) and discard the globals scratch object, then
    remove from the stack.  Popping a context that is not the current
    top is a fatal usage error." *)
Definition app_context_pop (exc : option exn) : M W unit :=
  st <- gets (fun s => _app_ctx_stack s) ;;
  me <- gets (fun s => app_id (self s)) ;;
  match st with
  | c :: st' =>
      if Nat.eqb (ac_app c) me
      then
        match Nat.pred (ac_refcnt c) with
        | O =>
            do_teardown_appcontext exc ;;;
            modify (set_app_ctx_stack st')
        | S n =>
            modify (set_app_ctx_stack (AppContext (ac_app c) (ac_g c) (S n) :: st'))
        end
      else raise (AssertionError "Popped wrong app context.")
  | [] => raise (AssertionError "Popped wrong app context.")
  end.

(** Modelled from the spec: [RequestContext.push] of [__ctx.py], which
    is not among the source files.  "Determine if an AppContext for this
    request's application is already current; if not, push one and
    remember that this RequestContext owns it; then push the
    RequestContext itself onto the request stack."  The result is the
    context object in its state after the push. *)
Definition push (ctx : request_ctx W) : M W (request_ctx W) :=
  st <- gets (fun s => _app_ctx_stack s) ;;
  let current :=
    match top st with
    | Some c => Nat.eqb (ac_app c) (rc_app ctx)
    | None => false
    end in
  (if current then ret tt else app_context_push) ;;;
  let ctx' :=
    RequestContext (rc_id ctx) (rc_app ctx) (rc_request ctx) (rc_session ctx)
                   (rc_allowed_methods ctx) (_after_request_functions ctx)
                   (rc_preserve ctx) (negb current) in
  modify (fun s => set_request_ctx_stack (ctx' :: _request_ctx_stack s) s) ;;;
  ret ctx'.

(** Modelled from the spec: [RequestContext.pop] of [__ctx.py], which
    is not among the source files.  "Run request-level teardown
    callbacks, pop the RequestContext, and if it owns an AppContext, pop
    that too (propagating the same exception value)"; the stack's [pop]
    fails "with an assertion-style fatal error if the popped object is
    not the expected one". *)
Definition pop (ctx : request_ctx W) (exc : option exn) : M W unit :=
  do_teardown_request exc ;;;
  st <- gets (fun s => _request_ctx_stack s) ;;
  match st with
  | c :: st' =>
      if Nat.eqb (rc_id c) (rc_id ctx)
      then
        modify (set_request_ctx_stack st') ;;;
        if rc_owns_app_ctx ctx then app_context_pop exc else ret tt
      else raise (AssertionError "Popped wrong request context.")
  | [] => raise (AssertionError "Popped wrong request context.")
  end.

(** Modelled from the spec: [RequestContext.auto_pop] of [__ctx.py],
    which is not among the source files.  "If the context carries
    request data that should outlive a single call, postpone the pop;
    otherwise pop immediately." *)
Definition auto_pop (ctx : request_ctx W) (exc : option exn) : M W unit :=
  if rc_preserve ctx then ret tt else pop ctx exc.

(** The [except] clauses of [wsgi_app]: the new value of the local
    variable [error] and the outcome. *)
Definition wsgi_app_except (e : exn) : M W (option exn * result pyval) :=
  fun s =>
    if isinstance_exn e "Exception"
    then match handle_exception e s with
         | (r, s') => (Ok (Some e, r), s')
         end
    else (Ok (Some e, Raise e), s).

(** The inner [try] statement of [wsgi_app]: the context as [push]
    left it, the local variable [error] and the outcome. *)
Definition wsgi_app_try (ctx : request_ctx W)
  : M W (request_ctx W * option exn * result pyval) :=
  fun s =>
    match push ctx s with
    | (Raise e, s1) =>
        match wsgi_app_except e s1 with
        | (Ok (error, r), s2) => (Ok (ctx, error, r), s2)
        | (Raise e', s2) => (Raise e', s2)
        end
    | (Ok ctx', s1) =>
        match full_dispatch_request s1 with
        | (Ok response, s2) => (Ok (ctx', None, Ok response), s2)
        | (Raise e, s2) =>
            match wsgi_app_except e s2 with
            | (Ok (error, r), s3) => (Ok (ctx', error, r), s3)
            | (Raise e', s3) => (Raise e', s3)
            end
        end
    end.

Definition wsgi_app (environ : environ) : M W response :=
  ctx <- request_context environ ;;
  tried <- wsgi_app_try ctx ;;
  let '(ctx, error, outcome) := tried in
  try_finally
    (match outcome with
     | Ok response => lift (call_wsgi response)
     | Raise e => raise e
     end)
    (let error := if should_ignore_error error then None else error in
     auto_pop ctx error).
End Contexts.

(** ** [add_url_rule] *)

(** The [methods] option of [add_url_rule]: a string, or an iterable of
    strings. *)
Inductive methods_option :=
| MethodsString (m : string)
| MethodsList (ms : list string).

Definition upper_ascii (c : Ascii.ascii) : Ascii.ascii :=
  let n := Ascii.nat_of_ascii c in
  if (Nat.leb 97 n && Nat.leb n 122)%bool then Ascii.ascii_of_nat (n - 32) else c.

(** [item.upper()] for a method name written in ASCII, as the names of
    HTTP methods are.  Text is a string of bytes here; on a letter
    outside ASCII Python's [upper] may act where this function does not
    (it turns U+017F into [S]). *)
Fixpoint upper (s : string) : string :=
  match s with
  | EmptyString => EmptyString
  | String c s' => String (upper_ascii c) (upper s')
  end.

(** [rule.provide_automatic_options = b] *)
Definition set_provide_automatic_options (b : bool) (r : rule) : rule :=
  Rule (rule_string r) (rule_methods r) (endpoint r) b.

Section AddUrlRule.
Context {W : Type}.

(** The helper [_endpoint_from_view_func] of [__helpers.py] and the
    constructor [url_rule_class] of werkzeug's [Rule] (called with the
    rule string, the methods and the endpoint); neither is among the
    source files, both may raise. *)
Variable _endpoint_from_view_func : option (view_function W) -> result string.
Variable url_rule_class : string -> gset string -> string -> result rule.

Definition setup_msg : string :=
  "A setup function was called after the first request was handled.  This usually indicates a bug in the application where a module was not imported and decorators or other functionality was called too late.
To fix this make sure to import all your view modules, database models and everything related at a central place before the application starts serving requests.".

(** The decorator [setupmethod] applied to [f] *)
Definition setupmethod {A} (f : M W A) : M W A :=
  dbg <- gets debug ;;
  got <- gets (fun s => _got_first_request (self s)) ;;
  if dbg && got then raise (AssertionError setup_msg) else f.

Definition overwriting_msg (endpoint : string) : string :=
  "View function mapping is overwriting an existing endpoint function: " ++ endpoint.

Definition add_url_rule (rule : string) (endpoint : option string)
    (view_func : option (view_function W))
    (provide_automatic_options : option bool)
    (methods : option methods_option) : M W unit :=
  setupmethod
    (endpoint <- match endpoint with
                 | Some ep => ret ep
                 | None => lift (_endpoint_from_view_func view_func)
                 end ;;
     let methods :=
       match methods with
       | Some ms => ms
       | None =>
           match view_func with
           | Some vf =>
               match vf_methods vf with
               | Some (m :: ms) => MethodsList (m :: ms)
               | _ => MethodsList ["GET"]
               end
           | None => MethodsList ["GET"]
           end
       end in
     methods <- match methods with
                | MethodsString _ =>
                    raise (TypeError ("Allowed methods have to be iterables of strings, for example: @app.route(..., methods=["
                                      ++ double_quote ++ "POST" ++ double_quote ++ "])"))
                | MethodsList ms => ret (list_to_set (map upper ms) : gset string)
                end ;;
     let required_methods : gset string :=
       match view_func with
       | Some vf => list_to_set (vf_required_methods vf)
       | None => ∅
       end in
     let provide_automatic_options :=
       match provide_automatic_options with
       | Some b => Some b
       | None =>
           match view_func with
           | Some vf => vf_provide_automatic_options vf
           | None => None
           end
       end in
     let '(provide_automatic_options, required_methods) :=
       match provide_automatic_options with
       | Some b => (b, required_methods)
       | None =>
           if bool_decide ("OPTIONS" ∈ methods)
           then (false, required_methods)
           else (true, required_methods ∪ {["OPTIONS"]})
       end in
     let methods := methods ∪ required_methods in
     rule <- lift (url_rule_class rule methods endpoint) ;;
     let rule := set_provide_automatic_options provide_automatic_options rule in
     modify (fun s => set_self (set_url_map (url_map (self s) ++ [rule]) (self s)) s) ;;;
     match view_func with
     | None => ret tt
     | Some vf =>
         old_func <- gets (fun s => view_functions (self s) !! endpoint) ;;
         match old_func with
         | Some old =>
             if negb (Nat.eqb (cb_id (vf_func old)) (cb_id (vf_func vf)))
             then raise (AssertionError (overwriting_msg endpoint))
             else modify (fun s =>
                    set_self (set_view_functions (<[endpoint := vf]> (view_functions (self s)))
                                                 (self s)) s)
         | None =>
             modify (fun s =>
               set_self (set_view_functions (<[endpoint := vf]> (view_functions (self s)))
                                            (self s)) s)
         end
     end).
End AddUrlRule.

(** ** The first-request check, thread by thread *)

(** Where a thread stands in
    [try_trigger_before_first_request_functions]. *)
Inductive position :=
| AtTest                            (* before [if self._got_first_request] *)
| AtLock                            (* before [with self._before_request_lock] *)
| AtSecondTest                      (* in the block, before the second test *)
| AtCall (k : nat)                  (* in the block, before the call of [funcs[k]] *)
| AtSet                             (* in the block, before the flag is set *)
| AtRelease (pending : option exn)  (* leaving the block *)
| Returned
| Raised (e : exn).

(** Whether a thread at this position holds the lock. *)
Definition holds_lock (p : position) : bool :=
  match p with
  | AtSecondTest | AtCall _ | AtSet | AtRelease _ => true
  | _ => false
  end.

(** What the threads share: the flag and the lock of the application
    (with the thread that holds it), the state of the callbacks, and the
    identities of the before-first-request functions called so far. *)
Record shared (W : Type) := Shared {
  shared_got_first_request : bool;
  shared_lock : option nat;
  shared_world : W;
  shared_calls : list nat
}.
Arguments Shared {W}.
Arguments shared_got_first_request {W} s.
Arguments shared_lock {W} s.
Arguments shared_world {W} s.
Arguments shared_calls {W} s.

Section Threads.
Context {W : Type}.
Variable funcs : list (callback W).

(** One step of thread [i] from position [p]; [None] when the thread
    cannot move (it waits for the lock, or it is done). *)
Definition thread_step (i : nat) (p : position) (sh : shared W)
  : option (position * shared W) :=
  match p with
  | AtTest =>
      Some (if shared_got_first_request sh then Returned else AtLock, sh)
  | AtLock =>
      match shared_lock sh with
      | None =>
          Some (AtSecondTest,
                Shared (shared_got_first_request sh) (Some i) (shared_world sh)
                       (shared_calls sh))
      | Some _ => None
      end
  | AtSecondTest =>
      Some (if shared_got_first_request sh then AtRelease None else AtCall 0, sh)
  | AtCall k =>
      match funcs !! k with
      | Some func =>
          match cb_run func [] (shared_world sh) with
          | (Ok _, w) =>
              Some (AtCall (S k),
                    Shared (shared_got_first_request sh) (shared_lock sh) w
                           (shared_calls sh ++ [cb_id func]))
          | (Raise e, w) =>
              Some (AtRelease (Some e),
                    Shared (shared_got_first_request sh) (shared_lock sh) w
                           (shared_calls sh ++ [cb_id func]))
          end
      | None => Some (AtSet, sh)
      end
  | AtSet =>
      Some (AtRelease None,
            Shared true (shared_lock sh) (shared_world sh) (shared_calls sh))
  | AtRelease pending =>
      Some (match pending with None => Returned | Some e => Raised e end,
            Shared (shared_got_first_request sh) None (shared_world sh) (shared_calls sh))
  | Returned | Raised _ => None
  end.

(** Any thread that can move may take the next step. *)
Inductive interleaved_step : list position * shared W → list position * shared W → Prop :=
| step_of_thread i p p' ps sh sh' :
    ps !! i = Some p →
    thread_step i p sh = Some (p', sh') →
    interleaved_step (ps, sh) (<[i := p']> ps, sh').

(** What the code relies on for a thread at position [p], given the
    identities [ids] of the functions to call: a thread in the block
    holds the lock; the calls made so far are those the loop has reached;
    the block is left normally, with the flag set. *)
Definition position_ok (ids : list nat) (i : nat) (p : position) (sh : shared W) : Prop :=
  (holds_lock p = true → shared_lock sh = Some i)
  ∧ match p with
    | AtTest | AtLock => True
    | AtSecondTest => shared_got_first_request sh = false → shared_calls sh = []
    | AtCall k => shared_got_first_request sh = false ∧ shared_calls sh = take k ids
    | AtSet => shared_got_first_request sh = false ∧ shared_calls sh = ids
    | AtRelease pending => pending = None ∧ shared_got_first_request sh = true
    | Returned => shared_got_first_request sh = true
    | Raised _ => False
    end.

(** What holds in every state that the threads can reach. *)
Record first_request_invariant (st : list position * shared W) : Prop := {
  inv_threads : ∀ i p, st.1 !! i = Some p → position_ok (map cb_id funcs) i p st.2;
  inv_prefix : ∃ k, shared_calls st.2 = take k (map cb_id funcs);
  inv_free : shared_got_first_request st.2 = false → shared_lock st.2 = None →
             shared_calls st.2 = [];
  inv_done : shared_got_first_request st.2 = true →
             shared_calls st.2 = map cb_id funcs
}.

(** The steps of thread [i] alone. *)
Definition alone_step (i : nat) (x y : position * shared W) : Prop :=
  thread_step i x.1 x.2 = Some y.

(** [n] threads enter the method of an application that has served no
    request yet. *)
Definition threads_start (n : nat) (w : W) : list position * shared W :=
  (replicate n AtTest, Shared false None w []).
End Threads.

(** The identities of the before-first-request functions called in a
    piece of the log. *)
Definition first_request_calls (l : list event) : list nat :=
  omap (fun ev => match ev with
                  | EvCall KBeforeFirstRequest id _ _ => Some id
                  | _ => None
                  end) l.

(** ** Definitions that follow the specification's words

    The operations above are translated from the source.  The
    definitions of this part say what the specification says; the
    theorems compare the two. *)

(** "Header-like (a mapping or list-of-pairs or multi-valued-header
    object)". *)
Definition spec_header_like (v : pyval) : bool :=
  match v with
  | VDict _ | VList _ | VHeaders _ => true
  | _ => false
  end.

(** The body of a response that needs no call: "a string/bytes body"
    gives "status 200, body unchanged"; "an already-canonical response
    object" is taken as it is. *)
Definition spec_body (body : pyval) : option response :=
  match body with
  | VStr text | VBytes text => Some (Response text "200 OK" 200 [])
  | VResponse r => Some r
  | _ => None
  end.

(** "When a status is supplied as text, it overwrites the response's
    status line verbatim; when numeric, only the status code is
    overwritten."  No status leaves the response as it is. *)
Definition spec_status (status : pyval) (r : response) : option response :=
  match status with
  | VNone => Some r
  | VStr line | VBytes line =>
      Some (Response (resp_body r) line (resp_status_code r) (resp_headers r))
  | VInt code => Some (Response (resp_body r) (resp_status r) code (resp_headers r))
  | _ => None
  end.

(** "Supplied headers are appended to (not replacing) any headers
    already present." *)
Definition spec_headers (items : list (string * string)) (r : response) : response :=
  Response (resp_body r) (resp_status r) (resp_status_code r) (resp_headers r ++ items).

Section SpecDefinitions.
Context {W : Type}.

(** One bucket of the registry: "within a bucket, search the
    exception's type hierarchy from most to least specific, returning
    the first registered handler found, or none". *)
Definition spec_bucket
    (registry : gmap (option string) (gmap (option Z) (gmap string (callback W))))
    (mro : list string) (name : option string) (c : option Z) : option (callback W) :=
  match registry !! name with
  | Some by_code =>
      match by_code !! c with
      | Some handler_map => head (omap (fun cls => handler_map !! cls) mro)
      | None => None
      end
  | None => None
  end.

(** The status code of the exception, "if it carries an HTTP status
    code". *)
Definition spec_code (e : exn) : option Z :=
  if isinstance_exn e "HTTPException" then exc_code e else None.

(** "Lookup always tries four scope/code combinations in a fixed
    precedence order (blueprint+code, global+code, blueprint+type-only,
    global+type-only) before giving up." *)
Definition spec_find_error_handler
    (registry : gmap (option string) (gmap (option Z) (gmap string (callback W))))
    (bp : option string) (e : exn) : option (callback W) :=
  let code := spec_code e in
  match spec_bucket registry (exc_mro e) bp code with
  | Some h => Some h
  | None =>
      match spec_bucket registry (exc_mro e) None code with
      | Some h => Some h
      | None =>
          match spec_bucket registry (exc_mro e) bp None with
          | Some h => Some h
          | None => spec_bucket registry (exc_mro e) None None
          end
      end
  end.

(** The first bucket of a list of buckets that yields a handler. *)
Fixpoint spec_first_bucket
    (registry : gmap (option string) (gmap (option Z) (gmap string (callback W))))
    (mro : list string) (buckets : list (option string * option Z)) : option (callback W) :=
  match buckets with
  | [] => None
  | (name, c) :: buckets' =>
      match spec_bucket registry mro name c with
      | Some h => Some h
      | None => spec_first_bucket registry mro buckets'
      end
  end.

(** "Scoped global, then blueprint-specific": the callbacks registered
    for every request, followed by those of the request's blueprint. *)
Definition spec_scoped {A} (d : gmap (option string) (list A)) (bp : option string)
  : list A :=
  default [] (d !! None)
  ++ match bp with
     | Some b => default [] (d !! Some b)
     | None => []
     end.

(** The teardown order: each list most-recently-registered first, the
    functions of every request before those of the blueprint. *)
Definition spec_teardown_order {A} (d : gmap (option string) (list A))
    (bp : option string) : list A :=
  rev (default [] (d !! None))
  ++ match bp with
     | Some b => rev (default [] (d !! Some b))
     | None => []
     end.

(** The event that the callback [c] leaves in the log when it is
    called with [args] and returns [v]. *)
Definition call_event (k : kind) (args : list pyval) (c : callback W) (v : pyval)
  : event :=
  EvCall k (cb_id c) args (Ok v).

(** A callback that returns normally whatever it is given. *)
Definition returns_normally (c : callback W) : Prop :=
  ∀ args w, ∃ v w', cb_run c args w = (Ok v, w').

(** The calls of teardown callbacks in a piece of the log (callback,
    arguments), without the values they returned. *)
Definition teardown_call (ev : event) : option (kind * nat * list pyval) :=
  match ev with
  | EvCall KTeardownRequest id args _ => Some (KTeardownRequest, id, args)
  | EvCall KTeardownAppcontext id args _ => Some (KTeardownAppcontext, id, args)
  | _ => None
  end.

Definition teardown_calls (l : list event) : list (kind * nat * list pyval) :=
  omap teardown_call l.

(** The exception that escapes [full_dispatch_request] for the request
    in [environ], which is what [wsgi_app] keeps in its local variable
    [error]. *)
Definition escaping_exception (environ : environ) (s : state W) : option exn :=
  match (ctx <- request_context environ ;;
         _ <- push ctx ;;
         full_dispatch_request) s with
  | (Raise e, _) => Some e
  | (Ok _, _) => None
  end.

(** The context object after [push], when [push] had to push an
    application context of its own. *)
Definition pushed (ctx : request_ctx W) : request_ctx W :=
  RequestContext (rc_id ctx) (rc_app ctx) (rc_request ctx) (rc_session ctx)
                 (rc_allowed_methods ctx) (_after_request_functions ctx)
                 (rc_preserve ctx) true.

(** What the dispatch core leaves untouched: the configuration, the
    identity of the application, the view functions, the URL map, the
    callback registries and the session saver, both context stacks and
    the counter of object identities; the log only grows, and by no
    call of a teardown callback.  What is left out is what the dispatch
    core writes: the registry of error handlers (where a lookup may
    leave an empty dictionary), the flag [_got_first_request], the
    state of the callbacks and the log. *)
Record frame (s s' : state W) : Prop := Frame {
  frame_config : app_config (self s') = app_config (self s);
  frame_app_id : app_id (self s') = app_id (self s);
  frame_view_functions : view_functions (self s') = view_functions (self s);
  frame_before_request : before_request_funcs (self s') = before_request_funcs (self s);
  frame_after_request : after_request_funcs (self s') = after_request_funcs (self s);
  frame_teardown_request :
    teardown_request_funcs (self s') = teardown_request_funcs (self s);
  frame_teardown_appcontext :
    teardown_appcontext_funcs (self s') = teardown_appcontext_funcs (self s);
  frame_request_ctx_stack : _request_ctx_stack s' = _request_ctx_stack s;
  frame_app_ctx_stack : _app_ctx_stack s' = _app_ctx_stack s;
  frame_log : ∃ l, log s' = log s ++ l ∧ teardown_calls l = [];
  frame_before_first_request :
    before_first_request_funcs (self s') = before_first_request_funcs (self s);
  frame_url_value_preprocessors :
    url_value_preprocessors (self s') = url_value_preprocessors (self s);
  frame_url_map : url_map (self s') = url_map (self s);
  frame_save_session : save_session (self s') = save_session (self s);
  frame_next_id : next_id s' = next_id s
}.

Definition preserves {A} (m : M W A) : Prop :=
  ∀ s r s', m s = (r, s') → frame s s'.
End SpecDefinitions.

(** ** Concrete applications *)

Module Examples.
(** Callbacks without state of their own. *)
Definition returning (id : nat) (v : pyval) : callback unit :=
  Callback id (fun _ w => (Ok v, w)).
Definition raising (id : nat) (e : exn) : callback unit :=
  Callback id (fun _ w => (Raise e, w)).

Definition production : config := Config false false None None None false.
Definition development : config := Config true false None None None false.

(** The view of [src/simple/2.*.py]: [index] returns "Hello Flask". *)
Definition index : view_function unit :=
  ViewFunction (returning 10 (VStr "Hello Flask")) "index" None [] None.
Definition other_index : view_function unit :=
  ViewFunction (returning 11 (VStr "Hello again")) "index" None [] None.

Definition index_rule : rule := Rule "/" {[ "GET" ]} "index" false.

Definition app (c : config) : flask unit :=
  Flask 1 c {[ "index" := index ]} ∅ ∅ [] ∅ ∅ [] ∅ [index_rule] false (returning 0 VNone).

Definition get_index : request :=
  Request "GET" "/" None (Some index_rule) (Some []) None.

Definition environ_of (req : request) (preserve : bool) : environ :=
  Environ req (Session true []) ["GET"] preserve.

Definition fresh (a : flask unit) : state unit := State a [] [] tt [] 0.

(** An application whose second before-first-request function fails. *)
Definition flaky_app : flask unit :=
  Flask 1 production {[ "index" := index ]} ∅ ∅
        [returning 1 VNone; raising 2 (RuntimeError "no database")]
        ∅ ∅ [] ∅ [index_rule] false (returning 0 VNone).

(** How often the before-first-request function [id] was called. *)
Definition count_before_first_request (id : nat) (l : list event) : nat :=
  length (List.filter (fun ev => match ev with
                            | EvCall KBeforeFirstRequest id' _ _ => Nat.eqb id id'
                            | _ => false
                            end) l).

(** Stand-ins for the two collaborators of [add_url_rule]: the
    endpoint is the name of the view function, and every rule string
    makes a rule. *)
Definition endpoint_of_view_func (view_func : option (view_function unit))
  : result string :=
  match view_func with
  | Some vf => Ok (vf_name vf)
  | None => Raise (AssertionError "expected view func if endpoint is not provided.")
  end.

Definition make_rule (pattern : string) (methods : gset string) (ep : string)
  : result rule :=
  Ok (Rule pattern methods ep false).

(** A redirect suggested by the routing, for a GET and for a POST. *)
Definition redirect : exn :=
  Exn (PyClass ["RequestRedirect"; "HTTPException"; "RoutingException"; "Exception";
                "BaseException"; "object"] (Some 301)) "/rdt/" None.

Definition redirected (m : string) : request :=
  Request m "/rdt" None None None (Some redirect).

(** An application with a handler for [ValueError] in the blueprint
    [admin] and another one for the whole application. *)
Definition value_error : exn := builtin_exception "ValueError" "bad value".
Definition global_handler : callback unit := returning 20 (VStr "global").
Definition blueprint_handler : callback unit := returning 21 (VStr "blueprint").

Definition handlers_app : flask unit :=
  Flask 1 production {[ "index" := index ]}
        {[ None := {[ None := {[ "ValueError" := global_handler ]} ]};
           Some "admin" := {[ None := {[ "ValueError" := blueprint_handler ]} ]} ]}
        ∅ [] ∅ ∅ [] ∅ [index_rule] false (returning 0 VNone).

Definition admin_request : request :=
  Request "GET" "/admin/" (Some "admin") (Some (Rule "/admin/" {[ "GET" ]} "admin.home" false))
          (Some []) None.

(** An application whose second before-request function answers the
    request itself. *)
Definition guarded_app : flask unit :=
  Flask 1 production {[ "index" := index ]} ∅
        {[ None := [returning 30 VNone; returning 31 (VStr "stop"); returning 32 VNone] ]}
        [] ∅ ∅ [] {[ None := [returning 33 VNone] ]} [index_rule] true (returning 0 VNone).

(** An application with teardown functions and a view that fails. *)
Definition boom : exn := RuntimeError "boom".

Definition teardown_app : flask unit :=
  Flask 1 production
        {[ "index" := ViewFunction (raising 10 boom) "index" None [] None ]} ∅ ∅ [] ∅
        {[ None := [returning 40 VNone; returning 41 VNone] ]} [returning 42 VNone]
        ∅ [index_rule] false (returning 0 VNone).

(** An application that propagates exceptions. *)
Definition propagating : config := Config false false (Some true) None None false.

(** A state in which the context of [req] has been pushed. *)
Definition serving (a : flask unit) (req : request) : state unit :=
  State a [RequestContext 0 (app_id a) req (Session true []) ["GET"] [] false true]
        [AppContext (app_id a) [] 1] tt [] 1.
End Examples.
(** *** [route] *)

(** The keyword options of [route] that [add_url_rule] reads. *)
Record route_options := RouteOptions {
  opt_endpoint : option string;
  opt_provide_automatic_options : option bool;
  opt_methods : option methods_option
}.

(** [options.pop('endpoint', None)]: the value, and the dictionary
    without the key. *)
Definition pop_endpoint (options : route_options) : option string * route_options :=
  (opt_endpoint options,
   RouteOptions None (opt_provide_automatic_options options) (opt_methods options)).

Section Route.
Context {W : Type}.
Variable _endpoint_from_view_func : option (view_function W) -> result string.
Variable url_rule_class : string -> gset string -> string -> result rule.

(** [route(rule, **options)] returns the function [decorator], a
    closure over the rule and the dictionary [options].  This is
    [decorator] applied to [f].  The dictionary belongs to the closure:
    what one call leaves in it is what the next call finds, so the
    outcome comes with the dictionary as the call left it. *)
Definition decorator (pattern : string) (options : route_options) (f : view_function W)
  : state W -> (result (view_function W) * route_options) * state W :=
  fun s =>
    let '(endpoint, options) := pop_endpoint options in
    match add_url_rule _endpoint_from_view_func url_rule_class pattern endpoint (Some f)
                       (opt_provide_automatic_options options) (opt_methods options) s with
    | (Ok _, s') => ((Ok f, options), s')
    | (Raise e, s') => ((Raise e, options), s')
    end.

End Route.

(** ** [__json.py] *)

(** Bytes are integers between 0 and 255. *)
Definition BOM_UTF8 : list Z := [0xef; 0xbb; 0xbf].
Definition BOM_UTF16_BE : list Z := [0xfe; 0xff].
Definition BOM_UTF16_LE : list Z := [0xff; 0xfe].
Definition BOM_UTF32_BE : list Z := [0; 0; 0xfe; 0xff].
Definition BOM_UTF32_LE : list Z := [0xff; 0xfe; 0; 0].

(** The slice [data[::2]]; [data[1::2]] is [every_second (drop 1 data)]. *)
Fixpoint every_second (data : list Z) : list Z :=
  match data with
  | [] => []
  | b :: data' => b :: match data' with
                       | [] => []
                       | _ :: data'' => every_second data''
                       end
  end.

Definition detect_encoding (data : list Z) : string :=
  let head := take 4 data in
  if bool_decide (take 3 head = BOM_UTF8) then "utf-8-sig"
  else if negb (bool_decide (0 ∈ head)) then "utf-8"
  else if bool_decide (head = BOM_UTF32_BE) || bool_decide (head = BOM_UTF32_LE)
  then "utf-32"
  else if bool_decide (take 2 head = BOM_UTF16_BE)
          || bool_decide (take 2 head = BOM_UTF16_LE)
  then "utf-16"
  else
    match (if Nat.eqb (length head) 4
           then
             if bool_decide (take 3 head = [0; 0; 0]) then Some "utf-32-be"
             else if bool_decide (every_second head = [0; 0]) then Some "utf-16-be"
             else if bool_decide (drop 1 head = [0; 0; 0]) then Some "utf-32-le"
             else if bool_decide (every_second (drop 1 head) = [0; 0])
                  then Some "utf-16-le"
                  else None
           else None) with
    | Some encoding => encoding
    | None =>
        if Nat.eqb (length head) 2
        then (if bool_decide (take 1 head = [0]) then "utf-16-be" else "utf-16-le")
        else "utf-8"
    end.

(** The five encodings of JSON text that carry no byte order mark, and
    what Python's codecs make of a text of ASCII characters in each of
    them ([text.encode(name)]): one byte per character in UTF-8, two in
    UTF-16 and four in UTF-32, the character's byte last (big endian)
    or first (little endian) and the others zero. *)
Inductive utf := UTF_8 | UTF_16_BE | UTF_16_LE | UTF_32_BE | UTF_32_LE.

Definition utf_name (u : utf) : string :=
  match u with
  | UTF_8 => "utf-8"
  | UTF_16_BE => "utf-16-be"
  | UTF_16_LE => "utf-16-le"
  | UTF_32_BE => "utf-32-be"
  | UTF_32_LE => "utf-32-le"
  end.

Definition encode_ascii_character (u : utf) (c : Z) : list Z :=
  match u with
  | UTF_8 => [c]
  | UTF_16_BE => [0; c]
  | UTF_16_LE => [c; 0]
  | UTF_32_BE => [0; 0; 0; c]
  | UTF_32_LE => [c; 0; 0; 0]
  end.

Definition encode_ascii (u : utf) (text : list Z) : list Z :=
  flat_map (encode_ascii_character u) text.

(** *** [dumps] and [htmlsafe_dumps] *)

(** The values of the keyword arguments that the dump and load
    functions handle: [None], booleans, text (the name of an encoding)
    and classes (an encoder or a decoder, by name). *)
Inductive kwarg :=
| KwNone
| KwBool (b : bool)
| KwText (s : string)
| KwClass (name : string).

(** [kwargs.setdefault(k, v)] *)
Definition setdefault (k : string) (v : kwarg) (kwargs : gmap string kwarg)
  : gmap string kwarg :=
  match kwargs !! k with
  | Some _ => kwargs
  | None => <[k := v]> kwargs
  end.

(** What the functions of [__json.py] read from a blueprint and from
    the application.  An object of [current_app.blueprints] has the
    attributes [json_encoder] and [json_decoder], [None] unless it sets
    its own.  On the application the two attributes may be missing
    ([None] here): the class [Flask] of [__flask.py] defines neither,
    and [__init__] sets neither, so an instance has them only when
    they were assigned to it.  [blueprints] is the dictionary that
    [__init__] creates, and the two configuration values are in
    [default_config]. *)
Record blueprint_json := BlueprintJson {
  bp_json_encoder : option string;
  bp_json_decoder : option string
}.

Record app_json := AppJson {
  blueprints : gmap string blueprint_json;
  json_encoder : option string;
  json_decoder : option string;
  JSON_AS_ASCII : bool;
  JSON_SORT_KEYS : bool
}.

(** An instance of [Flask] as [__init__] leaves it. *)
Definition flask_json : app_json := AppJson ∅ None None true true.

(** [current_app.json_encoder] and [current_app.json_decoder] *)
Definition getattr_json (attribute : option string) (name : string) : result string :=
  match attribute with
  | Some cls => Ok cls
  | None => Raise (AttributeError ("'Flask' object has no attribute '" ++ name ++ "'"))
  end.

(** [s.replace(old, new)] for a pattern [old] that is not empty: the
    occurrences of [old] are found from left to right and do not
    overlap.  [skip] counts the characters of an occurrence that are
    still to be passed over. *)
Fixpoint replace_from (old new : string) (skip : nat) (s : string) : string :=
  match s with
  | EmptyString => EmptyString
  | String c s' =>
      match skip with
      | S k => replace_from old new k s'
      | O =>
          if String.prefix old s
          then (new ++ replace_from old new (String.length old - 1) s')%string
          else String c (replace_from old new 0 s')
      end
  end.

Definition str_replace (old new s : string) : string := replace_from old new 0 s.

Section Json.
(** The objects the proxies [current_app] and [request] stand for
    ([None] for a proxy that is not bound, which is false in a test),
    the function [dumps] of the JSON library ([_json.dumps]), the method
    [encode] of text and the module constant [_slash_escape]. *)
Variable app : option app_json.
Variable req : option request.
Variable _json_dumps : pyval -> gmap string kwarg -> result pyval.
Variable str_encode : string -> kwarg -> result string.
Variable _slash_escape : bool.

(** [current_app.blueprints.get(request.blueprint) if request else None] *)
Definition request_blueprint (a : app_json) : option blueprint_json :=
  match req with
  | Some r =>
      match blueprint r with
      | Some name => blueprints a !! name
      | None => None
      end
  | None => None
  end.

(** The default is an argument of [setdefault], so it is evaluated
    before the call, whether [kwargs] has the key or not:
    [bp.json_encoder if bp and bp.json_encoder else
    current_app.json_encoder]. *)
Definition default_encoder (a : app_json) : result string :=
  match request_blueprint a with
  | Some b =>
      match bp_json_encoder b with
      | Some encoder => Ok encoder
      | None => getattr_json (json_encoder a) "json_encoder"
      end
  | None => getattr_json (json_encoder a) "json_encoder"
  end.

Definition default_decoder (a : app_json) : result string :=
  match request_blueprint a with
  | Some b =>
      match bp_json_decoder b with
      | Some decoder => Ok decoder
      | None => getattr_json (json_decoder a) "json_decoder"
      end
  | None => getattr_json (json_decoder a) "json_decoder"
  end.

(** [kwargs] is changed in place; the result is the dictionary after
    the call, or the exception that ended it. *)
Definition _dump_arg_defaults (kwargs : gmap string kwarg) : result (gmap string kwarg) :=
  match app with
  | Some a =>
      match default_encoder a with
      | Raise e => Raise e
      | Ok encoder =>
          let kwargs := setdefault "cls" (KwClass encoder) kwargs in
          let kwargs :=
            if negb (JSON_AS_ASCII a) then setdefault "ensure_ascii" (KwBool false) kwargs
            else kwargs in
          Ok (setdefault "sort_keys" (KwBool (JSON_SORT_KEYS a)) kwargs)
      end
  | None =>
      let kwargs := setdefault "sort_keys" (KwBool true) kwargs in
      Ok (setdefault "cls" (KwClass "JSONEncoder") kwargs)
  end.

Definition _load_arg_defaults (kwargs : gmap string kwarg) : result (gmap string kwarg) :=
  match app with
  | Some a =>
      match default_decoder a with
      | Raise e => Raise e
      | Ok decoder => Ok (setdefault "cls" (KwClass decoder) kwargs)
      end
  | None => Ok (setdefault "cls" (KwClass "JSONDecoder") kwargs)
  end.

Definition dumps (obj : pyval) (kwargs : gmap string kwarg) : result pyval :=
  match _dump_arg_defaults kwargs with
  | Raise e => Raise e
  | Ok kwargs =>
      let encoding := default KwNone (kwargs !! "encoding") in
      let kwargs := delete "encoding" kwargs in
      match _json_dumps obj kwargs with
      | Raise e => Raise e
      | Ok rv =>
          match encoding, rv with
          | KwNone, _ => Ok rv
          | _, VStr text =>
              match str_encode text encoding with
              | Ok encoded => Ok (VBytes encoded)
              | Raise e => Raise e
              end
          | _, _ => Ok rv
          end
      end
  end.

(** On bytes, [replace] with text arguments is a [TypeError]. *)
Definition htmlsafe_dumps (obj : pyval) (kwargs : gmap string kwarg) : result pyval :=
  match dumps obj kwargs with
  | Raise e => Raise e
  | Ok (VStr rv) =>
      let rv := str_replace "<" "\u003c" rv in
      let rv := str_replace ">" "\u003e" rv in
      let rv := str_replace "&" "\u0026" rv in
      let rv := str_replace "'" "\u0027" rv in
      let rv := if negb _slash_escape then str_replace "\/" "/" rv else rv in
      Ok (VStr rv)
  | Ok (VBytes _) => Raise (TypeError "a bytes-like object is required, not 'str'")
  | Ok _ => Raise (AttributeError "replace")
  end.
End Json.

(** Whether the character [c] occurs in the text [s]. *)
Fixpoint occurs (c : Ascii.ascii) (s : string) : bool :=
  match s with
  | EmptyString => false
  | String c' s' => Ascii.eqb c c' || occurs c s'
  end.

(** *** [JSONEncoder.default] *)

(** What a global name of [__json.py] is bound to: a module or a
    class. *)
Inductive binding :=
| BModule (name : string)
| BClass (name : string).

(** [import datetime], [from datetime import date], [import uuid] *)
Definition datetime : binding := BModule "datetime".
Definition date : binding := BClass "date".
Definition uuid_UUID : binding := BClass "UUID".

(** An object to serialize: the names of the classes it is an instance
    of, and what its method [__html__] returns if it has one. *)
Record pyobject := PyObject {
  ob_classes : list string;
  ob_html : option string
}.

(** [isinstance(o, classinfo)]: a [TypeError] unless [classinfo] is a
    class. *)
Definition isinstance (o : pyobject) (classinfo : binding) : result bool :=
  match classinfo with
  | BClass name => Ok (existsb (String.eqb name) (ob_classes o))
  | BModule _ => Raise (TypeError "isinstance() arg 2 must be a type or tuple of types")
  end.

Section Encoder.
(** [http_date(o.utctimetuple())], [http_date(o.timetuple())] and
    [str(o)], from werkzeug and the standard library. *)
Variable http_date_utc : pyobject -> string.
Variable http_date_local : pyobject -> string.
Variable str : pyobject -> string.

(** [_json.JSONEncoder.default(self, o)] raises a [TypeError]. *)
Definition base_default (o : pyobject) : result pyval :=
  Raise (TypeError "Object is not JSON serializable").

Definition JSONEncoder_default (o : pyobject) : result pyval :=
  match isinstance o datetime with
  | Raise e => Raise e
  | Ok true => Ok (VStr (http_date_utc o))
  | Ok false =>
      match isinstance o date with
      | Raise e => Raise e
      | Ok true => Ok (VStr (http_date_local o))
      | Ok false =>
          match isinstance o uuid_UUID with
          | Raise e => Raise e
          | Ok true => Ok (VStr (str o))
          | Ok false =>
              match ob_html o with
              | Some html => Ok (VStr html)
              | None => base_default o
              end
          end
      end
  end.
End Encoder.

(** ** [__cli.py] *)

(** [val.lower()], on ASCII letters *)
Definition lower_ascii (c : Ascii.ascii) : Ascii.ascii :=
  let n := Ascii.nat_of_ascii c in
  if (Nat.leb 65 n && Nat.leb n 90)%bool then Ascii.ascii_of_nat (n + 32) else c.

Fixpoint lower (s : string) : string :=
  match s with
  | EmptyString => EmptyString
  | String c s' => String (lower_ascii c) (lower s')
  end.

(** [os.environ] is a dictionary from names to values. *)
Definition get_env (os_environ : gmap string string) : string :=
  match os_environ !! "FLASK_ENV" with
  | Some value => if String.eqb value "" then "production" else value
  | None => "production"
  end.

Definition get_debug_flag (os_environ : gmap string string) : bool :=
  match os_environ !! "FLASK_DEBUG" with
  | Some val =>
      if String.eqb val "" then String.eqb (get_env os_environ) "development"
      else negb (existsb (String.eqb (lower val)) ["0"; "false"; "no"])
  | None => String.eqb (get_env os_environ) "development"
  end.

(** How [call_factory] calls a function: with the arguments and the
    keyword [script_info], with the arguments alone, with the script
    info as its only argument, or without arguments. *)
Inductive call_form :=
| CallKeyword (arguments : list pyval)
| CallArguments (arguments : list pyval)
| CallScriptInfo
| CallEmpty.

(** The objects a module may hold, as [find_best_app] tells them apart:
    an instance of [Flask], a function (with the names of its
    arguments, whether it has default values, and what a call of it
    does), or anything else.  A call returns an object, raises from the
    code of the function, or fails with the [TypeError] of arguments
    that do not fit, in which case the function was not entered. *)
Inductive module_object :=
| OFlask (id : nat)
| OFunction (arg_names : list string) (arg_defaults : bool)
            (run : call_form -> call_outcome)
| OOther (id : nat)
with call_outcome :=
| CallReturned (o : module_object)
| CallRaised (e : exn)
| CallRefused (e : exn).

Definition is_flask (o : module_object) : bool :=
  match o with OFlask _ => true | _ => false end.

(** [click.UsageError] is a [ClickException]. *)
Definition NoAppException (msg : string) : exn :=
  Exn (PyClass ["NoAppException"; "UsageError"; "ClickException"; "Exception";
                "BaseException"; "object"] None) msg None.

Definition call_factory (arg_names : list string) (arg_defaults : bool)
    (run : call_form -> call_outcome) (arguments : list pyval) : call_outcome :=
  if existsb (String.eqb "script_info") arg_names then run (CallKeyword arguments)
  else match arguments with
       | _ :: _ => run (CallArguments arguments)
       | [] =>
           if Nat.eqb (length arg_names) 1 && negb arg_defaults then run CallScriptInfo
           else run CallEmpty
       end.

(** The messages of [find_best_app]. *)
Definition multiple_apps_msg (module_name : string) : string :=
  "Detected multiple Flask applications in module " ++ double_quote ++ module_name
  ++ double_quote ++ ". Use " ++ double_quote ++ "FLASK_APP=" ++ module_name ++ ":name"
  ++ double_quote ++ " to specify the correct one.".

Definition factory_arguments_msg (attr_name module_name : string) : string :=
  "Detected factory " ++ double_quote ++ attr_name ++ double_quote ++ " in module "
  ++ double_quote ++ module_name ++ double_quote
  ++ ", but could not call it without arguments. Use " ++ double_quote ++ "FLASK_APP='"
  ++ module_name ++ ":" ++ attr_name ++ "(args)'" ++ double_quote
  ++ " to specify arguments.".

Definition no_app_msg (module_name : string) : string :=
  "Failed to find Flask application or factory in module " ++ double_quote ++ module_name
  ++ double_quote ++ ". Use " ++ double_quote ++ "FLASK_APP=" ++ module_name
  ++ ":name to specify one.".

(** The module [__cli] has no parent package: [__flask.py] imports it
    by its bare name ([import __cli as cli]), and it imports its own
    siblings in the same way ([from __compat import iteritems]).  Its
    [__package__] is the empty string. *)
Definition cli_package : string := "".

(** [from . import name] in a module whose [__package__] is [package]:
    without a parent package the statement fails before it looks for
    [name].  With a parent package the name is looked up in it, which
    is taken to succeed; that case does not arise for [__cli]. *)
Definition import_from_parent (package name : string) : result unit :=
  if String.eqb package ""
  then Raise (ImportError "attempted relative import with no known parent package")
  else Ok tt.

(** The loop over the names [app] and [application]: the first of them
    that is bound to an instance of [Flask]. *)
Fixpoint common_name (module : gmap string module_object) (names : list string)
  : option module_object :=
  match names with
  | [] => None
  | attr_name :: names' =>
      match module !! attr_name with
      | Some app => if is_flask app then Some app else common_name module names'
      | None => common_name module names'
      end
  end.

(** The loop over the names of application factories. *)
Fixpoint call_factories (module_name : string) (module : gmap string module_object)
    (names : list string) : result module_object :=
  match names with
  | [] => Raise (NoAppException (no_app_msg module_name))
  | attr_name :: names' =>
      match module !! attr_name with
      | Some (OFunction arg_names arg_defaults run) =>
          match call_factory arg_names arg_defaults run [] with
          | CallReturned app =>
              if is_flask app then Ok app
              else call_factories module_name module names'
          | CallRaised e => Raise e
          | CallRefused e =>
              if isinstance_exn e "TypeError"
              then Raise (NoAppException (factory_arguments_msg attr_name module_name))
              else Raise e
          end
      | _ => call_factories module_name module names'
      end
  end.

(** The module is its dictionary [module.__dict__] and its name
    [module.__name__]; the script info is passed on to the factories
    and is part of what a call of them does.  The first statement is
    [from . import Flask]. *)
Definition find_best_app (module_name : string) (module : gmap string module_object)
  : result module_object :=
  match import_from_parent cli_package "Flask" with
  | Raise e => Raise e
  | Ok _ =>
      match common_name module ["app"; "application"] with
      | Some app => Ok app
      | None =>
          let matches := List.filter is_flask (map snd (map_to_list module)) in
          match matches with
          | [app] => Ok app
          | _ :: _ :: _ => Raise (NoAppException (multiple_apps_msg module_name))
          | [] => call_factories module_name module ["create_app"; "make_app"]
          end
      end
  end.

(** ** Definitions used to state further properties *)

Section RegistrationDefinitions.
Context {W : Type}.

(** The methods [add_url_rule] starts from: the option [methods], else
    the attribute [methods] of the view function when it is not empty,
    else [('GET',)]; upper-cased and made a set. *)
Definition given_methods (vf : view_function W) (methods : option (list string))
  : gset string :=
  list_to_set (map upper
    match methods with
    | Some ms => ms
    | None => match vf_methods vf with Some (m :: ms) => m :: ms | _ => ["GET"] end
    end).

(** What [add_url_rule] decides about OPTIONS: whether the rule answers
    OPTIONS requests by itself, and the methods it adds to the given
    ones. *)
Definition automatic_options (vf : view_function W) (pao : option bool)
    (given : gset string) : bool * gset string :=
  match (match pao with Some b => Some b | None => vf_provide_automatic_options vf end) with
  | Some b => (b, list_to_set (vf_required_methods vf))
  | None =>
      if bool_decide ("OPTIONS" ∈ given)
      then (false, list_to_set (vf_required_methods vf))
      else (true, list_to_set (vf_required_methods vf) ∪ {["OPTIONS"]})
  end.
End RegistrationDefinitions.

Section OrderDefinitions.
Context {W : Type}.

(** The after-request functions in the order [process_response] chains
    them: those the context collected, then those of the request's
    blueprint, then those of the application, the registered lists last
    registered first. *)
Definition after_request_order (ctx : request_ctx W)
    (d : gmap (option string) (list (callback W))) : list (callback W) :=
  _after_request_functions ctx
  ++ match blueprint (rc_request ctx) with
     | Some b => rev (default [] (d !! Some b))
     | None => []
     end
  ++ rev (default [] (d !! None)).

(** The events of a chain of after-request functions that all returned:
    the first is called with [response], each next one with what the
    one before it returned ([vs] are the values returned). *)
Definition after_request_events (funcs : list (callback W)) (response : pyval)
    (vs : list pyval) : list event :=
  zip_with (fun c av => EvCall KAfterRequest (cb_id c) [av.1] (Ok av.2))
           funcs (zip (response :: vs) vs).
End OrderDefinitions.

Section CallbackDefinitions.
Context {W : Type}.

(** A callback that returns [None] whatever it is given. *)
Definition returns_None (c : callback W) : Prop :=
  ∀ args w, ∃ w', cb_run c args w = (Ok VNone, w').

(** A callback that returns the response object [r] whatever it is
    given. *)
Definition returns_response (c : callback W) (r : response) : Prop :=
  ∀ args w, ∃ w', cb_run c args w = (Ok (VResponse r), w').
End CallbackDefinitions.

(** ** Further concrete applications and inputs *)

Module Cases.
Import Examples.

(** Teardown functions of which one fails, for the request and for the
    application context. *)
Definition careless_app : flask unit :=
  Flask 1 production {[ "index" := index ]} ∅ ∅ [] ∅
        {[ None := [returning 40 VNone; raising 41 boom] ]}
        [raising 43 boom; returning 42 VNone] ∅ [index_rule] false (returning 0 VNone).

(** After-request functions of the application and of the blueprint
    [admin]; each returns a response of its own. *)
Definition answer (body : string) : pyval := VResponse (Response body "200 OK" 200 []).

Definition after_app : flask unit :=
  Flask 1 production {[ "index" := index ]} ∅ ∅ []
        {[ None := [returning 50 (answer "first"); returning 51 (answer "second")];
           Some "admin" := [returning 52 (answer "admin")] ]}
        ∅ [] ∅ [index_rule] true (returning 0 VNone).

Definition after_failing_app : flask unit :=
  Flask 1 production {[ "index" := index ]} ∅ ∅ []
        {[ None := [returning 50 (answer "first"); raising 51 boom];
           Some "admin" := [returning 52 (answer "admin")] ]}
        ∅ [] ∅ [index_rule] true (returning 0 VNone).

(** A state in which the context of [req] has been pushed, with a
    session that is not the null session. *)
Definition logged_in (a : flask unit) (req : request) : state unit :=
  State a [RequestContext 0 (app_id a) req (Session false [("user", VStr "me")])
                          ["GET"; "HEAD"; "OPTIONS"] [] false true]
        [AppContext (app_id a) [] 1] tt [] 1.

(** A second view function, and requests matched to its rule. *)
Definition hello : view_function unit :=
  ViewFunction (returning 12 (answer "Hello")) "hello" None [] None.

Definition goodbye : view_function unit :=
  ViewFunction (returning 13 (answer "Bye")) "goodbye" None [] None.

Definition keeping_endpoint (p : string) (methods : gset string) (ep : string)
  : result rule :=
  Ok (Rule p methods ep false).

Definition hello_rule : rule :=
  Rule "/hello" {[ "GET"; "OPTIONS" ]} "hello" true.

Definition hello_request (m : string) : request :=
  Request m "/hello" None (Some hello_rule) (Some []) None.

(** Every hook registered once, and the view [hello]. *)
Definition hooked_app : flask unit :=
  Flask 1 production {[ "hello" := hello ]} ∅
        {[ None := [returning 61 VNone] ]} []
        {[ None := [returning 62 (answer "after")] ]}
        ∅ [] {[ None := [returning 60 VNone] ]} [hello_rule] true (returning 0 VNone).

(** Exceptions: a key error of the request data, an HTTP exception
    without a status code, and one that is not an [Exception]. *)
Definition bad_key : exn :=
  Exn (PyClass ["BadRequestKeyError"; "BadRequest"; "HTTPException"; "KeyError";
                "LookupError"; "Exception"; "BaseException"; "object"] (Some 400))
      "user" None.

Definition proxy_exception : exn :=
  Exn (PyClass ["HTTPException"; "Exception"; "BaseException"; "object"] None)
      "proxy" None.

Definition interrupt : exn :=
  Exn (PyClass ["KeyboardInterrupt"; "BaseException"; "object"] None) "" None.

Definition failing_app (e : exn) (c : config) : flask unit :=
  Flask 1 c {[ "index" := ViewFunction (raising 10 e) "index" None [] None ]}
        {[ None := {[ None := {[ "ValueError" := global_handler ]} ]} ]}
        ∅ [] ∅ ∅ [] ∅ [index_rule] true (returning 0 VNone).

(** An application whose view in the blueprint [admin] raises an HTTP
    exception without a status code, with a handler for its class in
    the blueprint and another one for the whole application. *)
Definition proxy_handlers_app : flask unit :=
  Flask 1 production
        {[ "admin.home" := ViewFunction (raising 14 proxy_exception) "home" None [] None ]}
        {[ None := {[ None := {[ "HTTPException" := global_handler ]} ]};
           Some "admin" := {[ None := {[ "HTTPException" := blueprint_handler ]} ]} ]}
        ∅ [] ∅ ∅ [] ∅ [Rule "/admin/" {[ "GET" ]} "admin.home" false] true
        (returning 0 VNone).

(** A module that binds [app] to an application, and one with an
    application factory. *)
Definition app_module : gmap string module_object :=
  {[ "__name__" := OOther 0; "app" := OFlask 1 ]}.

Definition factory_module : gmap string module_object :=
  {[ "create_app" := OFunction [] false (fun _ => CallReturned (OFlask 2)) ]}.
End Cases.

(** * Theorems *)

(** ** Running a computation one step at a time *)

Section Running.
Context {W : Type}.
Implicit Types (s : state W).

Lemma bind_run {A B} (m : M W A) (k : A → M W B) s :
  bind m k s = match m s with
               | (Ok a, s') => k a s'
               | (Raise e, s') => (Raise e, s')
               end.
Proof. reflexivity. Qed.

Lemma bind_ok {A B} (m : M W A) (k : A → M W B) s a s' :
  m s = (Ok a, s') → bind m k s = k a s'.
Proof. intros H. rewrite bind_run, H. reflexivity. Qed.

Lemma bind_raise {A B} (m : M W A) (k : A → M W B) s e s' :
  m s = (Raise e, s') → bind m k s = (Raise e, s').
Proof. intros H. rewrite bind_run, H. reflexivity. Qed.

Lemma gets_run {A} (f : state W → A) s : gets f s = (Ok (f s), s).
Proof. reflexivity. Qed.

Lemma modify_run (f : state W → state W) s : modify f s = (Ok tt, f s).
Proof. reflexivity. Qed.

Lemma emit_run ev s : emit ev s = (Ok tt, set_log (log s ++ [ev]) s).
Proof. reflexivity. Qed.

Lemma try_finally_run {A} (m : M W A) (f : M W unit) s :
  try_finally m f s = match m s with
                      | (r, s') =>
                          match f s' with
                          | (Ok _, s'') => (r, s'')
                          | (Raise e, s'') => (Raise e, s'')
                          end
                      end.
Proof. reflexivity. Qed.
End Running.

(** ** The frame of the dispatch core *)

Section Frames.
Context {W : Type}.
Implicit Types (s : state W).

Lemma teardown_calls_app (l1 l2 : list event) :
  teardown_calls (l1 ++ l2) = teardown_calls l1 ++ teardown_calls l2.
Proof. unfold teardown_calls. apply omap_app. Qed.

Lemma frame_refl s : frame s s.
Proof.
  constructor; try reflexivity.
  exists []. split; [symmetry; apply app_nil_r | reflexivity].
Qed.

Lemma frame_trans s1 s2 s3 : frame s1 s2 → frame s2 s3 → frame s1 s3.
Proof.
  intros [a1 b1 c1 d1 e1 f1 g1 h1 i1 (l1 & L1 & T1) j1 k1 m1 n1 o1]
         [a2 b2 c2 d2 e2 f2 g2 h2 i2 (l2 & L2 & T2) j2 k2 m2 n2 o2].
  constructor; try congruence.
  exists (l1 ++ l2). split.
  - rewrite L2, L1, app_assoc. reflexivity.
  - rewrite teardown_calls_app, T1, T2. reflexivity.
Qed.

Lemma preserves_ret {A} (a : A) : preserves (W:=W) (ret a).
Proof. intros s r s' [= <- <-]. apply frame_refl. Qed.

Lemma preserves_raise {A} e : preserves (W:=W) (raise (A:=A) e).
Proof. intros s r s' [= <- <-]. apply frame_refl. Qed.

Lemma preserves_lift {A} (x : result A) : preserves (W:=W) (lift x).
Proof. intros s r s' [= <- <-]. apply frame_refl. Qed.

Lemma preserves_gets {A} (f : state W → A) : preserves (gets f).
Proof. intros s r s' [= <- <-]. apply frame_refl. Qed.

Lemma preserves_bind {A B} (m : M W A) (k : A → M W B) :
  preserves m → (∀ a, preserves (k a)) → preserves (bind m k).
Proof.
  intros Hm Hk s r s'. unfold bind.
  destruct (m s) as [[a|e] s1] eqn:E.
  - intros Hr. eapply frame_trans; [eapply Hm, E | eapply Hk, Hr].
  - intros [= <- <-]. eapply Hm, E.
Qed.

Lemma preserves_try_except {A} (m : M W A) (h : exn → M W A) :
  preserves m → (∀ e, preserves (h e)) → preserves (try_except m h).
Proof.
  intros Hm Hh s r s'. unfold try_except.
  destruct (m s) as [[a|e] s1] eqn:E.
  - intros [= <- <-]. eapply Hm, E.
  - destruct (isinstance_exn e "Exception").
    + intros Hr. eapply frame_trans; [eapply Hm, E | eapply Hh, Hr].
    + intros [= <- <-]. eapply Hm, E.
Qed.

Lemma preserves_try_finally {A} (m : M W A) (f : M W unit) :
  preserves m → preserves f → preserves (try_finally m f).
Proof.
  intros Hm Hf s r s'. unfold try_finally.
  destruct (m s) as [r1 s1] eqn:E.
  destruct (f s1) as [[[]|e] s2] eqn:F; intros [= <- <-];
    (eapply frame_trans; [eapply Hm, E | eapply Hf, F]).
Qed.

Lemma preserves_emit ev : teardown_call ev = None → preserves (W:=W) (emit ev).
Proof.
  intros Hev s r s' [= <- <-].
  constructor; try reflexivity.
  exists [ev]. split; [reflexivity|]. unfold teardown_calls. simpl. rewrite Hev. reflexivity.
Qed.

Lemma preserves_call k (c : callback W) args :
  k ≠ KTeardownRequest → k ≠ KTeardownAppcontext → preserves (call k c args).
Proof.
  intros H1 H2 s r s'. unfold call.
  destruct (cb_run c args (world s)) as [r1 w]. intros [= <- <-].
  constructor; try reflexivity.
  eexists. split; [reflexivity|].
  destruct k; try reflexivity; congruence.
Qed.

Lemma preserves_for_each {A} (xs : list A) (body : A → M W unit) :
  (∀ x, preserves (body x)) → preserves (for_each xs body).
Proof.
  intros H. induction xs as [|x xs IH]; simpl.
  - apply preserves_ret.
  - apply preserves_bind; [apply H | intros _; exact IH].
Qed.
End Frames.

Create HintDb preserves.
#[local] Hint Resolve preserves_ret preserves_raise preserves_lift preserves_gets
  preserves_for_each : preserves.

(** Breaks a goal [preserves m] along the structure of [m]. *)
Ltac preserves_step :=
  match goal with
  | |- preserves (bind _ _) => apply preserves_bind; [|intros ?]
  | |- preserves (try_except _ _) => apply preserves_try_except; [|intros ?]
  | |- preserves (try_finally _ _) => apply preserves_try_finally
  | |- preserves (for_each _ _) => apply preserves_for_each; intros ?
  | |- preserves (ret _) => apply preserves_ret
  | |- preserves (raise _) => apply preserves_raise
  | |- preserves (lift _) => apply preserves_lift
  | |- preserves (gets _) => apply preserves_gets
  | |- preserves (emit _) => apply preserves_emit; reflexivity
  | |- preserves (call _ _ _) => apply preserves_call; discriminate
  | |- preserves (match ?x with _ => _ end) => destruct x
  | |- preserves (let '(_, _) := ?x in _) => destruct x
  end.

Ltac preserves := repeat preserves_step; eauto with preserves.

Section FramesOfFlask.
Context {W : Type}.
Implicit Types (s : state W).

Lemma preserves_top_request_context : preserves (W:=W) top_request_context.
Proof.
  intros s r s'. unfold top_request_context.
  destruct (top (_request_ctx_stack s)); intros [= <- <-]; apply frame_refl.
Qed.

Lemma preserves_lookup_req_object name : preserves (W:=W) (_lookup_req_object name).
Proof.
  intros s r s'. unfold _lookup_req_object.
  destruct (top (_request_ctx_stack s)); intros [= <- <-]; apply frame_refl.
Qed.

Lemma preserves_current_request : preserves (W:=W) current_request.
Proof.
  unfold current_request, request_proxy.
  apply preserves_bind; [apply preserves_lookup_req_object|]. intros a. preserves.
Qed.

Lemma preserves_set_got_first_request b :
  preserves (W:=W) (modify (fun s => set_self (set_got_first_request b (self s)) s)).
Proof.
  intros s r s' [= <- <-]. constructor; try reflexivity.
  exists []. split; [symmetry; apply app_nil_r | reflexivity].
Qed.

Lemma preserves_try_trigger :
  preserves (W:=W) try_trigger_before_first_request_functions.
Proof.
  unfold try_trigger_before_first_request_functions, with_before_request_lock.
  preserves. apply preserves_set_got_first_request.
Qed.

Lemma preserves_first_not_None (funcs : list (callback W)) :
  preserves (first_not_None funcs).
Proof. induction funcs as [|f fs IH]; simpl; preserves. Qed.

Lemma preserves_preprocess_request : preserves (W:=W) preprocess_request.
Proof.
  unfold preprocess_request. preserves;
    auto using preserves_top_request_context, preserves_current_request,
      preserves_first_not_None.
Qed.

Lemma preserves_raise_routing_exception {A} req :
  preserves (W:=W) (raise_routing_exception (A:=A) req).
Proof. unfold raise_routing_exception. preserves. Qed.

Lemma preserves_dispatch_request : preserves (W:=W) dispatch_request.
Proof.
  unfold dispatch_request, make_default_options_response. preserves;
    auto using preserves_top_request_context, preserves_raise_routing_exception.
Qed.

Lemma preserves_make_response rv : preserves (W:=W) (make_response rv).
Proof.
  unfold make_response. preserves; auto using preserves_current_request.
Qed.

Lemma preserves_apply_handlers (funcs : list (callback W)) : ∀ response,
  preserves (apply_handlers funcs response).
Proof. induction funcs as [|f fs IH]; intros response; simpl; preserves. Qed.

Lemma preserves_process_response response :
  preserves (W:=W) (process_response response).
Proof.
  unfold process_response. preserves;
    auto using preserves_top_request_context, preserves_apply_handlers.
Qed.

Lemma preserves_log_exception e : preserves (W:=W) (log_exception e).
Proof. unfold log_exception. preserves; auto using preserves_current_request. Qed.

Lemma preserves_finalize_request rv b : preserves (W:=W) (finalize_request rv b).
Proof.
  unfold finalize_request. preserves;
    auto using preserves_make_response, preserves_process_response.
Qed.

Lemma preserves_setdefault_get name c : preserves (W:=W) (setdefault_get name c).
Proof.
  intros s r s'. unfold setdefault_get.
  destruct (error_handler_spec (self s) !! name); intros [= <- <-].
  - apply frame_refl.
  - constructor; try reflexivity.
    exists []. split; [symmetry; apply app_nil_r | reflexivity].
Qed.

Lemma preserves_find_in_buckets cls buckets :
  preserves (W:=W) (find_in_buckets cls buckets).
Proof.
  induction buckets as [|[name c] bs IH]; simpl; preserves;
    auto using preserves_setdefault_get.
Qed.

Lemma preserves_find_error_handler e : preserves (W:=W) (_find_error_handler e).
Proof.
  unfold _find_error_handler. preserves;
    auto using preserves_current_request, preserves_find_in_buckets.
Qed.

Lemma preserves_handle_http_exception e : preserves (W:=W) (handle_http_exception e).
Proof.
  unfold handle_http_exception. preserves; auto using preserves_find_error_handler.
Qed.

Lemma preserves_handle_user_exception e : preserves (W:=W) (handle_user_exception e).
Proof.
  unfold handle_user_exception. preserves;
    auto using preserves_find_error_handler, preserves_handle_http_exception.
Qed.

Lemma preserves_handle_exception e : preserves (W:=W) (handle_exception e).
Proof.
  unfold handle_exception. preserves;
    auto using preserves_find_error_handler, preserves_log_exception,
      preserves_finalize_request.
Qed.

Lemma preserves_full_dispatch_request : preserves (W:=W) full_dispatch_request.
Proof.
  unfold full_dispatch_request. preserves;
    auto using preserves_try_trigger, preserves_preprocess_request,
      preserves_dispatch_request, preserves_handle_user_exception,
      preserves_finalize_request.
Qed.
End FramesOfFlask.

(** ** The proxies of [__globals.py] *)

Section Globals.
Context {W : Type}.
Implicit Types (s : state W).

(** C9.  An access through [current_app], [request], [session] or [g]
    (and any lookup through [_lookup_req_object] or
    [_lookup_app_object]) raises a [RuntimeError] when the corresponding
    stack is empty, with the message of the missing kind of context
    ("Working outside of request context." for the request stack,
    "Working outside of application context." for the application
    stack); when the stack is not empty it returns the attribute of the
    top context. *)
Theorem proxy_lookup s (name : string) :
  match _request_ctx_stack s with
  | [] =>
      _lookup_req_object name s = (Raise (RuntimeError _request_ctx_err_msg), s)
      ∧ request_proxy s = (Raise (RuntimeError _request_ctx_err_msg), s)
      ∧ session_proxy s = (Raise (RuntimeError _request_ctx_err_msg), s)
  | ctx :: _ =>
      _lookup_req_object name s = (getattr_request_context ctx name, s)
      ∧ request_proxy s = (Ok (ARequest (rc_request ctx)), s)
      ∧ session_proxy s = (Ok (ASession (rc_session ctx)), s)
  end
  ∧ match _app_ctx_stack s with
    | [] =>
        _lookup_app_object name s = (Raise (RuntimeError _app_ctx_err_msg), s)
        ∧ current_app s = (Raise (RuntimeError _app_ctx_err_msg), s)
        ∧ g s = (Raise (RuntimeError _app_ctx_err_msg), s)
    | ctx :: _ =>
        _lookup_app_object name s = (getattr_app_context ctx name, s)
        ∧ current_app s = (Ok (AApp (ac_app ctx)), s)
        ∧ g s = (Ok (AG (ac_g ctx)), s)
    end
  ∧ String.prefix "Working outside of request context." _request_ctx_err_msg = true
  ∧ String.prefix "Working outside of application context." _app_ctx_err_msg = true
  ∧ String.prefix "Working outside of request context." _app_ctx_err_msg = false
  ∧ String.prefix "Working outside of application context." _request_ctx_err_msg = false.
Proof.
  unfold request_proxy, session_proxy, current_app, g, _lookup_req_object,
    _lookup_app_object, _find_app, top.
  split; [|split].
  - destruct (_request_ctx_stack s); simpl; auto.
  - destruct (_app_ctx_stack s); simpl; auto.
  - repeat split; reflexivity.
Qed.

Lemma current_request_top s ctx :
  top (_request_ctx_stack s) = Some ctx →
  current_request s = (Ok (rc_request ctx), s).
Proof.
  intros H. unfold current_request, request_proxy, _lookup_req_object, bind.
  rewrite H. reflexivity.
Qed.

Lemma top_request_context_top s ctx :
  top (_request_ctx_stack s) = Some ctx →
  top_request_context s = (Ok ctx, s).
Proof. intros H. unfold top_request_context. rewrite H. reflexivity. Qed.
End Globals.

(** ** [make_response] *)

Section MakeResponse.
Context {W : Type}.
Implicit Types (s : state W) (r : response).

Lemma falsy_header_items headers items :
  truthy headers = false → header_items headers = Ok items → items = [].
Proof.
  destruct headers as [| | | |[|]|[|]|[|]|[|]| | |]; simpl; intros; congruence.
Qed.

Lemma spec_headers_nil r : spec_headers [] r = r.
Proof. destruct r. unfold spec_headers. simpl. rewrite app_nil_r. reflexivity. Qed.

(** What [make_response] does with the headers at its end. *)
Lemma extend_headers_items headers items r :
  header_items headers = Ok items →
  (if truthy headers then extend_headers headers r else Ok r) = Ok (spec_headers items r).
Proof.
  intros Hitems. destruct (truthy headers) eqn:Ht.
  - unfold extend_headers. rewrite Hitems. reflexivity.
  - rewrite (falsy_header_items _ _ Ht Hitems), spec_headers_nil. reflexivity.
Qed.

Lemma extend_headers_None r :
  (if truthy VNone then extend_headers VNone r else Ok r) = Ok (spec_headers [] r).
Proof. simpl. rewrite spec_headers_nil. reflexivity. Qed.

(** A 3-tuple whose body is text or a response object. *)
Lemma make_response_of_body s body status headers r r' items :
  spec_body body = Some r →
  spec_status status r = Some r' →
  (∀ r, (if truthy headers then extend_headers headers r else Ok r)
        = Ok (spec_headers items r)) →
  make_response (VTuple [body; status; headers]) s = (Ok (spec_headers items r'), s).
Proof.
  intros Hbody Hstatus Hext.
  unfold make_response, bind, lift, ret. simpl.
  destruct body as [|text|text| | | | | |r0| |]; try discriminate Hbody;
    injection Hbody as <-; simpl.
  - unfold response_class. rewrite Hext.
    destruct status; try discriminate Hstatus; injection Hstatus as <-; reflexivity.
  - unfold response_class. rewrite Hext.
    destruct status; try discriminate Hstatus; injection Hstatus as <-; reflexivity.
  - destruct (truthy headers);
      destruct status; try discriminate Hstatus; injection Hstatus as <-; simpl;
      first [rewrite Hext | rewrite <- Hext]; reflexivity.
Qed.

(** A 3-tuple whose body is a callable: it is run within a request. *)
Lemma make_response_of_callable s ctx callable status headers r r' items :
  top (_request_ctx_stack s) = Some ctx →
  force_type callable = Ok r →
  spec_status status r = Some r' →
  (∀ r, (if truthy headers then extend_headers headers r else Ok r)
        = Ok (spec_headers items r)) →
  make_response (VTuple [callable; status; headers]) s = (Ok (spec_headers items r'), s).
Proof.
  intros Htop Hforce Hstatus Hext.
  pose proof (current_request_top s ctx Htop) as Hreq.
  unfold make_response, bind, lift, ret. simpl.
  destruct callable as [| | | | | | | | |e|r0]; try discriminate Hforce; simpl.
  - rewrite Hreq. simpl in Hforce |- *. rewrite Hforce.
    destruct (truthy headers);
      destruct status; try discriminate Hstatus; injection Hstatus as <-; simpl;
      first [rewrite Hext | rewrite <- Hext]; reflexivity.
  - rewrite Hreq. simpl in Hforce |- *. injection Hforce as ->.
    destruct (truthy headers);
      destruct status; try discriminate Hstatus; injection Hstatus as <-; simpl;
      first [rewrite Hext | rewrite <- Hext]; reflexivity.
Qed.

(** C2, as the code has it.  For every view return value:
    - a 3-tuple is unpacked as (body, status, headers): for a body that
      is text or a response object, with a status that is [None], text
      or a number, the result is the response of the body with the
      status set (text overwrites the status line, a number the status
      code only) and the given headers appended to those it has; the
      same holds for a body that is a callable, which is run;
    - a 2-tuple [(rv, x)] is handled as [(rv, None, x)] when [x] is an
      instance of [Headers], [dict], [tuple] or [list], and as
      [(rv, x, None)] otherwise;
    - a tuple of any other length is rejected with a [TypeError];
    - a [None] body, alone or in a tuple, is rejected with a
      [TypeError];
    - a body alone gives its response; for a plain string that is
      status 200 with the body unchanged. *)
Theorem make_response_coercion s (body status headers x : pyval) (r r' : response)
    (l : list pyval) (items : list (string * string))
    (Hbody : spec_body body = Some r)
    (Hstatus : spec_status status r = Some r')
    (Hitems : header_items headers = Ok items)
    (Hlen : length l ≠ 2%nat ∧ length l ≠ 3%nat) :
  make_response (VTuple [body; status; headers]) s = (Ok (spec_headers items r'), s)
  ∧ (∀ rv, make_response (VTuple [rv; x]) s
           = if is_headers_type x then make_response (VTuple [rv; VNone; x]) s
             else make_response (VTuple [rv; x; VNone]) s)
  ∧ (is_headers_type headers = true →
       make_response (VTuple [body; headers]) s = (Ok (spec_headers items r), s))
  ∧ (is_headers_type status = false →
       make_response (VTuple [body; status]) s = (Ok r', s))
  ∧ make_response (VTuple l) s = (Raise (TypeError invalid_tuple_msg), s)
  ∧ make_response VNone s = (Raise (TypeError none_body_msg), s)
  ∧ make_response (VTuple [VNone; x]) s = (Raise (TypeError none_body_msg), s)
  ∧ make_response (VTuple [VNone; status; headers]) s
      = (Raise (TypeError none_body_msg), s)
  ∧ make_response body s = (Ok r, s)
  ∧ (∀ text, make_response (VStr text) s = (Ok (Response text "200 OK" 200 []), s))
  ∧ (∀ callable ctx r0 r1,
       top (_request_ctx_stack s) = Some ctx →
       force_type callable = Ok r0 →
       spec_status status r0 = Some r1 →
       make_response (VTuple [callable; status; headers]) s
       = (Ok (spec_headers items r1), s)).
Proof.
  assert (Hpair : ∀ rv y, make_response (VTuple [rv; y]) s
           = if is_headers_type y then make_response (VTuple [rv; VNone; y]) s
             else make_response (VTuple [rv; y; VNone]) s).
  { intros rv y. unfold make_response, bind, lift. simpl.
    destruct (is_headers_type y); reflexivity. }
  assert (Halone : make_response body s = make_response (VTuple [body; VNone; VNone]) s).
  { destruct body; try discriminate Hbody; reflexivity. }
  pose proof (fun r => extend_headers_items headers items r Hitems) as Hext.
  repeat apply conj.
  - exact (make_response_of_body s body status headers r r' items Hbody Hstatus Hext).
  - intros rv. apply Hpair.
  - intros Hh. rewrite Hpair, Hh.
    exact (make_response_of_body s body VNone headers r r items Hbody eq_refl Hext).
  - intros Hs. rewrite Hpair, Hs.
    rewrite (make_response_of_body s body status VNone r r' [] Hbody Hstatus
               extend_headers_None).
    rewrite spec_headers_nil. reflexivity.
  - destruct Hlen as [H2 H3].
    destruct l as [|a [|b [|c [|d l]]]]; simpl in H2, H3; try reflexivity; lia.
  - reflexivity.
  - unfold make_response, bind, lift; simpl. destruct (is_headers_type x); reflexivity.
  - reflexivity.
  - rewrite Halone.
    rewrite (make_response_of_body s body VNone VNone r r [] Hbody eq_refl
               extend_headers_None).
    rewrite spec_headers_nil. reflexivity.
  - reflexivity.
  - intros callable ctx r0 r1 Htop Hforce Hst.
    exact (make_response_of_callable s ctx callable status headers r0 r1 items
             Htop Hforce Hst Hext).
Qed.
End MakeResponse.

(** ** [_find_error_handler] *)

Section Lookup.
Context {W : Type}.
Implicit Types (s : state W).

Lemma is_empty_map_find (hm : gmap string (callback W)) mro :
  is_empty_map hm = true → find_in_mro hm mro = None.
Proof.
  unfold is_empty_map. intros H.
  destruct (map_to_list hm) eqn:E; [|discriminate].
  apply map_to_list_empty_iff in E. subst hm.
  induction mro as [|c mro IH]; simpl; [reflexivity|].
  rewrite lookup_empty. exact IH.
Qed.

Lemma find_in_mro_first (hm : gmap string (callback W)) mro :
  find_in_mro hm mro = head (omap (fun cls => hm !! cls) mro).
Proof.
  induction mro as [|c mro IH]; simpl; [reflexivity|].
  destruct (hm !! c); [reflexivity | exact IH].
Qed.

Lemma spec_bucket_find registry mro name c :
  spec_bucket (W:=W) registry mro name c =
  match registry !! name with
  | Some by_code =>
      match by_code !! c with
      | Some hm => find_in_mro hm mro
      | None => None
      end
  | None => None
  end.
Proof.
  unfold spec_bucket.
  destruct (registry !! name) as [by_code|]; [|reflexivity].
  destruct (by_code !! c); [|reflexivity].
  symmetry. apply find_in_mro_first.
Qed.

Lemma spec_bucket_setdefault registry mro (name name' : option string) c :
  registry !! name = None →
  spec_bucket (W:=W) (<[name := ∅]> registry) mro name' c = spec_bucket registry mro name' c.
Proof.
  intros Hn. unfold spec_bucket.
  destruct (decide (name = name')) as [<-|Hne].
  - rewrite lookup_insert_eq, Hn, lookup_empty. reflexivity.
  - rewrite lookup_insert_ne by exact Hne. reflexivity.
Qed.

Lemma spec_first_bucket_ext r1 r2 mro buckets :
  (∀ name c, spec_bucket (W:=W) r1 mro name c = spec_bucket r2 mro name c) →
  spec_first_bucket r1 mro buckets = spec_first_bucket r2 mro buckets.
Proof.
  intros H. induction buckets as [|[name c] bs IH]; simpl; [reflexivity|].
  rewrite H, IH. reflexivity.
Qed.

(** The loop over the buckets finds what the first bucket with a
    handler holds; the empty dictionaries that [setdefault] leaves in
    the registry change no later lookup. *)
Lemma find_in_buckets_spec cls buckets : ∀ s,
  ∃ s', find_in_buckets cls buckets s =
          (Ok (spec_first_bucket (error_handler_spec (self s)) (cls_mro cls) buckets), s')
        ∧ (∀ name c, spec_bucket (error_handler_spec (self s')) (cls_mro cls) name c
                     = spec_bucket (error_handler_spec (self s)) (cls_mro cls) name c)
        ∧ log s' = log s ∧ world s' = world s.
Proof.
  induction buckets as [|[name c] bs IH]; intros s; simpl.
  - exists s. auto.
  - rewrite spec_bucket_find. unfold bind, setdefault_get.
    destruct (error_handler_spec (self s) !! name) as [by_code|] eqn:En.
    + destruct (by_code !! c) as [hm|] eqn:Ec.
      * destruct (is_empty_map hm) eqn:Ee.
        -- rewrite (is_empty_map_find _ _ Ee). apply IH.
        -- destruct (find_in_mro hm (cls_mro cls)) eqn:Ef.
           ++ exists s. auto.
           ++ apply IH.
      * apply IH.
    + destruct (IH (set_self (set_error_handler_spec
                       (<[name:=∅]> (error_handler_spec (self s))) (self s)) s))
        as (s' & Hrun & Hb & Hlog & Hworld).
      exists s'. simpl in *. rewrite Hrun. split; [|split; [|auto]].
      * f_equal. f_equal. apply spec_first_bucket_ext.
        intros; apply spec_bucket_setdefault; assumption.
      * intros name' c'. rewrite Hb. apply spec_bucket_setdefault; assumption.
Qed.

Lemma get_exc_class_and_code_exception e :
  isinstance_exn e "Exception" = true →
  _get_exc_class_and_code (inr (exc_class e)) = Ok (exc_class e, spec_code e).
Proof.
  unfold isinstance_exn, _get_exc_class_and_code, spec_code, isinstance_exn, exc_code.
  intros ->. simpl. destruct (issubclass (exc_class e) "HTTPException"); reflexivity.
Qed.

Lemma spec_find_error_handler_first registry bp e :
  spec_find_error_handler (W:=W) registry bp e =
  spec_first_bucket registry (exc_mro e)
    [(bp, spec_code e); (None, spec_code e); (bp, None); (None, None)].
Proof.
  unfold spec_find_error_handler. simpl.
  repeat (match goal with |- context [match ?x with _ => _ end] => destruct x end);
    reflexivity.
Qed.

Lemma find_error_handler_run s e ctx :
  top (_request_ctx_stack s) = Some ctx →
  isinstance_exn e "Exception" = true →
  ∃ s', _find_error_handler e s =
          (Ok (spec_find_error_handler (error_handler_spec (self s))
                                       (blueprint (rc_request ctx)) e), s')
        ∧ frame s s' ∧ log s' = log s ∧ world s' = world s.
Proof.
  intros Htop Hexc.
  destruct (_find_error_handler e s) as [r s'] eqn:Hrun.
  pose proof (preserves_find_error_handler e s r s' Hrun) as Hframe.
  revert Hrun. unfold _find_error_handler, bind, lift.
  rewrite (get_exc_class_and_code_exception _ Hexc), (current_request_top _ _ Htop).
  destruct (find_in_buckets_spec (exc_class e)
      [(blueprint (rc_request ctx), spec_code e); (None, spec_code e);
       (blueprint (rc_request ctx), None); (None, None)] s)
    as (s'' & Hrun' & _ & Hlog & Hworld).
  rewrite Hrun', spec_find_error_handler_first. intros [= <- <-].
  exists s''. auto.
Qed.

Lemma spec_find_error_handler_class registry bp (e e' : exn) :
  exc_class e' = exc_class e →
  spec_find_error_handler (W:=W) registry bp e' = spec_find_error_handler registry bp e.
Proof.
  intros H. unfold spec_find_error_handler, spec_code, isinstance_exn, exc_mro, exc_code.
  rewrite H. reflexivity.
Qed.

(** The exception that [handle_user_exception] goes on with is the one
    it was given, but for the description of a key error. *)
Lemma describe_key_error_class e s : exc_class (describe_key_error e s) = exc_class e.
Proof.
  unfold describe_key_error.
  destruct (_ && _ && _); reflexivity.
Qed.

Lemma describe_key_error_other e s :
  isinstance_exn e "BadRequestKeyError" = false → describe_key_error e s = e.
Proof.
  intros H. unfold describe_key_error. rewrite H, andb_false_r. reflexivity.
Qed.

Lemma trap_http_exception_class e e' s :
  exc_class e' = exc_class e → trap_http_exception e' s = trap_http_exception e s.
Proof.
  intros H. unfold trap_http_exception, isinstance_exn. rewrite H. reflexivity.
Qed.

(** [handle_user_exception], case by case: an HTTP exception that is
    not trapped goes to [handle_http_exception], which looks for a
    handler only if the exception has a status code; every other
    exception is looked up and raised again when nothing is found. *)
Lemma handle_user_exception_run s e ctx :
  top (_request_ctx_stack s) = Some ctx →
  isinstance_exn e "Exception" = true →
  ∃ s', frame s s' ∧ log s' = log s ∧ world s' = world s
    ∧ handle_user_exception e s =
      let raised := describe_key_error e s in
      let found := spec_find_error_handler (error_handler_spec (self s))
                                           (blueprint (rc_request ctx)) e in
      if isinstance_exn e "HTTPException" && negb (trap_http_exception e s)
      then match exc_code e with
           | None => (Ok (VExn raised), s)
           | Some _ =>
               match found with
               | Some h => call KErrorHandler h [VExn raised] s'
               | None => (Ok (VExn raised), s')
               end
           end
      else match found with
           | Some h => call KErrorHandler h [VExn raised] s'
           | None => (Raise raised, s')
           end.
Proof.
  intros Htop Hexc.
  pose proof (describe_key_error_class e s) as Hclass.
  assert (Hexc' : isinstance_exn (describe_key_error e s) "Exception" = true).
  { unfold isinstance_exn. rewrite Hclass. exact Hexc. }
  destruct (find_error_handler_run s (describe_key_error e s) ctx Htop Hexc')
    as (s' & Hrun & Hframe & Hlog & Hw).
  rewrite (spec_find_error_handler_class _ _ e _ Hclass) in Hrun.
  exists s'. split; [exact Hframe|]. split; [exact Hlog|]. split; [exact Hw|].
  unfold handle_user_exception. rewrite bind_run, gets_run, bind_run, gets_run.
  rewrite (trap_http_exception_class e _ s Hclass).
  replace (isinstance_exn (describe_key_error e s) "HTTPException")
    with (isinstance_exn e "HTTPException")
    by (unfold isinstance_exn; rewrite Hclass; reflexivity).
  cbv zeta.
  destruct (isinstance_exn e "HTTPException" && negb (trap_http_exception e s)).
  - unfold handle_http_exception, exc_code. rewrite Hclass.
    destruct (cls_code (exc_class e)); [|reflexivity].
    rewrite bind_run, Hrun.
    destruct (spec_find_error_handler _ _ e); reflexivity.
  - rewrite bind_run, Hrun.
    destruct (spec_find_error_handler _ _ e); reflexivity.
Qed.

(** An exception raised by preprocessing or by the dispatch is handed
    to [handle_user_exception] when it is an instance of [Exception],
    and what that method returns is finalized. *)
Lemma full_dispatch_request_raised s0 s s1 e :
  (try_trigger_before_first_request_functions ;;;
   emit (EvSignal "request-started" None)) s0 = (Ok tt, s) →
  (rv <- preprocess_request ;; if is_None rv then dispatch_request else ret rv) s
    = (Raise e, s1) →
  full_dispatch_request s0 =
  (if isinstance_exn e "Exception"
   then rv <- handle_user_exception e ;; finalize_request rv false
   else raise e) s1.
Proof.
  intros Hfirst Hraise. unfold full_dispatch_request.
  rewrite bind_run in Hfirst. rewrite bind_run.
  destruct (try_trigger_before_first_request_functions s0) as [[[]|e0] sa];
    [|discriminate Hfirst].
  rewrite bind_run. unfold try_except. rewrite bind_run, Hfirst, Hraise.
  destruct (isinstance_exn e "Exception"); [|reflexivity].
  rewrite bind_run. reflexivity.
Qed.

(** C3, as the code has it.  For an exception raised while a request is
    served, the lookup returns what the four buckets hold in the fixed
    order (blueprint and code, application and code, blueprint without
    code, application without code), each bucket searched along the
    exception's method resolution order from the most specific class
    on, and the first handler found wins.  When the exception's class
    has a handler in the blueprint of the request and one in the
    application, the blueprint's handler is the one returned; and
    unless the exception is an HTTP exception without a status code
    that is not trapped, [handle_user_exception] calls that handler,
    and no other callback, with the exception, and so does
    [full_dispatch_request] when preprocessing or the view raised the
    exception, which then finalizes what the handler returned.  An HTTP
    exception without a status code that is not trapped is returned as
    the value to finalize, and no handler is called.  The exception
    handed on is the one that was raised; only a [BadRequestKeyError]
    may have got a description that names the key. *)
Theorem find_error_handler_precedence s e ctx
    (Htop : top (_request_ctx_stack s) = Some ctx)
    (Hexc : isinstance_exn e "Exception" = true) :
  let registry := error_handler_spec (self s) in
  let bp := blueprint (rc_request ctx) in
  let raised := describe_key_error e s in
  fst (_find_error_handler e s) = Ok (spec_find_error_handler registry bp e)
  ∧ exc_class raised = exc_class e
  ∧ (isinstance_exn e "BadRequestKeyError" = false → raised = e)
  ∧ ∀ b cls rest by_b by_g hm_b hm_g hb hg,
      bp = Some b →
      exc_mro e = cls :: rest →
      registry !! Some b = Some by_b → by_b !! spec_code e = Some hm_b →
      hm_b !! cls = Some hb →
      registry !! None = Some by_g → by_g !! spec_code e = Some hm_g →
      hm_g !! cls = Some hg →
      fst (_find_error_handler e s) = Ok (Some hb)
      ∧ (isinstance_exn e "HTTPException" = false ∨ trap_http_exception e s = true
         ∨ is_Some (exc_code e) →
         ∃ s', log s' = log s ∧ world s' = world s
           ∧ handle_user_exception e s = call KErrorHandler hb [VExn raised] s'
           ∧ log (snd (handle_user_exception e s))
             = log s ++ [EvCall KErrorHandler (cb_id hb) [VExn raised]
                                (fst (handle_user_exception e s))]
           ∧ ∀ s0 sp,
               (try_trigger_before_first_request_functions ;;;
                emit (EvSignal "request-started" None)) s0 = (Ok tt, sp) →
               (rv <- preprocess_request ;;
                if is_None rv then dispatch_request else ret rv) sp = (Raise e, s) →
               full_dispatch_request s0
               = (rv <- call KErrorHandler hb [VExn raised] ;;
                  finalize_request rv false) s')
      ∧ (isinstance_exn e "HTTPException" = true → trap_http_exception e s = false →
         exc_code e = None →
         handle_user_exception e s = (Ok (VExn raised), s)).
Proof.
  intros registry bp raised. subst registry bp raised.
  destruct (find_error_handler_run s e ctx Htop Hexc) as (s1 & Hrun & _).
  rewrite Hrun. simpl.
  split; [reflexivity|].
  split; [apply describe_key_error_class|].
  split; [apply describe_key_error_other|].
  intros b cls rest by_b by_g hm_b hm_g hb hg Hbp Hmro Hb Hcb Hhb _ _ _.
  assert (Hfound : spec_find_error_handler (error_handler_spec (self s))
                     (blueprint (rc_request ctx)) e = Some hb).
  { unfold spec_find_error_handler, spec_bucket.
    rewrite Hbp, Hb, Hcb, Hmro. simpl. rewrite Hhb. reflexivity. }
  split; [rewrite Hfound; reflexivity|].
  destruct (handle_user_exception_run s e ctx Htop Hexc)
    as (s' & _ & Hlog & Hw & Hhandle).
  cbv zeta in Hhandle. rewrite Hfound in Hhandle.
  split.
  - intros Hcase.
    assert (Hcall : handle_user_exception e s
                    = call KErrorHandler hb [VExn (describe_key_error e s)] s').
    { rewrite Hhandle.
      destruct (isinstance_exn e "HTTPException" && negb (trap_http_exception e s))
        eqn:Hhttp; [|reflexivity].
      destruct Hcase as [Hn | [Ht | [code Hcode]]].
      - rewrite Hn in Hhttp. discriminate Hhttp.
      - rewrite Ht, andb_false_r in Hhttp. discriminate Hhttp.
      - rewrite Hcode. reflexivity. }
    exists s'. split; [exact Hlog|]. split; [exact Hw|]. split; [exact Hcall|]. split.
    + rewrite Hcall. unfold call.
      destruct (cb_run hb [VExn (describe_key_error e s)] (world s')) as [out w]. simpl.
      rewrite Hlog. reflexivity.
    + intros s0 sp Hfirst Hraise.
      rewrite (full_dispatch_request_raised _ _ _ _ Hfirst Hraise), Hexc.
      rewrite !bind_run, Hcall. reflexivity.
  - intros Hhttp Htrap Hcode. rewrite Hhandle, Hhttp, Htrap, Hcode. reflexivity.
Qed.
End Lookup.

(** ** Routing failures in [dispatch_request] *)

Section Routing.
Context {W : Type}.
Implicit Types (s : state W).

Lemma dispatch_request_routing_exception s ctx e :
  top (_request_ctx_stack s) = Some ctx →
  routing_exception (rc_request ctx) = Some e →
  dispatch_request s = raise_routing_exception (rc_request ctx) s.
Proof.
  intros Htop Hre. unfold dispatch_request, bind.
  rewrite (top_request_context_top _ _ Htop). cbv zeta. rewrite Hre.
  unfold raise_routing_exception, bind, gets. rewrite Hre.
  destruct (negb (debug s) || negb (isinstance_exn e "RequestRedirect")
            || safe_method (method (rc_request ctx))); [reflexivity|].
  unfold lift. destruct (import_from "Flask" "__debughelpers"); reflexivity.
Qed.

(** C6, with the failure of the code.  When the routing outcome of the
    request is a redirect ([RequestRedirect]):
    - if debug mode is off or the method is GET, HEAD or OPTIONS,
      [dispatch_request] raises that same exception; when it is not
      trapped and no handler is registered for it,
      [full_dispatch_request] finalizes the exception itself, from
      which [make_response] makes the response that carries its status
      code;
    - in debug mode with any other method (POST, for one)
      [dispatch_request] raises [ModuleNotFoundError], which is an
      [ImportError], and never the [FormDataRoutingRedirect] that the
      claim and the method mean to raise: the import of
      [__debughelpers] is written inside the class, where the name
      stands for [_Flask__debughelpers]. *)
Theorem dispatch_request_redirect s ctx e
    (Htop : top (_request_ctx_stack s) = Some ctx)
    (Hrouting : routing_exception (rc_request ctx) = Some e)
    (Hredirect : isinstance_exn e "RequestRedirect" = true) :
  let req := rc_request ctx in
  let missing := ModuleNotFoundError "No module named '_Flask__debughelpers'" in
  (debug s = false ∨ safe_method (method req) = true →
     dispatch_request s = (Raise e, s)
     ∧ ∀ code s0 sp,
         isinstance_exn e "Exception" = true →
         isinstance_exn e "HTTPException" = true →
         isinstance_exn e "BadRequestKeyError" = false →
         exc_code e = Some code →
         trap_http_exception e s = false →
         spec_find_error_handler (error_handler_spec (self s)) (blueprint req) e = None →
         (try_trigger_before_first_request_functions ;;;
          emit (EvSignal "request-started" None)) s0 = (Ok tt, sp) →
         preprocess_request sp = (Ok VNone, s) →
         ∃ s', log s' = log s ∧ world s' = world s
           ∧ full_dispatch_request s0 = finalize_request (VExn e) false s'
           ∧ make_response (VExn e) s' = (Ok (get_response e), s')
           ∧ resp_status_code (get_response e) = code)
  ∧ (debug s = true ∧ safe_method (method req) = false →
       dispatch_request s = (Raise missing, s))
  ∧ missing ≠ FormDataRoutingRedirect req
  ∧ isinstance_exn missing "AssertionError" = false
  ∧ isinstance_exn missing "ImportError" = true
  ∧ safe_method "GET" = true
  ∧ safe_method "POST" = false.
Proof.
  intros req missing. subst req.
  pose proof (dispatch_request_routing_exception _ _ _ Htop Hrouting) as Hdispatch.
  assert (Hsame : debug s = false ∨ safe_method (method (rc_request ctx)) = true →
                  dispatch_request s = (Raise e, s)).
  { intros Hsafe. rewrite Hdispatch.
    unfold raise_routing_exception, bind, gets, raise. rewrite Hrouting, Hredirect.
    destruct Hsafe as [-> | ->]; simpl; [reflexivity|].
    destruct (debug s); reflexivity. }
  split.
  { intros Hsafe. split; [exact (Hsame Hsafe)|].
    intros code s0 sp Hexc Hhttp Hkey Hcode Htrap Hnone Hfirst Hpre.
    destruct (handle_user_exception_run s e ctx Htop Hexc)
      as (s' & Hframe & Hlog & Hw & Hhandle).
    cbv zeta in Hhandle.
    rewrite (describe_key_error_other e s Hkey), Hhttp, Htrap, Hcode, Hnone in Hhandle.
    simpl in Hhandle.
    exists s'. split; [exact Hlog|]. split; [exact Hw|].
    assert (Hblock : (rv <- preprocess_request ;;
                      if is_None rv then dispatch_request else ret rv) sp = (Raise e, s)).
    { rewrite bind_run, Hpre. simpl. exact (Hsame Hsafe). }
    split.
    { rewrite (full_dispatch_request_raised _ _ _ _ Hfirst Hblock), Hexc.
      rewrite bind_run, Hhandle. reflexivity. }
    split.
    - unfold make_response, bind, lift. simpl.
      rewrite (current_request_top s' ctx)
        by (rewrite (frame_request_ctx_stack _ _ Hframe); exact Htop).
      unfold force_type. rewrite Hhttp. reflexivity.
    - unfold get_response. rewrite Hcode. reflexivity. }
  split.
  { intros [Hd Hm]. rewrite Hdispatch.
    unfold raise_routing_exception, bind, gets, raise.
    rewrite Hrouting, Hredirect, Hd, Hm. reflexivity. }
  repeat split. discriminate.
Qed.
End Routing.

(** ** [add_url_rule] *)

Section AddUrlRule.
Context {W : Type}.
Variable _endpoint_from_view_func : option (view_function W) → result string.
Variable url_rule_class : string → gset string → string → result rule.
Implicit Types (s : state W).

(** C10, as the code has it.  For a call of [add_url_rule] with a view
    function that gets past the checks made first (the guard of
    [setupmethod], the type of [methods], the creation of the rule):
    when the endpoint is bound to another function the call raises the
    [AssertionError] of the overwriting check and leaves the registry
    of view functions as it was; when the endpoint is free or bound to
    the same function the call succeeds and binds the endpoint to the
    function. *)
Theorem add_url_rule_view_function s (rule : string) (endpoint : option string)
    (ep : string) (vf : view_function W) (pao : option bool)
    (methods : option (list string))
    (Hsetup : debug s && _got_first_request (self s) = false)
    (Hendpoint : match endpoint with
                 | Some x => x = ep
                 | None => _endpoint_from_view_func (Some vf) = Ok ep
                 end)
    (Hrule : ∀ ms, ∃ r, url_rule_class rule ms ep = Ok r) :
  ∃ s', snd (add_url_rule _endpoint_from_view_func url_rule_class rule endpoint
               (Some vf) pao (option_map MethodsList methods) s) = s'
    ∧ match view_functions (self s) !! ep with
      | Some old =>
          if Nat.eqb (cb_id (vf_func old)) (cb_id (vf_func vf))
          then fst (add_url_rule _endpoint_from_view_func url_rule_class rule endpoint
                      (Some vf) pao (option_map MethodsList methods) s) = Ok tt
               ∧ view_functions (self s') = <[ep := vf]> (view_functions (self s))
          else fst (add_url_rule _endpoint_from_view_func url_rule_class rule endpoint
                      (Some vf) pao (option_map MethodsList methods) s)
                 = Raise (AssertionError (overwriting_msg ep))
               ∧ view_functions (self s') = view_functions (self s)
      | None =>
          fst (add_url_rule _endpoint_from_view_func url_rule_class rule endpoint
                 (Some vf) pao (option_map MethodsList methods) s) = Ok tt
          ∧ view_functions (self s') = <[ep := vf]> (view_functions (self s))
      end.
Proof.
  eexists. split; [reflexivity|].
  unfold add_url_rule, setupmethod, bind, gets. rewrite Hsetup.
  assert (Hep : (match endpoint with
                 | Some x => ret x
                 | None => lift (_endpoint_from_view_func (Some vf))
                 end) s = (Ok ep, s)).
  { destruct endpoint as [x|]; [subst x; reflexivity|].
    unfold lift. rewrite Hendpoint. reflexivity. }
  rewrite Hep. unfold lift, ret.
  destruct methods as [ms|]; simpl;
    [|destruct (vf_methods vf) as [[|m ms]|]; simpl];
    (destruct pao as [b|]; [|destruct (vf_provide_automatic_options vf) as [b|]]);
    simpl;
    repeat match goal with
      | |- context [bool_decide ?P] => destruct (bool_decide P); simpl
      end;
    match goal with
    | |- context [url_rule_class rule ?x ep] =>
        destruct (Hrule x) as (r & Hr); rewrite Hr; simpl
    end;
    (destruct (view_functions (self s) !! ep) as [old|]; simpl; auto);
    destruct (Nat.eqb (cb_id (vf_func old)) (cb_id (vf_func vf))); simpl; auto.
Qed.
End AddUrlRule.

(** ** Unhandled exceptions: [handle_exception] *)

Section HandleException.
Context {W : Type}.
Implicit Types (s : state W).

(** C7, as the code has it.  The propagation flag is
    [PROPAGATE_EXCEPTIONS] when set and testing-or-debug otherwise, read
    from the configuration of the moment.  [handle_exception] sends the
    signal and looks up the handler for [InternalServerError]; when the
    flag is true it raises the exception again, and nothing is logged;
    when the flag is false it logs the exception and returns the plain
    [InternalServerError] if there is no handler, or what
    [finalize_request] (with [from_error_handler]) makes of the
    handler's result.  It never changes the configuration. *)
Theorem handle_exception_policy s e ctx
    (Htop : top (_request_ctx_stack s) = Some ctx) :
  let req := rc_request ctx in
  let handler :=
    spec_find_error_handler (error_handler_spec (self s)) (blueprint req)
                            InternalServerError in
  let signalled := EvSignal "got-request-exception" (Some e) in
  let logged :=
    EvLogError ("Exception on " ++ path req ++ " [" ++ method req ++ "]") (Some e) in
  propagate_exceptions s =
    match PROPAGATE_EXCEPTIONS (app_config (self s)) with
    | Some flag => flag
    | None => testing s || debug s
    end
  ∧ (∃ s1, frame s s1 ∧ log s1 = log s ++ [signalled]
       ∧ if propagate_exceptions s
         then handle_exception e s = (Raise e, s1)
         else match handler with
              | None =>
                  handle_exception e s =
                  (Ok (VExn InternalServerError), set_log (log s1 ++ [logged]) s1)
              | Some h =>
                  handle_exception e s =
                  (rv <- call KErrorHandler h [VExn e] ;; finalize_request rv true)
                    (set_log (log s1 ++ [logged]) s1)
              end)
  ∧ ∀ r s', handle_exception e s = (r, s') → app_config (self s') = app_config (self s).
Proof.
  intros req handler signalled logged.
  split; [reflexivity|]. split.
  - set (s0 := set_log (log s ++ [signalled]) s).
    assert (Htop0 : top (_request_ctx_stack s0) = Some ctx) by exact Htop.
    destruct (find_error_handler_run s0 InternalServerError ctx Htop0 eq_refl)
      as (s1 & Hrun & Hframe & Hlog & _).
    exists s1. split; [|split].
    + eapply frame_trans; [|exact Hframe].
      eapply (preserves_emit signalled eq_refl s). reflexivity.
    + rewrite Hlog. reflexivity.
    + unfold handle_exception, bind, emit, modify. fold signalled. fold s0.
      rewrite Hrun. unfold gets.
      assert (Hp : propagate_exceptions s1 = propagate_exceptions s).
      { unfold propagate_exceptions, testing, debug.
        rewrite (frame_config _ _ Hframe). reflexivity. }
      rewrite Hp. destruct (propagate_exceptions s); [reflexivity|].
      unfold log_exception, bind.
      assert (Htop1 : top (_request_ctx_stack s1) = Some ctx).
      { rewrite (frame_request_ctx_stack _ _ Hframe). exact Htop0. }
      rewrite (current_request_top _ _ Htop1). unfold emit, modify.
      change (error_handler_spec (self s0)) with (error_handler_spec (self s)).
      fold req. fold logged. fold handler.
      destruct handler; reflexivity.
  - intros r s' Hrun. exact (frame_config _ _ (preserves_handle_exception e s r s' Hrun)).
Qed.
End HandleException.

(** ** [finalize_request] *)

Section Finalize.
Context {W : Type}.
Implicit Types (s : state W).

End Finalize.

(** ** Preprocessing and the first-request functions *)

Section Preprocess.
Context {W : Type}.
Implicit Types (s : state W).

Lemma chain_blueprint_scoped {A} (d : gmap (option string) (list A)) bp :
  chain_blueprint (default [] (d !! None)) d bp = spec_scoped d bp.
Proof.
  unfold chain_blueprint, spec_scoped.
  destruct bp as [b|]; [destruct (d !! Some b)|]; simpl;
    rewrite ?app_nil_r; reflexivity.
Qed.

(** The loop over the URL value preprocessors, when it ends normally,
    has called each of them once, in order, with the endpoint and the
    view arguments of the request. *)
Lemma url_value_preprocessors_trace ctx (funcs : list (callback W)) : ∀ s s',
  top (_request_ctx_stack s) = Some ctx →
  for_each funcs (fun func =>
    req <- current_request ;;
    call KUrlValuePreprocessor func [pyval_of_endpoint req; pyval_of_view_args req] ;;;
    ret tt) s = (Ok tt, s') →
  ∃ outs, length outs = length funcs
    ∧ log s' = log s ++
        zip_with (call_event KUrlValuePreprocessor
                    [pyval_of_endpoint (rc_request ctx);
                     pyval_of_view_args (rc_request ctx)]) funcs outs
    ∧ self s' = self s
    ∧ _request_ctx_stack s' = _request_ctx_stack s.
Proof.
  induction funcs as [|f fs IH]; intros s s' Htop; simpl.
  - intros [= <-]. exists []. rewrite app_nil_r. auto.
  - unfold bind at 1. unfold bind at 1.
    rewrite (current_request_top _ _ Htop).
    unfold bind at 1. unfold call.
    destruct (cb_run f _ (world s)) as [[v|e] w]; [|discriminate].
    unfold ret at 1. intros Hrest.
    apply IH in Hrest; [|exact Htop].
    destruct Hrest as (outs & Hlen & Hlog & Hself & Hst).
    exists (v :: outs). simpl in *.
    rewrite Hlen, Hlog, <- app_assoc. auto.
Qed.

(** The loop over the before-request functions stops at the first one
    whose result is not [None]. *)
Lemma first_not_None_trace (funcs : list (callback W)) : ∀ s v s',
  first_not_None funcs s = (Ok v, s') →
  self s' = self s ∧ _request_ctx_stack s' = _request_ctx_stack s
  ∧ if is_None v
    then log s' = log s ++ map (fun c => call_event KBeforeRequest [] c VNone) funcs
    else ∃ l1 c l2, funcs = l1 ++ c :: l2
           ∧ log s' = log s ++ map (fun c' => call_event KBeforeRequest [] c' VNone) l1
                            ++ [call_event KBeforeRequest [] c v].
Proof.
  induction funcs as [|f fs IH]; intros s v s'; simpl.
  - intros [= <- <-]. simpl. rewrite app_nil_r. auto.
  - unfold bind, call.
    destruct (cb_run f [] (world s)) as [[rv|e] w]; [|discriminate].
    destruct (is_None rv) eqn:Hrv.
    + destruct rv; try discriminate Hrv. intros Hrest.
      apply IH in Hrest. destruct Hrest as (Hself & Hst & Hrest).
      simpl in *. split; [exact Hself|]. split; [exact Hst|].
      destruct (is_None v).
      * rewrite Hrest, <- app_assoc. reflexivity.
      * destruct Hrest as (l1 & c & l2 & -> & Hlog).
        exists (f :: l1), c, l2. split; [reflexivity|].
        rewrite Hlog. simpl. rewrite <- !app_assoc. reflexivity.
    + intros [= <- <-]. simpl. rewrite Hrv.
      split; [reflexivity|]. split; [reflexivity|].
      exists [], f, fs. split; reflexivity.
Qed.

(** C5, as the code has it: the test on the result of a before-request
    function is [rv is not None], so an empty result (an empty string,
    say) ends preprocessing like any other.  When preprocessing yields a
    value that is not [None]: every
    URL value preprocessor was called first, those of the application
    and then those of the request's blueprint, with the endpoint and
    the view arguments; then the before-request functions were called
    in the same scoping up to the first one whose result was not
    [None], and no further; and [full_dispatch_request] finalizes that
    result from the state preprocessing left, so neither the routing
    outcome is resolved nor a view called. *)
Theorem preprocess_request_short_circuit s0 s ctx v s1
    (Hfirst : (try_trigger_before_first_request_functions ;;;
               emit (EvSignal "request-started" None)) s0 = (Ok tt, s))
    (Htop : top (_request_ctx_stack s) = Some ctx)
    (Hrun : preprocess_request s = (Ok v, s1))
    (Hv : is_None v = false) :
  let req := rc_request ctx in
  let url_funcs := spec_scoped (url_value_preprocessors (self s)) (blueprint req) in
  let before_funcs := spec_scoped (before_request_funcs (self s)) (blueprint req) in
  (∃ outs l1 c l2,
      length outs = length url_funcs
      ∧ before_funcs = l1 ++ c :: l2
      ∧ log s1 = log s
          ++ zip_with (call_event KUrlValuePreprocessor
                         [pyval_of_endpoint req; pyval_of_view_args req]) url_funcs outs
          ++ map (fun c' => call_event KBeforeRequest [] c' VNone) l1
          ++ [call_event KBeforeRequest [] c v])
  ∧ full_dispatch_request s0 = finalize_request v false s1.
Proof.
  intros req url_funcs before_funcs. split.
  - revert Hrun. unfold preprocess_request. unfold bind at 1.
    rewrite (top_request_context_top _ _ Htop). cbv zeta.
    unfold bind at 1. unfold gets at 1. rewrite chain_blueprint_scoped.
    fold req. fold url_funcs. unfold bind at 1.
    match goal with
    | |- context [for_each url_funcs ?body s] =>
        destruct (for_each url_funcs body s) as [[[]|e] sa] eqn:Hurl; [|discriminate]
    end.
    apply (url_value_preprocessors_trace ctx) in Hurl; [|exact Htop].
    destruct Hurl as (outs & Hlen & Hlog & Hself & Hst).
    unfold bind, gets. rewrite chain_blueprint_scoped, Hself.
    fold req. fold before_funcs. intros Hbefore.
    apply first_not_None_trace in Hbefore. rewrite Hv in Hbefore.
    destruct Hbefore as (_ & _ & l1 & c & l2 & Hsplit & Hlog').
    exists outs, l1, c, l2. repeat split; [exact Hlen | exact Hsplit |].
    rewrite Hlog', Hlog, <- !app_assoc. reflexivity.
  - revert Hfirst. unfold full_dispatch_request, bind, try_except.
    destruct (try_trigger_before_first_request_functions s0) as [[[]|e] sa];
      [|discriminate].
    destruct (emit (EvSignal "request-started" None) sa) as [[[]|e] sb];
      [|discriminate].
    intros [= ->]. rewrite Hrun, Hv. reflexivity.
Qed.

(** Without a short circuit every before-request function was called
    and returned [None]. *)
Lemma preprocess_request_no_short_circuit s ctx s1 :
  top (_request_ctx_stack s) = Some ctx →
  preprocess_request s = (Ok VNone, s1) →
  let req := rc_request ctx in
  let url_funcs := spec_scoped (url_value_preprocessors (self s)) (blueprint req) in
  let before_funcs := spec_scoped (before_request_funcs (self s)) (blueprint req) in
  ∃ outs,
    length outs = length url_funcs
    ∧ log s1 = log s
        ++ zip_with (call_event KUrlValuePreprocessor
                       [pyval_of_endpoint req; pyval_of_view_args req]) url_funcs outs
        ++ map (fun c' => call_event KBeforeRequest [] c' VNone) before_funcs.
Proof.
  intros Htop Hrun req url_funcs before_funcs.
  revert Hrun. unfold preprocess_request. unfold bind at 1.
  rewrite (top_request_context_top _ _ Htop). cbv zeta.
  unfold bind at 1. unfold gets at 1. rewrite chain_blueprint_scoped.
  fold req. fold url_funcs. unfold bind at 1.
  match goal with
  | |- context [for_each url_funcs ?body s] =>
      destruct (for_each url_funcs body s) as [[[]|e] sa] eqn:Hurl; [|discriminate]
  end.
  apply (url_value_preprocessors_trace ctx) in Hurl; [|exact Htop].
  destruct Hurl as (outs & Hlen & Hlog & Hself & Hst).
  unfold bind, gets. rewrite chain_blueprint_scoped, Hself.
  fold req. fold before_funcs. intros Hbefore.
  apply first_not_None_trace in Hbefore. simpl in Hbefore.
  destruct Hbefore as (_ & _ & Hlog').
  exists outs. split; [exact Hlen|].
  rewrite Hlog', Hlog, <- !app_assoc. reflexivity.
Qed.
End Preprocess.

Section FirstRequest.
Context {W : Type}.
Implicit Types (s : state W).

(** A loop that calls callbacks which all return normally calls each
    of them once, in order, and touches nothing but the log and the
    state of the callbacks. *)
Lemma for_each_calls k args (funcs : list (callback W)) :
  Forall returns_normally funcs →
  ∀ s, ∃ outs s',
    for_each funcs (fun func => call k func args ;;; ret tt) s = (Ok tt, s')
    ∧ length outs = length funcs
    ∧ log s' = log s ++ zip_with (call_event k args) funcs outs
    ∧ self s' = self s
    ∧ _request_ctx_stack s' = _request_ctx_stack s
    ∧ _app_ctx_stack s' = _app_ctx_stack s
    ∧ next_id s' = next_id s.
Proof.
  induction 1 as [|f fs Hf _ IH]; intros s; simpl.
  - exists [], s. rewrite app_nil_r. repeat split; reflexivity.
  - unfold bind at 1. unfold bind at 1. unfold call.
    destruct (Hf args (world s)) as (v & w & Hrun). rewrite Hrun.
    unfold ret at 1.
    destruct (IH (set_log (log s ++ [EvCall k (cb_id f) args (Ok v)]) (set_world w s)))
      as (outs & s' & Hrest & Hlen & Hlog & Hself & Hst & Hast & Hid).
    exists (v :: outs), s'. split; [exact Hrest|]. simpl in *.
    rewrite Hlen, Hlog, <- app_assoc. repeat split; auto.
Qed.

(** The sound half of C4: when the before-first-request functions
    return normally, the first dispatch calls each of them once while
    holding the lock and then sets the flag, and a dispatch that finds
    the flag set calls none and changes nothing. *)
Lemma before_first_request_once s :
  Forall returns_normally (before_first_request_funcs (self s)) →
  (_got_first_request (self s) = true →
     try_trigger_before_first_request_functions s = (Ok tt, s))
  ∧ (_got_first_request (self s) = false →
       ∃ outs s',
         try_trigger_before_first_request_functions s = (Ok tt, s')
         ∧ length outs = length (before_first_request_funcs (self s))
         ∧ log s' = log s ++ [EvLock true]
             ++ zip_with (call_event KBeforeFirstRequest [])
                         (before_first_request_funcs (self s)) outs
             ++ [EvLock false]
         ∧ _got_first_request (self s') = true).
Proof.
  intros Hall. unfold try_trigger_before_first_request_functions.
  rewrite bind_run, gets_run.
  split; intros Hgot; rewrite Hgot; [reflexivity|].
  unfold with_before_request_lock.
  rewrite bind_run, emit_run, try_finally_run, bind_run, gets_run.
  change (_got_first_request (self (set_log (log s ++ [EvLock true]) s)))
    with (_got_first_request (self s)).
  rewrite Hgot, bind_run, gets_run.
  change (before_first_request_funcs (self (set_log (log s ++ [EvLock true]) s)))
    with (before_first_request_funcs (self s)).
  destruct (for_each_calls KBeforeFirstRequest [] _ Hall
              (set_log (log s ++ [EvLock true]) s))
    as (outs & s' & Hrun & Hlen & Hlog & Hself & _).
  rewrite (bind_ok _ _ _ _ _ Hrun), modify_run, emit_run.
  eexists outs, _. split; [reflexivity|]. simpl.
  split; [exact Hlen|]. split; [|reflexivity].
  rewrite Hlog. simpl. rewrite <- !app_assoc. reflexivity.
Qed.

(** C4 at the failing input.  The application [flaky_app] has two
    before-first-request functions, the second of which raises.  Two
    requests in a row are both answered with status 500, the flag
    [_got_first_request] is still unset after them, and the first
    function has been called twice. *)
Theorem before_first_request_called_again :
  let environ := Examples.environ_of Examples.get_index false in
  let s0 := Examples.fresh Examples.flaky_app in
  let '(r1, s1) := wsgi_app environ s0 in
  let '(r2, s2) := wsgi_app environ s1 in
  (∃ response, r1 = Ok response ∧ resp_status_code response = 500)
  ∧ (∃ response, r2 = Ok response ∧ resp_status_code response = 500)
  ∧ _got_first_request (self s2) = false
  ∧ Examples.count_before_first_request 1 (log s1) = 1%nat
  ∧ Examples.count_before_first_request 1 (log s2) = 2%nat.
Proof.
  vm_compute. repeat split; eexists; split; reflexivity.
Qed.
End FirstRequest.

(** ** The first-request check under interleaving *)

Section Interleaving.
Context {W : Type}.
Variable funcs : list (callback W).
Hypothesis funcs_return : Forall returns_normally funcs.

Lemma invariant_at_start n w : first_request_invariant funcs (threads_start n w).
Proof.
  unfold threads_start. constructor; simpl; try reflexivity; try discriminate.
  - intros i p Hi. apply lookup_replicate in Hi as [-> _]. split; [discriminate | exact I].
  - exists 0%nat. reflexivity.
Qed.

(** A thread outside the block is not concerned by what the holder of
    the lock does, as long as a flag that is set stays set. *)
Lemma position_ok_other ids i j q (sh sh' : shared W) :
  j ≠ i →
  shared_lock sh = Some i →
  (shared_got_first_request sh = true → shared_got_first_request sh' = true) →
  position_ok ids j q sh → position_ok ids j q sh'.
Proof.
  intros Hne Hlock Hflag [Hholds Hq].
  destruct q; simpl in *;
    try (specialize (Hholds eq_refl); congruence);
    (split; [discriminate | auto]).
Qed.

(** Nor by a thread that takes the free lock. *)
Lemma position_ok_acquire ids i j q (sh : shared W) :
  j ≠ i →
  shared_lock sh = None →
  position_ok ids j q sh →
  position_ok ids j q (Shared (shared_got_first_request sh) (Some i) (shared_world sh)
                              (shared_calls sh)).
Proof.
  intros Hne Hlock [Hholds Hq].
  destruct q; simpl in *;
    try (specialize (Hholds eq_refl); congruence);
    (split; [discriminate | auto]).
Qed.

(** A step of a thread keeps the invariant. *)
Lemma invariant_step st st' :
  first_request_invariant funcs st → interleaved_step funcs st st' →
  first_request_invariant funcs st'.
Proof.
  intros [Hthreads Hprefix Hfree Hdone] Hstep.
  destruct Hstep as [i p p' ps sh sh' Hi Hp]. simpl in *.
  assert (Hlen : (i < length ps)%nat) by (eapply lookup_lt_Some; exact Hi).
  destruct (Hthreads _ _ Hi) as [Hholds Hme].
  assert (Hsplit : ∀ (P : nat → position → Prop),
             P i p' → (∀ j q, j ≠ i → ps !! j = Some q → P j q) →
             ∀ j q, <[i := p']> ps !! j = Some q → P j q).
  { intros P Hmine Hothers j q Hj. destruct (decide (j = i)) as [->|Hne].
    - rewrite list_lookup_insert_eq in Hj by exact Hlen. injection Hj as <-. exact Hmine.
    - rewrite list_lookup_insert_ne in Hj by auto. auto. }
  destruct p as [| | |k| |pending| |e]; simpl in Hp, Hholds, Hme.
  - (* the first test *)
    injection Hp as <- <-.
    constructor; simpl; [|exact Hprefix|exact Hfree|exact Hdone].
    apply Hsplit; [|auto].
    destruct (shared_got_first_request sh) eqn:Hflag; (split; [discriminate | simpl; auto]).
  - (* taking the lock *)
    destruct (shared_lock sh) as [holder|] eqn:Hlock; [discriminate|].
    injection Hp as <- <-.
    constructor; simpl; [|exact Hprefix|discriminate|exact Hdone].
    apply Hsplit.
    + split; [reflexivity | simpl; auto].
    + intros j q Hne Hj. apply position_ok_acquire; auto.
  - (* the second test *)
    injection Hp as <- <-.
    constructor; simpl; [|exact Hprefix|exact Hfree|exact Hdone].
    apply Hsplit; [|auto].
    destruct (shared_got_first_request sh) eqn:Hflag; (split; [auto | simpl; auto]).
  - (* a call, or the end of the loop *)
    destruct Hme as [Hflag Hcalls]. specialize (Hholds eq_refl).
    destruct (funcs !! k) as [func|] eqn:Hk.
    + assert (Hret : returns_normally func).
      { eapply Forall_forall; [exact funcs_return|]. eapply list_elem_of_lookup_2, Hk. }
      destruct (Hret [] (shared_world sh)) as (v & w & Hrun). rewrite Hrun in Hp.
      injection Hp as <- <-.
      assert (Hnext : shared_calls sh ++ [cb_id func] = take (S k) (map cb_id funcs)).
      { rewrite Hcalls. symmetry. apply take_S_r. rewrite list_lookup_fmap, Hk. reflexivity. }
      constructor; simpl.
      * apply Hsplit; [split; simpl; auto|].
        intros j q Hne Hj. eapply position_ok_other; eauto.
      * exists (S k). exact Hnext.
      * intros _ Hlock. congruence.
      * intros Htrue. congruence.
    + injection Hp as <- <-.
      constructor; simpl; [|exact Hprefix|exact Hfree|exact Hdone].
      apply Hsplit; [|auto].
      split; [auto|]. simpl. split; [exact Hflag|].
      rewrite Hcalls. apply take_ge. rewrite length_map. apply lookup_ge_None. exact Hk.
  - (* setting the flag *)
    destruct Hme as [Hflag Hcalls]. specialize (Hholds eq_refl).
    injection Hp as <- <-.
    constructor; simpl; [|exact Hprefix|discriminate|intros _; exact Hcalls].
    apply Hsplit; [split; simpl; auto|].
    intros j q Hne Hj. eapply position_ok_other; eauto.
  - (* leaving the block *)
    destruct Hme as [-> Hflag]. specialize (Hholds eq_refl).
    injection Hp as <- <-.
    constructor; simpl; [|exact Hprefix|congruence|exact Hdone].
    apply Hsplit; [split; [discriminate | exact Hflag]|].
    intros j q Hne Hj. eapply position_ok_other; eauto.
  - discriminate.
  - discriminate.
Qed.

(** The sound half of C4 with threads: however the steps of [n]
    threads interleave, when the before-first-request functions return
    normally they are called in order, each at most once; only a thread
    that holds the lock is in the block, and at most one thread holds
    it; no thread raises; and once a thread has returned, the flag is set
    and each function has been called exactly once. *)
Lemma first_request_check_interleaved n w ps sh :
  rtc (interleaved_step funcs) (threads_start n w) (ps, sh) →
  (∃ k, shared_calls sh = take k (map cb_id funcs))
  ∧ (∀ i j p q, ps !! i = Some p → ps !! j = Some q →
       holds_lock p = true → holds_lock q = true → i = j)
  ∧ (∀ i e, ps !! i ≠ Some (Raised e))
  ∧ (∀ i, ps !! i = Some Returned →
       shared_got_first_request sh = true ∧ shared_calls sh = map cb_id funcs).
Proof.
  intros Hreach.
  assert (Hinv : first_request_invariant funcs (ps, sh)).
  { revert Hreach. generalize (ps, sh). apply rtc_ind_r.
    - apply invariant_at_start.
    - intros st st' _ Hstep Hinv. eapply invariant_step; eassumption. }
  destruct Hinv as [Hthreads Hprefix _ Hdone]. simpl in *.
  split; [exact Hprefix|]. split; [|split].
  - intros i j p q Hi Hj Hp Hq.
    destruct (Hthreads _ _ Hi) as [Hlock1 _]. destruct (Hthreads _ _ Hj) as [Hlock2 _].
    specialize (Hlock1 Hp). specialize (Hlock2 Hq). congruence.
  - intros i e Hi. destruct (Hthreads _ _ Hi) as [_ []].
  - intros i Hi. destruct (Hthreads _ _ Hi) as [_ Hflag]. simpl in Hflag. auto.
Qed.
End Interleaving.

(** A thread that runs alone does what the method does: it ends where
    [try_trigger_before_first_request_functions] ends, with the same
    flag, the same state of the callbacks and the same calls. *)
Section ThreadAndMethod.
Context {W : Type}.
Implicit Types (s : state W).

Lemma first_request_calls_app l1 l2 :
  first_request_calls (l1 ++ l2) = first_request_calls l1 ++ first_request_calls l2.
Proof. apply omap_app. Qed.

Lemma call_run k (c : callback W) args s :
  call k c args s =
  match cb_run c args (world s) with
  | (r, w) => (r, set_log (log s ++ [EvCall k (cb_id c) args r]) (set_world w s))
  end.
Proof. reflexivity. Qed.

Lemma thread_follows_loop funcs i flag lock : ∀ fs pre s calls r s',
  funcs = pre ++ fs →
  for_each fs (fun func => call KBeforeFirstRequest func [] ;;; ret tt) s = (r, s') →
  ∃ l, log s' = log s ++ l
    ∧ self s' = self s
    ∧ rtc (alone_step funcs i)
          (AtCall (length pre), Shared flag lock (world s) calls)
          (match r with Ok _ => AtSet | Raise e => AtRelease (Some e) end,
           Shared flag lock (world s') (calls ++ first_request_calls l)).
Proof.
  induction fs as [|f fs IH]; intros pre s calls r s' Hfuncs Hrun.
  - injection Hrun as <- <-. exists []. rewrite !app_nil_r.
    split; [reflexivity|]. split; [reflexivity|].
    apply rtc_once. unfold alone_step. simpl.
    rewrite Hfuncs, app_nil_r, lookup_ge_None_2 by lia. reflexivity.
  - simpl in Hrun. rewrite bind_run, bind_run, call_run in Hrun.
    assert (Hk : funcs !! length pre = Some f).
    { rewrite Hfuncs, lookup_app_r, Nat.sub_diag by lia. reflexivity. }
    destruct (cb_run f [] (world s)) as [[v|e] w] eqn:Hf.
    + unfold ret at 1 in Hrun.
      apply (IH (pre ++ [f]) _ (calls ++ [cb_id f])) in Hrun;
        [|rewrite <- app_assoc; exact Hfuncs].
      destruct Hrun as (l & Hlog & Hself & Hrtc).
      exists (EvCall KBeforeFirstRequest (cb_id f) [] (Ok v) :: l).
      split; [rewrite Hlog; simpl; rewrite <- app_assoc; reflexivity|].
      split; [exact Hself|].
      rewrite length_app in Hrtc. simpl in Hrtc.
      replace (length pre + 1)%nat with (S (length pre)) in Hrtc by lia.
      eapply rtc_l.
      * unfold alone_step. simpl. rewrite Hk, Hf. reflexivity.
      * simpl. rewrite <- app_assoc in Hrtc. exact Hrtc.
    + injection Hrun as <- <-.
      exists [EvCall KBeforeFirstRequest (cb_id f) [] (Raise e)].
      split; [reflexivity|]. split; [reflexivity|].
      apply rtc_once. unfold alone_step. simpl. rewrite Hk, Hf. reflexivity.
Qed.

Lemma thread_follows_method s i r s' :
  try_trigger_before_first_request_functions s = (r, s') →
  ∃ l, log s' = log s ++ l
    ∧ rtc (alone_step (before_first_request_funcs (self s)) i)
          (AtTest, Shared (_got_first_request (self s)) None (world s) [])
          (match r with Ok _ => Returned | Raise e => Raised e end,
           Shared (_got_first_request (self s')) None (world s')
                  (first_request_calls l)).
Proof.
  unfold try_trigger_before_first_request_functions.
  rewrite bind_run, gets_run.
  destruct (_got_first_request (self s)) eqn:Hgot.
  - intros [= <- <-]. exists []. rewrite app_nil_r. split; [reflexivity|].
    apply rtc_once. unfold alone_step. simpl. rewrite Hgot. reflexivity.
  - unfold with_before_request_lock.
    rewrite bind_run, emit_run, try_finally_run, bind_run, gets_run.
    change (_got_first_request (self (set_log (log s ++ [EvLock true]) s)))
      with (_got_first_request (self s)).
    rewrite Hgot, bind_run, gets_run.
    change (before_first_request_funcs (self (set_log (log s ++ [EvLock true]) s)))
      with (before_first_request_funcs (self s)).
    rewrite bind_run.
    assert (Hhead : rtc (alone_step (before_first_request_funcs (self s)) i)
                        (AtTest, Shared false None (world s) [])
                        (AtCall 0, Shared false (Some i) (world s) [])).
    { eapply rtc_l; [unfold alone_step; simpl; reflexivity|].
      eapply rtc_l; [unfold alone_step; simpl; reflexivity|].
      apply rtc_once. unfold alone_step. simpl. reflexivity. }
    destruct (for_each (before_first_request_funcs (self s)) _
                (set_log (log s ++ [EvLock true]) s)) as [r1 s1] eqn:Hloop.
    apply (thread_follows_loop (before_first_request_funcs (self s)) i false (Some i)
             _ [] _ []) in Hloop; [|reflexivity].
    destruct Hloop as (l & Hlog & Hself & Hrtc). simpl in Hlog, Hrtc.
    destruct r1 as [[]|e].
    + rewrite modify_run, emit_run. intros [= <- <-]. simpl.
      exists (EvLock true :: l ++ [EvLock false]). split.
      { rewrite Hlog, <- !app_assoc. reflexivity. }
      change (first_request_calls (EvLock true :: l ++ [EvLock false]))
        with (first_request_calls (l ++ [EvLock false])).
      rewrite first_request_calls_app, app_nil_r.
      etrans; [exact Hhead|]. etrans; [exact Hrtc|].
      eapply rtc_l; [unfold alone_step; simpl; reflexivity|].
      apply rtc_once. unfold alone_step. simpl. reflexivity.
    + rewrite emit_run. intros [= <- <-]. simpl.
      exists (EvLock true :: l ++ [EvLock false]). split.
      { rewrite Hlog, <- !app_assoc. reflexivity. }
      change (first_request_calls (EvLock true :: l ++ [EvLock false]))
        with (first_request_calls (l ++ [EvLock false])).
      rewrite first_request_calls_app, app_nil_r.
      rewrite Hself. simpl. rewrite Hgot.
      etrans; [exact Hhead|]. etrans; [exact Hrtc|].
      apply rtc_once. unfold alone_step. simpl. reflexivity.
Qed.
End ThreadAndMethod.

(** ** Teardown at the end of [wsgi_app] *)

Section Teardown.
Context {W : Type}.
Implicit Types (s : state W).

Lemma teardown_calls_of_request_calls args (funcs : list (callback W)) : ∀ outs,
  length outs = length funcs →
  teardown_calls (zip_with (call_event KTeardownRequest args) funcs outs)
  = map (fun c => (KTeardownRequest, cb_id c, args)) funcs.
Proof.
  induction funcs as [|f fs IH]; intros [|v outs] Hlen; try discriminate Hlen;
    [reflexivity|].
  simpl in *. unfold teardown_calls in *. simpl. rewrite IH by lia. reflexivity.
Qed.

Lemma teardown_calls_of_appcontext_calls args (funcs : list (callback W)) : ∀ outs,
  length outs = length funcs →
  teardown_calls (zip_with (call_event KTeardownAppcontext args) funcs outs)
  = map (fun c => (KTeardownAppcontext, cb_id c, args)) funcs.
Proof.
  induction funcs as [|f fs IH]; intros [|v outs] Hlen; try discriminate Hlen;
    [reflexivity|].
  simpl in *. unfold teardown_calls in *. simpl. rewrite IH by lia. reflexivity.
Qed.

Lemma teardown_order_chain {A} (d : gmap (option string) (list A)) bp :
  match bp with
  | Some b =>
      match d !! Some b with
      | Some fs => rev (default [] (d !! None)) ++ rev fs
      | None => rev (default [] (d !! None))
      end
  | None => rev (default [] (d !! None))
  end = spec_teardown_order d bp.
Proof.
  unfold spec_teardown_order.
  destruct bp as [b|]; [destruct (d !! Some b)|]; simpl; rewrite ?app_nil_r; reflexivity.
Qed.

(** [do_teardown_request] calls every request teardown function once,
    in teardown order, with the exception it was given. *)
Lemma do_teardown_request_run s ctx exc :
  top (_request_ctx_stack s) = Some ctx →
  Forall returns_normally
    (spec_teardown_order (teardown_request_funcs (self s)) (blueprint (rc_request ctx))) →
  ∃ l s',
    do_teardown_request exc s = (Ok tt, s')
    ∧ log s' = log s ++ l
    ∧ teardown_calls l
      = map (fun c => (KTeardownRequest, cb_id c, [pyval_of_exc exc]))
            (spec_teardown_order (teardown_request_funcs (self s))
                                 (blueprint (rc_request ctx)))
    ∧ self s' = self s
    ∧ _request_ctx_stack s' = _request_ctx_stack s
    ∧ _app_ctx_stack s' = _app_ctx_stack s.
Proof.
  intros Htop Hall. unfold do_teardown_request.
  rewrite bind_run, gets_run. cbv zeta.
  rewrite bind_run, (top_request_context_top _ _ Htop), teardown_order_chain.
  destruct (for_each_calls KTeardownRequest [pyval_of_exc exc] _ Hall s)
    as (outs & s' & Hrun & Hlen & Hlog & Hself & Hst & Hast & _).
  rewrite (bind_ok _ _ _ _ _ Hrun), emit_run.
  eexists _, _. split; [reflexivity|]. simpl.
  split; [rewrite Hlog, <- app_assoc; reflexivity|].
  split; [|auto].
  rewrite teardown_calls_app, teardown_calls_of_request_calls by exact Hlen.
  apply app_nil_r.
Qed.

(** [do_teardown_appcontext] calls every application teardown function
    once, the last registered first, with the exception it was given. *)
Lemma do_teardown_appcontext_run s exc :
  Forall returns_normally (teardown_appcontext_funcs (self s)) →
  ∃ l s',
    do_teardown_appcontext exc s = (Ok tt, s')
    ∧ log s' = log s ++ l
    ∧ teardown_calls l
      = map (fun c => (KTeardownAppcontext, cb_id c, [pyval_of_exc exc]))
            (rev (teardown_appcontext_funcs (self s)))
    ∧ self s' = self s
    ∧ _request_ctx_stack s' = _request_ctx_stack s
    ∧ _app_ctx_stack s' = _app_ctx_stack s.
Proof.
  intros Hall. unfold do_teardown_appcontext.
  rewrite bind_run, gets_run.
  assert (Hrev : Forall returns_normally (rev (teardown_appcontext_funcs (self s)))).
  { apply List.Forall_rev. exact Hall. }
  destruct (for_each_calls KTeardownAppcontext [pyval_of_exc exc] _ Hrev s)
    as (outs & s' & Hrun & Hlen & Hlog & Hself & Hst & Hast & _).
  rewrite (bind_ok _ _ _ _ _ Hrun), emit_run.
  eexists _, _. split; [reflexivity|]. simpl.
  split; [rewrite Hlog, <- app_assoc; reflexivity|].
  split; [|auto].
  rewrite teardown_calls_app, teardown_calls_of_appcontext_calls by exact Hlen.
  apply app_nil_r.
Qed.

Lemma push_run s ctx :
  rc_app ctx = app_id (self s) →
  match top (_app_ctx_stack s) with
  | Some c => ac_app c ≠ app_id (self s)
  | None => True
  end →
  push ctx s =
  (Ok (pushed ctx),
   set_request_ctx_stack (pushed ctx :: _request_ctx_stack s)
     (set_app_ctx_stack (AppContext (app_id (self s)) [] 1 :: _app_ctx_stack s) s)).
Proof.
  intros Happ Hother.
  unfold push, bind, gets, app_context_push, modify, ret.
  destruct (_app_ctx_stack s) as [|c st] eqn:Hst; simpl in *.
  - rewrite Hst. reflexivity.
  - assert (H1 : Nat.eqb (ac_app c) (rc_app ctx) = false)
      by (apply Nat.eqb_neq; rewrite Happ; exact Hother).
    assert (H2 : Nat.eqb (ac_app c) (app_id (self s)) = false)
      by (apply Nat.eqb_neq; exact Hother).
    rewrite H1, Hst, H2. reflexivity.
Qed.

Lemma pop_run s ctx exc rst g ast :
  _request_ctx_stack s = ctx :: rst →
  rc_owns_app_ctx ctx = true →
  _app_ctx_stack s = AppContext (app_id (self s)) g 1 :: ast →
  Forall returns_normally
    (spec_teardown_order (teardown_request_funcs (self s)) (blueprint (rc_request ctx))) →
  Forall returns_normally (teardown_appcontext_funcs (self s)) →
  ∃ l s',
    pop ctx exc s = (Ok tt, s')
    ∧ log s' = log s ++ l
    ∧ teardown_calls l
      = map (fun c => (KTeardownRequest, cb_id c, [pyval_of_exc exc]))
            (spec_teardown_order (teardown_request_funcs (self s))
                                 (blueprint (rc_request ctx)))
        ++ map (fun c => (KTeardownAppcontext, cb_id c, [pyval_of_exc exc]))
               (rev (teardown_appcontext_funcs (self s)))
    ∧ _request_ctx_stack s' = rst
    ∧ _app_ctx_stack s' = ast.
Proof.
  intros Hst Hown Hast Hreq Happ.
  assert (Htop : top (_request_ctx_stack s) = Some ctx) by (rewrite Hst; reflexivity).
  destruct (do_teardown_request_run s ctx exc Htop Hreq)
    as (l1 & s1 & Hrun1 & Hlog1 & Hcalls1 & Hself1 & Hst1 & Hast1).
  unfold pop. rewrite (bind_ok _ _ _ _ _ Hrun1), bind_run, gets_run, Hst1, Hst.
  rewrite Nat.eqb_refl, bind_run, modify_run, Hown.
  set (s2 := set_request_ctx_stack rst s1).
  assert (Happ2 : Forall returns_normally (teardown_appcontext_funcs (self s2)))
    by (simpl; rewrite Hself1; exact Happ).
  destruct (do_teardown_appcontext_run s2 exc Happ2)
    as (l2 & s3 & Hrun2 & Hlog2 & Hcalls2 & Hself2 & Hst2 & Hast2).
  unfold app_context_pop. rewrite bind_run, gets_run, bind_run, gets_run.
  change (_app_ctx_stack s2) with (_app_ctx_stack s1).
  change (app_id (self s2)) with (app_id (self s1)).
  rewrite Hast1, Hast, Hself1. cbn [ac_app]. rewrite Nat.eqb_refl.
  cbn [Nat.pred ac_refcnt].
  rewrite (bind_ok _ _ _ _ _ Hrun2), modify_run.
  eexists (l1 ++ l2), _. split; [reflexivity|]. simpl.
  split; [rewrite Hlog2; simpl; rewrite Hlog1, <- app_assoc; reflexivity|].
  split; [|split; [rewrite Hst2; reflexivity | reflexivity]].
  rewrite teardown_calls_app, Hcalls1, Hcalls2. simpl. rewrite Hself1. reflexivity.
Qed.

(** The inner [try] statement of [wsgi_app] leaves in [error] the
    exception that escaped [full_dispatch_request], and what it runs
    stays within the frame. *)
Lemma wsgi_app_try_run s ctx sB :
  push ctx s = (Ok (pushed ctx), sB) →
  ∃ outcome s',
    wsgi_app_try ctx s =
      (Ok (pushed ctx,
           match full_dispatch_request sB with
           | (Raise e, _) => Some e
           | (Ok _, _) => None
           end,
           outcome), s')
    ∧ frame sB s'.
Proof.
  intros Hpush. unfold wsgi_app_try. rewrite Hpush.
  destruct (full_dispatch_request sB) as [[response|e] sC] eqn:Hdispatch.
  - eexists _, _. split; [reflexivity|].
    exact (preserves_full_dispatch_request _ _ _ Hdispatch).
  - pose proof (preserves_full_dispatch_request _ _ _ Hdispatch) as Hframe.
    unfold wsgi_app_except.
    destruct (isinstance_exn e "Exception").
    + destruct (handle_exception e sC) as [outcome sD] eqn:Hhandle.
      eexists _, _. split; [reflexivity|].
      exact (frame_trans _ _ _ Hframe (preserves_handle_exception _ _ _ _ Hhandle)).
    + eexists _, _. split; [reflexivity | exact Hframe].
Qed.

(** C1, as the code and the specification of the contexts have it.
    For a request handled by [wsgi_app] whose pop is not postponed, with
    no application context of this application current when it starts,
    and with teardown functions that return normally: on every way out
    of the dispatch, the request teardown functions (of the application
    and of the request's blueprint) and then the application teardown
    functions are each called once, each with the exception that
    escaped [full_dispatch_request], or [None] when none did; and both
    stacks are left as they were found. *)
Theorem wsgi_app_teardown s (environ : environ)
    (Hpop : env_preserve_context environ = false)
    (Hown : match top (_app_ctx_stack s) with
            | Some c => ac_app c ≠ app_id (self s)
            | None => True
            end)
    (Hreq : Forall returns_normally
              (spec_teardown_order (teardown_request_funcs (self s))
                                   (blueprint (env_request environ))))
    (Happ : Forall returns_normally (teardown_appcontext_funcs (self s))) :
  let exc := pyval_of_exc (escaping_exception environ s) in
  let s' := snd (wsgi_app environ s) in
  ∃ l, log s' = log s ++ l
    ∧ teardown_calls l
      = map (fun c => (KTeardownRequest, cb_id c, [exc]))
            (spec_teardown_order (teardown_request_funcs (self s))
                                 (blueprint (env_request environ)))
        ++ map (fun c => (KTeardownAppcontext, cb_id c, [exc]))
               (rev (teardown_appcontext_funcs (self s)))
    ∧ _request_ctx_stack s' = _request_ctx_stack s
    ∧ _app_ctx_stack s' = _app_ctx_stack s.
Proof.
  intros exc s'. subst exc s'.
  pose (ctx0 := RequestContext (W:=W) (next_id s) (app_id (self s)) (env_request environ)
                 (env_session environ) (env_allowed_methods environ) []
                 (env_preserve_context environ) false).
  pose (sA := set_next_id (S (next_id s)) s).
  assert (Hctx : request_context environ s = (Ok ctx0, sA)) by reflexivity.
  pose (sB := set_request_ctx_stack (pushed ctx0 :: _request_ctx_stack sA)
                (set_app_ctx_stack (AppContext (app_id (self sA)) [] 1 :: _app_ctx_stack sA)
                   sA)).
  assert (Hpush : push ctx0 sA = (Ok (pushed ctx0), sB))
    by (apply push_run; [reflexivity | exact Hown]).
  destruct (wsgi_app_try_run sA ctx0 sB Hpush) as (outcome & sD & Htry & Hframe).
  unfold wsgi_app, escaping_exception.
  rewrite (bind_ok _ _ _ _ _ Hctx), (bind_ok _ _ _ _ _ Hctx).
  rewrite (bind_ok _ _ _ _ _ Hpush), (bind_ok _ _ _ _ _ Htry).
  cbv iota beta. rewrite try_finally_run.
  unfold should_ignore_error, auto_pop.
  change (rc_preserve (pushed ctx0)) with (env_preserve_context environ).
  rewrite Hpop.
  set (error := match full_dispatch_request sB with
                | (Raise e, _) => Some e
                | (Ok _, _) => None
                end).
  destruct Hframe as [_ Hid _ _ _ Htreq Htapp Hrst Hast (l0 & Hlog0 & Hcalls0) _ _ _ _ _].
  edestruct (pop_run sD (pushed ctx0) error)
    as (l & s' & Hrun & Hlog & Hcalls & Hst' & Hast').
  - rewrite Hrst. reflexivity.
  - reflexivity.
  - rewrite Hast, Hid. reflexivity.
  - rewrite Htreq. exact Hreq.
  - rewrite Htapp. exact Happ.
  - exists (l0 ++ l).
    destruct ((match outcome with
               | Ok response => lift (call_wsgi response)
               | Raise e => raise e
               end) sD) as [r sE] eqn:Hbody.
    assert (sE = sD) as ->.
    { destruct outcome; [unfold lift in Hbody | unfold raise in Hbody]; congruence. }
    rewrite Hrun. cbn [snd].
    split; [rewrite Hlog, Hlog0, <- app_assoc; reflexivity|].
    split; [rewrite teardown_calls_app, Hcalls0, Hcalls, Htreq, Htapp; reflexivity|].
    auto.
Qed.
End Teardown.

(** ** Loops over callbacks, whatever the callbacks do *)

Section Traces.
Context {W : Type}.
Implicit Types (s : state W).

(** A loop over callbacks, whatever they do: the calls made are those
    of a prefix of the list, in order; every call but the last one
    returned; the loop ends normally when all were called and returned,
    and with the exception of the first callback that raised
    otherwise. *)
Lemma for_each_trace k args (funcs : list (callback W)) : ∀ s r s',
  for_each funcs (fun func => call k func args ;;; ret tt) s = (r, s') →
  self s' = self s
  ∧ _request_ctx_stack s' = _request_ctx_stack s
  ∧ _app_ctx_stack s' = _app_ctx_stack s
  ∧ ∃ vs,
      match r with
      | Ok _ =>
          length vs = length funcs
          ∧ log s' = log s ++ zip_with (call_event k args) funcs vs
      | Raise e =>
          ∃ f, funcs !! length vs = Some f
            ∧ log s' = log s ++ zip_with (call_event k args) funcs vs
                             ++ [EvCall k (cb_id f) args (Raise e)]
      end.
Proof.
  induction funcs as [|f fs IH]; intros s r s'; simpl.
  - intros [= <- <-]. repeat split. exists []. rewrite app_nil_r. auto.
  - rewrite bind_run, bind_run. unfold call.
    destruct (cb_run f args (world s)) as [[v|e] w].
    + unfold ret at 1. intros Hrest. apply IH in Hrest.
      destruct Hrest as (Hself & Hst & Hast & vs & Hr). simpl in *.
      repeat (split; [assumption|]).
      exists (v :: vs). destruct r as [[]|e]; simpl.
      * destruct Hr as [Hlen Hlog]. rewrite Hlen, Hlog, <- app_assoc. auto.
      * destruct Hr as (f' & Hf' & Hlog). exists f'. split; [exact Hf'|].
        rewrite Hlog, <- !app_assoc. reflexivity.
    + intros [= <- <-]. simpl. repeat split.
      exists []. exists f. split; reflexivity.
Qed.
End Traces.

(** ** The teardown functions *)

Section TeardownFailures.
Context {W : Type}.
Implicit Types (s : state W).

(** X1.  [do_teardown_request], whatever the teardown functions do:
    they are called in teardown order (those of the application before
    those of the request's blueprint, each list last registered first)
    with the exception as their only argument, and what they return is
    dropped.  When all return, the signal [request-tearing-down] is sent
    after them.  When one raises, its exception leaves
    [do_teardown_request], the functions after it are not called and
    the signal is not sent. *)
Theorem do_teardown_request_trace s ctx exc r s'
    (Htop : top (_request_ctx_stack s) = Some ctx)
    (Hrun : do_teardown_request exc s = (r, s')) :
  let funcs := spec_teardown_order (teardown_request_funcs (self s))
                                   (blueprint (rc_request ctx)) in
  ∃ vs,
    match r with
    | Ok _ =>
        length vs = length funcs
        ∧ log s' = log s
            ++ zip_with (call_event KTeardownRequest [pyval_of_exc exc]) funcs vs
            ++ [EvSignal "request-tearing-down" exc]
    | Raise e =>
        ∃ f, funcs !! length vs = Some f
          ∧ log s' = log s
              ++ zip_with (call_event KTeardownRequest [pyval_of_exc exc]) funcs vs
              ++ [EvCall KTeardownRequest (cb_id f) [pyval_of_exc exc] (Raise e)]
    end.
Proof.
  intros funcs. unfold do_teardown_request in Hrun.
  rewrite bind_run, gets_run in Hrun. cbv zeta in Hrun.
  rewrite bind_run, (top_request_context_top _ _ Htop), teardown_order_chain in Hrun.
  fold funcs in Hrun. rewrite bind_run in Hrun.
  destruct (for_each funcs _ s) as [r1 s1] eqn:Hloop.
  apply for_each_trace in Hloop. destruct Hloop as (_ & _ & _ & vs & Hr).
  exists vs. destruct r1 as [[]|e].
  - rewrite emit_run in Hrun. injection Hrun as <- <-. simpl.
    destruct Hr as [Hlen Hlog]. split; [exact Hlen|].
    rewrite Hlog, <- app_assoc. reflexivity.
  - injection Hrun as <- <-. exact Hr.
Qed.

(** X2.  [do_teardown_appcontext], whatever the teardown functions do:
    they are called last registered first with the exception as their
    only argument; when all return, the signal
    [appcontext-tearing-down] follows; when one raises, its exception
    leaves [do_teardown_appcontext], the functions registered before it
    are not called and the signal is not sent. *)
Theorem do_teardown_appcontext_trace s exc r s'
    (Hrun : do_teardown_appcontext exc s = (r, s')) :
  let funcs := rev (teardown_appcontext_funcs (self s)) in
  ∃ vs,
    match r with
    | Ok _ =>
        length vs = length funcs
        ∧ log s' = log s
            ++ zip_with (call_event KTeardownAppcontext [pyval_of_exc exc]) funcs vs
            ++ [EvSignal "appcontext-tearing-down" exc]
    | Raise e =>
        ∃ f, funcs !! length vs = Some f
          ∧ log s' = log s
              ++ zip_with (call_event KTeardownAppcontext [pyval_of_exc exc]) funcs vs
              ++ [EvCall KTeardownAppcontext (cb_id f) [pyval_of_exc exc] (Raise e)]
    end.
Proof.
  intros funcs. unfold do_teardown_appcontext in Hrun.
  rewrite bind_run, gets_run in Hrun. fold funcs in Hrun. rewrite bind_run in Hrun.
  destruct (for_each funcs _ s) as [r1 s1] eqn:Hloop.
  apply for_each_trace in Hloop. destruct Hloop as (_ & _ & _ & vs & Hr).
  exists vs. destruct r1 as [[]|e].
  - rewrite emit_run in Hrun. injection Hrun as <- <-. simpl.
    destruct Hr as [Hlen Hlog]. split; [exact Hlen|].
    rewrite Hlog, <- app_assoc. reflexivity.
  - injection Hrun as <- <-. exact Hr.
Qed.
End TeardownFailures.

(** ** [process_response] *)

Section ProcessResponse.
Context {W : Type}.
Implicit Types (s : state W).

Lemma last_cons_default {A} (v : A) (vs : list A) d :
  List.last (v :: vs) d = List.last vs v.
Proof.
  revert v d. induction vs as [|x vs IH]; intros v d; [reflexivity|].
  change (List.last (v :: x :: vs) d) with (List.last (x :: vs) d).
  rewrite !IH. reflexivity.
Qed.

(** The chain of after-request functions, whatever they do. *)
Lemma apply_handlers_trace (funcs : list (callback W)) : ∀ response s r s',
  apply_handlers funcs response s = (r, s') →
  self s' = self s
  ∧ _request_ctx_stack s' = _request_ctx_stack s
  ∧ ∃ vs,
      match r with
      | Ok response' =>
          length vs = length funcs
          ∧ response' = List.last vs response
          ∧ log s' = log s ++ after_request_events funcs response vs
      | Raise e =>
          ∃ f, funcs !! length vs = Some f
            ∧ log s' = log s ++ after_request_events funcs response vs
                ++ [EvCall KAfterRequest (cb_id f) [List.last vs response] (Raise e)]
      end.
Proof.
  induction funcs as [|f fs IH]; intros response s r s'; simpl.
  - intros [= <- <-]. repeat split. exists []. simpl. rewrite app_nil_r. auto.
  - rewrite bind_run. unfold call.
    destruct (cb_run f [response] (world s)) as [[v|e] w].
    + intros Hrest. apply IH in Hrest.
      destruct Hrest as (Hself & Hst & vs & Hr). simpl in *.
      repeat (split; [assumption|]).
      exists (v :: vs). rewrite last_cons_default.
      unfold after_request_events in *. destruct r as [response'|e]; simpl.
      * destruct Hr as (Hlen & Hlast & Hlog).
        rewrite Hlen, Hlog, <- app_assoc. auto.
      * destruct Hr as (f' & Hf' & Hlog). exists f'. split; [exact Hf'|].
        rewrite Hlog, <- !app_assoc. reflexivity.
    + intros [= <- <-]. simpl. repeat split.
      exists []. exists f. split; reflexivity.
Qed.

Lemma process_response_chain s ctx response :
  top (_request_ctx_stack s) = Some ctx →
  process_response response s =
  (response <- apply_handlers (after_request_order ctx (after_request_funcs (self s)))
                              response ;;
   (if negb (session_null (rc_session ctx))
    then
      save <- gets (fun s => save_session (self s)) ;;
      call KSaveSession save
           [pyval_of_kwargs (session_data (rc_session ctx)); response] ;;;
      ret tt
    else ret tt) ;;;
   ret response) s.
Proof.
  intros Htop. unfold process_response.
  rewrite bind_run, (top_request_context_top _ _ Htop). cbv zeta.
  rewrite bind_run, gets_run. unfold after_request_order.
  destruct (blueprint (rc_request ctx)) as [b|];
    [destruct (after_request_funcs (self s) !! Some b)|];
    destruct (after_request_funcs (self s) !! None); simpl;
    rewrite ?app_nil_r, <- ?app_assoc; reflexivity.
Qed.

(** X3.  When [process_response] returns: every after-request function
    was called once, in the order of [after_request_order] (the
    functions of the blueprint before those of the application, each
    list last registered first), the first with the response given and
    each next one with what the one before it returned; the result is
    what the last one returned; and the session was saved after them,
    with that result, exactly when it is not the null session. *)
Theorem process_response_order s ctx response response' s'
    (Htop : top (_request_ctx_stack s) = Some ctx)
    (Hrun : process_response response s = (Ok response', s')) :
  let funcs := after_request_order ctx (after_request_funcs (self s)) in
  ∃ vs,
    length vs = length funcs
    ∧ response' = List.last vs response
    ∧ ∃ saved,
        log s' = log s ++ after_request_events funcs response vs ++ saved
        ∧ if session_null (rc_session ctx) then saved = []
          else ∃ v, saved =
                 [EvCall KSaveSession (cb_id (save_session (self s)))
                         [pyval_of_kwargs (session_data (rc_session ctx)); response']
                         (Ok v)].
Proof.
  intros funcs. rewrite (process_response_chain _ _ _ Htop) in Hrun.
  fold funcs in Hrun. rewrite bind_run in Hrun.
  destruct (apply_handlers funcs response s) as [r1 s1] eqn:Hchain.
  apply apply_handlers_trace in Hchain.
  destruct Hchain as (Hself & _ & vs & Hr).
  destruct r1 as [r1|e]; [|discriminate Hrun].
  destruct Hr as (Hlen & Hlast & Hlog).
  exists vs. rewrite bind_run in Hrun.
  destruct (session_null (rc_session ctx)); simpl in Hrun.
  - injection Hrun as <- <-. split; [exact Hlen|]. split; [exact Hlast|].
    exists []. rewrite app_nil_r. auto.
  - rewrite bind_run, gets_run, bind_run in Hrun. unfold call in Hrun.
    destruct (cb_run (save_session (self s1)) _ (world s1)) as [[v|e] w];
      [|discriminate Hrun].
    injection Hrun as <- <-. split; [exact Hlen|]. split; [exact Hlast|].
    eexists. split; [|exists v; reflexivity]. simpl.
    rewrite Hlog, Hself, <- app_assoc. reflexivity.
Qed.

(** X4.  When [process_response] raises, the exception is that of the
    last call it made.  If an after-request function raised it, the
    functions after that one were not called and the session was not
    saved; otherwise all after-request functions returned and saving
    the session raised it. *)
Theorem process_response_failure s ctx response e s'
    (Htop : top (_request_ctx_stack s) = Some ctx)
    (Hrun : process_response response s = (Raise e, s')) :
  let funcs := after_request_order ctx (after_request_funcs (self s)) in
  ∃ vs,
    (∃ f, funcs !! length vs = Some f
       ∧ log s' = log s ++ after_request_events funcs response vs
           ++ [EvCall KAfterRequest (cb_id f) [List.last vs response] (Raise e)])
    ∨ (length vs = length funcs
       ∧ session_null (rc_session ctx) = false
       ∧ log s' = log s ++ after_request_events funcs response vs
           ++ [EvCall KSaveSession (cb_id (save_session (self s)))
                      [pyval_of_kwargs (session_data (rc_session ctx));
                       List.last vs response]
                      (Raise e)]).
Proof.
  intros funcs. rewrite (process_response_chain _ _ _ Htop) in Hrun.
  fold funcs in Hrun. rewrite bind_run in Hrun.
  destruct (apply_handlers funcs response s) as [r1 s1] eqn:Hchain.
  apply apply_handlers_trace in Hchain.
  destruct Hchain as (Hself & _ & vs & Hr).
  exists vs. destruct r1 as [r1|e1].
  - right. destruct Hr as (Hlen & Hlast & Hlog).
    rewrite bind_run in Hrun.
    destruct (session_null (rc_session ctx)); simpl in Hrun; [discriminate Hrun|].
    rewrite bind_run, gets_run, bind_run in Hrun. unfold call in Hrun.
    destruct (cb_run (save_session (self s1)) _ (world s1)) as [[v|e2] w];
      [discriminate Hrun|].
    injection Hrun as <- <-. split; [exact Hlen|]. split; [reflexivity|]. simpl.
    rewrite Hlog, Hself, Hlast, <- app_assoc. reflexivity.
  - left. injection Hrun as <- <-. exact Hr.
Qed.
End ProcessResponse.

(** ** Registration of rules and dispatch *)

Section Registration.
Context {W : Type}.
Variable _endpoint_from_view_func : option (view_function W) → result string.
Variable url_rule_class : string → gset string → string → result rule.
Implicit Types (s : state W).

(** A call of [add_url_rule] with a view function, past the guard of
    [setupmethod] and the choice of the endpoint. *)
Lemma add_url_rule_run s pattern endpoint ep vf pao (methods : option (list string)) :
  debug s && _got_first_request (self s) = false →
  match endpoint with
  | Some x => x = ep
  | None => _endpoint_from_view_func (Some vf) = Ok ep
  end →
  let given := given_methods vf methods in
  add_url_rule _endpoint_from_view_func url_rule_class pattern endpoint (Some vf) pao
               (option_map MethodsList methods) s =
  match url_rule_class pattern (given ∪ (automatic_options vf pao given).2) ep with
  | Raise e => (Raise e, s)
  | Ok r =>
      let s1 := set_self (set_url_map
                  (url_map (self s)
                   ++ [set_provide_automatic_options (automatic_options vf pao given).1 r])
                  (self s)) s in
      let registered :=
        set_self (set_view_functions (<[ep := vf]> (view_functions (self s))) (self s1))
                 s1 in
      match view_functions (self s) !! ep with
      | Some old =>
          if Nat.eqb (cb_id (vf_func old)) (cb_id (vf_func vf))
          then (Ok tt, registered)
          else (Raise (AssertionError (overwriting_msg ep)), s1)
      | None => (Ok tt, registered)
      end
  end.
Proof.
  intros Hsetup Hendpoint.
  unfold add_url_rule, setupmethod, bind, gets. rewrite Hsetup.
  assert (Hep : (match endpoint with
                 | Some x => ret x
                 | None => lift (_endpoint_from_view_func (Some vf))
                 end) s = (Ok ep, s)).
  { destruct endpoint as [x|]; [subst x; reflexivity|].
    unfold lift. rewrite Hendpoint. reflexivity. }
  rewrite Hep. unfold lift, ret, given_methods, automatic_options.
  destruct methods as [ms|]; simpl;
    [|destruct (vf_methods vf) as [[|m ms]|]; simpl];
    (destruct pao as [b|]; [|destruct (vf_provide_automatic_options vf) as [b|]]);
    simpl;
    repeat match goal with
      | |- context [bool_decide ?P] => destruct (bool_decide P); simpl
      end;
    match goal with
    | |- context [url_rule_class pattern ?x ep] =>
        destruct (url_rule_class pattern x ep) as [r|e]; simpl; [|reflexivity]
    end;
    (destruct (view_functions (self s) !! ep) as [old|]; simpl; [|reflexivity]);
    destruct (Nat.eqb (cb_id (vf_func old)) (cb_id (vf_func vf))); reflexivity.
Qed.

Lemma add_url_rule_setup_failure s pattern endpoint view_func pao methods :
  debug s && _got_first_request (self s) = true →
  add_url_rule _endpoint_from_view_func url_rule_class pattern endpoint view_func pao
               methods s = (Raise (AssertionError setup_msg), s).
Proof.
  intros H. unfold add_url_rule, setupmethod, bind, gets. rewrite H. reflexivity.
Qed.

(** X5.  A registration that fails at the overwriting check has already
    added its rule: when the endpoint is bound to another function,
    [add_url_rule] raises the [AssertionError] after the new rule was
    put at the end of the URL map, and the rule stays there; the
    registry of view functions is as before. *)
Theorem add_url_rule_failure_keeps_rule s (pattern : string) (endpoint : option string)
    (ep : string) (vf old : view_function W) (pao : option bool)
    (methods : option (list string)) (r : rule)
    (Hsetup : debug s && _got_first_request (self s) = false)
    (Hendpoint : match endpoint with
                 | Some x => x = ep
                 | None => _endpoint_from_view_func (Some vf) = Ok ep
                 end)
    (Hrule : let given := given_methods vf methods in
             url_rule_class pattern (given ∪ (automatic_options vf pao given).2) ep = Ok r)
    (Hold : view_functions (self s) !! ep = Some old)
    (Hother : cb_id (vf_func old) ≠ cb_id (vf_func vf)) :
  ∃ s', add_url_rule _endpoint_from_view_func url_rule_class pattern endpoint (Some vf) pao
                     (option_map MethodsList methods) s
        = (Raise (AssertionError (overwriting_msg ep)), s')
    ∧ url_map (self s')
      = url_map (self s)
        ++ [set_provide_automatic_options
              (automatic_options vf pao (given_methods vf methods)).1 r]
    ∧ view_functions (self s') = view_functions (self s).
Proof.
  pose proof (add_url_rule_run s pattern endpoint ep vf pao methods Hsetup Hendpoint) as Hrun.
  cbv zeta in Hrun, Hrule. rewrite Hrule, Hold in Hrun.
  apply Nat.eqb_neq in Hother. rewrite Hother in Hrun.
  eexists. split; [exact Hrun|]. split; reflexivity.
Qed.

(** X6.  The methods of a registered rule.  When neither the call nor
    the view function says whether OPTIONS is answered automatically,
    a registration that succeeds has built its rule from the given
    methods in upper case, the required methods of the view function
    and OPTIONS; and the rule answers OPTIONS automatically exactly
    when OPTIONS was not among the given methods. *)
Theorem add_url_rule_methods s (pattern : string) (endpoint : option string)
    (vf : view_function W) (ms : list string) s'
    (Hauto : vf_provide_automatic_options vf = None)
    (Hrun : add_url_rule _endpoint_from_view_func url_rule_class pattern endpoint (Some vf)
                         None (Some (MethodsList ms)) s = (Ok tt, s')) :
  ∃ ep methods r,
    url_rule_class pattern methods ep = Ok r
    ∧ url_map (self s')
      = url_map (self s)
        ++ [set_provide_automatic_options (negb (bool_decide ("OPTIONS" ∈ map upper ms))) r]
    ∧ "OPTIONS" ∈ methods
    ∧ (∀ m, m ∈ ms → upper m ∈ methods)
    ∧ (∀ m, m ∈ vf_required_methods vf → m ∈ methods)
    ∧ (∀ m, m ∈ methods →
         m ∈ map upper ms ∨ m ∈ vf_required_methods vf ∨ m = "OPTIONS").
Proof.
  destruct (debug s && _got_first_request (self s)) eqn:Hsetup.
  { rewrite add_url_rule_setup_failure in Hrun by exact Hsetup. discriminate Hrun. }
  assert (∃ ep, match endpoint with
                | Some x => x = ep
                | None => _endpoint_from_view_func (Some vf) = Ok ep
                end) as [ep Hendpoint].
  { destruct endpoint as [x|]; [exists x; reflexivity|].
    destruct (_endpoint_from_view_func (Some vf)) as [ep|e] eqn:He;
      [exists ep; reflexivity|].
    exfalso. revert Hrun. unfold add_url_rule, setupmethod, bind, gets, lift.
    rewrite Hsetup, He. discriminate. }
  pose proof (add_url_rule_run s pattern endpoint ep vf None (Some ms) Hsetup Hendpoint)
    as Heq.
  cbv zeta in Heq. change (option_map MethodsList (Some ms)) with (Some (MethodsList ms)) in Heq.
  rewrite Heq in Hrun. clear Heq.
  unfold automatic_options, given_methods in Hrun. rewrite Hauto in Hrun.
  assert (Hin : bool_decide ("OPTIONS" ∈ (list_to_set (map upper ms) : gset string))
                = bool_decide ("OPTIONS" ∈ map upper ms)).
  { apply bool_decide_ext. apply elem_of_list_to_set. }
  rewrite Hin in Hrun.
  destruct (bool_decide ("OPTIONS" ∈ map upper ms)) eqn:Hopt; simpl in Hrun;
    match type of Hrun with
    | context [url_rule_class pattern ?x ep] =>
        destruct (url_rule_class pattern x ep) as [r|e] eqn:Hr; [|discriminate Hrun];
        exists ep, x, r
    end;
    (split; [exact Hr|]);
    (split; [destruct (view_functions (self s) !! ep) as [old|];
               [destruct (Nat.eqb (cb_id (vf_func old)) (cb_id (vf_func vf)));
                  [|discriminate Hrun]|];
               injection Hrun as <-; reflexivity|]);
    clear Hrun Hr.
  - apply bool_decide_eq_true in Hopt.
    split; [apply elem_of_union_l, elem_of_list_to_set; exact Hopt|]. split; [|split].
    + intros m Hm. apply elem_of_union_l, elem_of_list_to_set.
      apply list_elem_of_fmap. exists m. auto.
    + intros m Hm. apply elem_of_union_r, elem_of_list_to_set. exact Hm.
    + intros m [Hm|Hm]%elem_of_union; apply elem_of_list_to_set in Hm; auto.
  - split; [apply elem_of_union_r, elem_of_union_r, elem_of_singleton; reflexivity|].
    split; [|split].
    + intros m Hm. apply elem_of_union_l, elem_of_list_to_set.
      apply list_elem_of_fmap. exists m. auto.
    + intros m Hm. apply elem_of_union_r, elem_of_union_l, elem_of_list_to_set. exact Hm.
    + intros m [Hm|[Hm|Hm]%elem_of_union]%elem_of_union.
      * apply elem_of_list_to_set in Hm. auto.
      * apply elem_of_list_to_set in Hm. auto.
      * apply elem_of_singleton in Hm. auto.
Qed.
End Registration.

Section Dispatch.
Context {W : Type}.
Implicit Types (s : state W).

Lemma dispatch_request_matched s ctx r :
  top (_request_ctx_stack s) = Some ctx →
  routing_exception (rc_request ctx) = None →
  url_rule (rc_request ctx) = Some r →
  dispatch_request s =
  (if provide_automatic_options r && String.eqb (method (rc_request ctx)) "OPTIONS"
   then make_default_options_response
   else
     vf <- gets (fun s => view_functions (self s)) ;;
     match vf !! endpoint r with
     | None => raise (KeyError (endpoint r))
     | Some view =>
         match view_args (rc_request ctx) with
         | None => raise (TypeError "argument after ** must be a mapping, not NoneType")
         | Some kw => call KView (vf_func view) [pyval_of_kwargs kw]
         end
     end) s.
Proof.
  intros Htop Hnone Hrule. unfold dispatch_request.
  rewrite bind_run, (top_request_context_top _ _ Htop). cbv zeta.
  rewrite Hnone, Hrule. reflexivity.
Qed.

(** X7.  [dispatch_request] for a request that the routing matched to a
    rule.  An OPTIONS request to a rule that provides automatic options
    is answered with the default OPTIONS response, whose [Allow] header
    lists the methods the URL allows: no view function is called, and
    none needs to be registered for the endpoint.  Any other request
    looks the endpoint up in [view_functions]: when the endpoint is
    missing, a [KeyError] for it is raised and nothing is called;
    otherwise the view function is called once with the view arguments,
    and its outcome is the outcome of [dispatch_request]. *)
Theorem dispatch_request_cases s ctx r kw
    (Htop : top (_request_ctx_stack s) = Some ctx)
    (Hnone : routing_exception (rc_request ctx) = None)
    (Hrule : url_rule (rc_request ctx) = Some r)
    (Hargs : view_args (rc_request ctx) = Some kw) :
  let automatic :=
    provide_automatic_options r && String.eqb (method (rc_request ctx)) "OPTIONS" in
  (automatic = true →
     dispatch_request s =
       (Ok (VResponse (Response "" default_status default_status_code
                                [("Allow", join_methods (rc_allowed_methods ctx))])), s))
  ∧ (automatic = false → view_functions (self s) !! endpoint r = None →
       dispatch_request s = (Raise (KeyError (endpoint r)), s))
  ∧ (∀ view, automatic = false → view_functions (self s) !! endpoint r = Some view →
       dispatch_request s = call KView (vf_func view) [pyval_of_kwargs kw] s
       ∧ log (snd (dispatch_request s))
         = log s ++ [EvCall KView (cb_id (vf_func view)) [pyval_of_kwargs kw]
                            (fst (dispatch_request s))]).
Proof.
  intros automatic. rewrite (dispatch_request_matched _ _ _ Htop Hnone Hrule).
  fold automatic. split; [|split].
  - intros ->. unfold make_default_options_response.
    rewrite bind_run, (top_request_context_top _ _ Htop). reflexivity.
  - intros -> Hmissing. rewrite bind_run, gets_run, Hmissing. reflexivity.
  - intros view -> Hview. rewrite bind_run, gets_run, Hview, Hargs.
    split; [reflexivity|]. unfold call.
    destruct (cb_run (vf_func view) _ (world s)) as [out w]. reflexivity.
Qed.
End Dispatch.

Section RegisterThenDispatch.
Context {W : Type}.
Variable _endpoint_from_view_func : option (view_function W) → result string.
Variable url_rule_class : string → gset string → string → result rule.
Implicit Types (s : state W).

(** X8.  Registration and dispatch fit together.  After
    [add_url_rule] has registered a view function, a request that the
    routing matches to the rule it added (the last of the URL map) is
    dispatched to that view function, called with the view arguments,
    unless it is an OPTIONS request that the rule answers by itself.
    The constructor of the rule is assumed to keep the endpoint it is
    given. *)
Theorem add_url_rule_then_dispatch s (pattern : string) (name : option string)
    (vf : view_function W) (pao : option bool) (methods : option (list string))
    s1 s2 ctx kw
    (Hconstructor : ∀ p ms ep r, url_rule_class p ms ep = Ok r → endpoint r = ep)
    (Hadd : add_url_rule _endpoint_from_view_func url_rule_class pattern name (Some vf)
                         pao (option_map MethodsList methods) s = (Ok tt, s1))
    (Hself : self s2 = self s1)
    (Htop : top (_request_ctx_stack s2) = Some ctx)
    (Hnone : routing_exception (rc_request ctx) = None)
    (Hmatched : url_rule (rc_request ctx) = last (url_map (self s1)))
    (Hargs : view_args (rc_request ctx) = Some kw) :
  ∃ r, url_rule (rc_request ctx) = Some r
    ∧ provide_automatic_options r
      = (automatic_options vf pao (given_methods vf methods)).1
    ∧ (provide_automatic_options r && String.eqb (method (rc_request ctx)) "OPTIONS" = false →
         dispatch_request s2 = call KView (vf_func vf) [pyval_of_kwargs kw] s2).
Proof.
  destruct (debug s && _got_first_request (self s)) eqn:Hsetup.
  { rewrite add_url_rule_setup_failure in Hadd by exact Hsetup. discriminate Hadd. }
  assert (∃ ep, match name with
                | Some x => x = ep
                | None => _endpoint_from_view_func (Some vf) = Ok ep
                end) as [ep Hendpoint].
  { destruct name as [x|]; [exists x; reflexivity|].
    destruct (_endpoint_from_view_func (Some vf)) as [ep|e] eqn:He;
      [exists ep; reflexivity|].
    exfalso. revert Hadd. unfold add_url_rule, setupmethod, bind, gets, lift.
    rewrite Hsetup, He. discriminate. }
  rewrite (add_url_rule_run _ _ s pattern name ep vf pao methods Hsetup Hendpoint)
    in Hadd.
  cbv zeta in Hadd.
  destruct (url_rule_class pattern _ ep) as [r|e] eqn:Hr; [|discriminate Hadd].
  apply Hconstructor in Hr.
  assert (Hs1 : url_map (self s1)
                = url_map (self s)
                  ++ [set_provide_automatic_options
                        (automatic_options vf pao (given_methods vf methods)).1 r]
                ∧ view_functions (self s1) = <[ep := vf]> (view_functions (self s))).
  { destruct (view_functions (self s) !! ep) as [old|];
      [destruct (Nat.eqb (cb_id (vf_func old)) (cb_id (vf_func vf)));
         [|discriminate Hadd]|];
      injection Hadd as <-; split; reflexivity. }
  destruct Hs1 as [Hmap Hviews].
  rewrite Hmap, last_snoc in Hmatched.
  eexists. split; [exact Hmatched|]. split; [reflexivity|].
  intros Hauto.
  rewrite (dispatch_request_matched _ _ _ Htop Hnone Hmatched), Hauto.
  rewrite bind_run, gets_run, Hself, Hviews. simpl.
  rewrite Hr, lookup_insert_eq, Hargs. reflexivity.
Qed.
End RegisterThenDispatch.

Section RoutingFailure.
Context {W : Type}.
Implicit Types (s : state W).

(** X9.  A routing failure that is not a redirect (a [NotFound] or a
    [MethodNotAllowed], for instance) is raised by [dispatch_request]
    as it is, in debug mode and without it and for every method; no
    view function is looked up or called. *)
Theorem dispatch_request_routing_failure s ctx e
    (Htop : top (_request_ctx_stack s) = Some ctx)
    (Hrouting : routing_exception (rc_request ctx) = Some e)
    (Hfailure : isinstance_exn e "RequestRedirect" = false) :
  dispatch_request s = (Raise e, s).
Proof.
  rewrite (dispatch_request_routing_exception _ _ _ Htop Hrouting).
  unfold raise_routing_exception. rewrite bind_run, gets_run, Hrouting, Hfailure.
  rewrite orb_true_r. reflexivity.
Qed.
End RoutingFailure.

(** ** Error handlers *)

Section Handlers.
Context {W : Type}.
Implicit Types (s : state W).

(** What a lookup may do to the registry of error handlers: an entry
    that exists stays as it is, and a missing one stays missing or
    becomes an empty dictionary. *)
Lemma setdefault_get_registry name c s :
  ∀ name',
    match error_handler_spec (self s) !! name' with
    | Some by_code =>
        error_handler_spec (self (snd (setdefault_get name c s))) !! name' = Some by_code
    | None =>
        error_handler_spec (self (snd (setdefault_get name c s))) !! name' = None
        ∨ error_handler_spec (self (snd (setdefault_get name c s))) !! name' = Some ∅
    end.
Proof.
  intros name'. unfold setdefault_get.
  destruct (error_handler_spec (self s) !! name) as [by_code|] eqn:Hn; simpl.
  - destruct (error_handler_spec (self s) !! name'); auto.
  - destruct (decide (name = name')) as [<-|Hne].
    + rewrite Hn, lookup_insert_eq. auto.
    + rewrite lookup_insert_ne by exact Hne.
      destruct (error_handler_spec (self s) !! name'); auto.
Qed.

Lemma find_in_buckets_registry cls buckets : ∀ s name,
  match error_handler_spec (self s) !! name with
  | Some by_code =>
      error_handler_spec (self (snd (find_in_buckets cls buckets s))) !! name
      = Some by_code
  | None =>
      error_handler_spec (self (snd (find_in_buckets cls buckets s))) !! name = None
      ∨ error_handler_spec (self (snd (find_in_buckets cls buckets s))) !! name = Some ∅
  end.
Proof.
  induction buckets as [|[bucket c] bs IH]; intros s name; simpl.
  - destruct (error_handler_spec (self s) !! name); auto.
  - rewrite bind_run.
    pose proof (setdefault_get_registry bucket c s name) as Hstep.
    destruct (setdefault_get bucket c s) as [r s1] eqn:Hrun.
    assert (Hok : ∃ hm, r = Ok hm).
    { revert Hrun. unfold setdefault_get.
      destruct (error_handler_spec (self s) !! bucket); intros [= <- _]; eauto. }
    destruct Hok as [hm ->]. simpl in Hstep.
    assert (Hrest : ∀ m : M W (option (callback W)),
              (m = find_in_buckets cls bs ∨ ∃ h, m = ret (Some h)) →
              match error_handler_spec (self s) !! name with
              | Some by_code => error_handler_spec (self (snd (m s1))) !! name = Some by_code
              | None => error_handler_spec (self (snd (m s1))) !! name = None
                        ∨ error_handler_spec (self (snd (m s1))) !! name = Some ∅
              end).
    { intros m [-> | [h ->]]; [|exact Hstep].
      specialize (IH s1 name).
      destruct (error_handler_spec (self s) !! name) as [by_code|].
      - rewrite Hstep in IH. exact IH.
      - destruct Hstep as [Hs | Hs]; rewrite Hs in IH; auto. }
    destruct hm as [hm|]; [|apply Hrest; auto].
    destruct (is_empty_map hm); [apply Hrest; auto|].
    destruct (find_in_mro hm (cls_mro cls)); apply Hrest; eauto.
Qed.

(** A state is itself with its own registry put back. *)
Lemma registry_only_refl s :
  s = set_self (set_error_handler_spec (error_handler_spec (self s)) (self s)) s.
Proof. destruct s as [a ? ? ? ? ?]. destruct a. reflexivity. Qed.

(** The loop over the buckets writes to the registry and to nothing
    else. *)
Lemma find_in_buckets_registry_only cls buckets : ∀ s,
  snd (find_in_buckets cls buckets s)
  = set_self (set_error_handler_spec
                (error_handler_spec (self (snd (find_in_buckets cls buckets s))))
                (self s)) s.
Proof.
  induction buckets as [|[bucket c] bs IH]; intros s; simpl.
  - apply registry_only_refl.
  - rewrite bind_run. unfold setdefault_get.
    destruct (error_handler_spec (self s) !! bucket) as [by_code|].
    + destruct (by_code !! c) as [hm|]; [|apply IH].
      destruct (is_empty_map hm); [apply IH|].
      destruct (find_in_mro hm (cls_mro cls)); [apply registry_only_refl | apply IH].
    + match goal with
      | |- snd (find_in_buckets cls bs ?s1) = _ =>
          rewrite (IH s1) at 1; destruct s as [a ? ? ? ? ?]; destruct a; reflexivity
      end.
Qed.

(** X10.  Looking up an error handler never registers, replaces or
    removes a handler.  [_find_error_handler] changes nothing but the
    registry [error_handler_spec]: the state after the call is the
    state before it with that one attribute of the application
    replaced, so every other attribute, both stacks, the state of the
    callbacks and the log are as they were, no callback is called and
    nothing is logged.  In the registry it does only what [setdefault]
    does: an entry that exists is kept as it is, and the entry of a
    blueprint (or of the application) that had none may have become an
    empty dictionary. *)
Theorem find_error_handler_registry s e :
  let s' := snd (_find_error_handler e s) in
  s' = set_self (set_error_handler_spec (error_handler_spec (self s')) (self s)) s
  ∧ frame s s'
  ∧ log s' = log s
  ∧ world s' = world s
  ∧ ∀ name,
      match error_handler_spec (self s) !! name with
      | Some by_code => error_handler_spec (self s') !! name = Some by_code
      | None => error_handler_spec (self s') !! name = None
                ∨ error_handler_spec (self s') !! name = Some ∅
      end.
Proof.
  intros s'. split.
  { subst s'. unfold _find_error_handler. rewrite bind_run. unfold lift.
    destruct (_get_exc_class_and_code (inr (exc_class e))) as [[cls code]|e1];
      [|apply registry_only_refl].
    rewrite bind_run.
    destruct (top (_request_ctx_stack s)) as [ctx|] eqn:Htop.
    2:{ unfold current_request, request_proxy. rewrite bind_run.
        unfold _lookup_req_object. rewrite Htop. apply registry_only_refl. }
    rewrite (current_request_top _ _ Htop). cbv zeta.
    apply find_in_buckets_registry_only. }
  split.
  { destruct (_find_error_handler e s) as [r s1] eqn:Hrun.
    exact (preserves_find_error_handler e s r s1 Hrun). }
  subst s'. unfold _find_error_handler. rewrite bind_run. unfold lift.
  assert (Hsame : ∀ name,
            match error_handler_spec (self s) !! name with
            | Some by_code => error_handler_spec (self s) !! name = Some by_code
            | None => error_handler_spec (self s) !! name = None
                      ∨ error_handler_spec (self s) !! name = Some ∅
            end).
  { intros name. destruct (error_handler_spec (self s) !! name); auto. }
  destruct (_get_exc_class_and_code (inr (exc_class e))) as [[cls code]|e1];
    [|simpl; auto].
  rewrite bind_run.
  destruct (top (_request_ctx_stack s)) as [ctx|] eqn:Htop.
  2:{ unfold current_request, request_proxy. rewrite bind_run.
      unfold _lookup_req_object. rewrite Htop. simpl. auto. }
  rewrite (current_request_top _ _ Htop). cbv zeta.
  match goal with
  | |- context [find_in_buckets cls ?bs s] =>
      destruct (find_in_buckets_spec cls bs s) as (s1 & Hrun & _ & Hlog & Hworld);
      pose proof (find_in_buckets_registry cls bs s) as Hreg;
      rewrite Hrun in Hreg |- *
  end.
  simpl in *. auto.
Qed.

(** X11.  An exception without a handler leaves
    [handle_user_exception] as it came.  For an exception that is not
    an HTTP exception, or an HTTP exception that is trapped (which every
    one is when [TRAP_HTTP_EXCEPTIONS] is set), when no handler is
    registered for it: it is raised again, no callback is called and
    nothing is logged.  The exception raised is the one that came in;
    only a [BadRequestKeyError] may have got a description that names
    the key (in debug mode, or when bad request errors are trapped). *)
Theorem handle_user_exception_unhandled s e ctx
    (Htop : top (_request_ctx_stack s) = Some ctx)
    (Hexc : isinstance_exn e "Exception" = true)
    (Hcase : isinstance_exn e "HTTPException" = false
             ∨ TRAP_HTTP_EXCEPTIONS (app_config (self s)) = true)
    (Hnone : spec_find_error_handler (error_handler_spec (self s))
                                     (blueprint (rc_request ctx)) e = None) :
  let raised := describe_key_error e s in
  (∃ s', handle_user_exception e s = (Raise raised, s')
         ∧ log s' = log s ∧ world s' = world s)
  ∧ exc_class raised = exc_class e
  ∧ exc_message raised = exc_message e
  ∧ (isinstance_exn e "BadRequestKeyError" = false → raised = e)
  ∧ (debug s = false → TRAP_BAD_REQUEST_ERRORS (app_config (self s)) = None → raised = e).
Proof.
  intros raised. subst raised. split; [|repeat split].
  - destruct (handle_user_exception_run s e ctx Htop Hexc)
      as (s' & _ & Hlog & Hw & Hhandle).
    exists s'. split; [|auto].
    cbv zeta in Hhandle. rewrite Hnone in Hhandle.
    assert (Hgo : isinstance_exn e "HTTPException" && negb (trap_http_exception e s) = false).
    { destruct Hcase as [-> | Htrap]; [reflexivity|].
      unfold trap_http_exception. rewrite Htrap. apply andb_false_r. }
    rewrite Hgo in Hhandle. exact Hhandle.
  - apply describe_key_error_class.
  - unfold describe_key_error. destruct (_ && _ && _); reflexivity.
  - apply describe_key_error_other.
  - intros Hd Ht. unfold describe_key_error. rewrite Hd, Ht. reflexivity.
Qed.

(** X12.  A key error of the request data ([BadRequestKeyError]) that
    still has the description of its class, when bad request errors are
    left unconfigured ([TRAP_BAD_REQUEST_ERRORS] is [None]), HTTP
    exceptions are not trapped, and no handler is registered for it.  In
    debug mode it is trapped: it is raised again, and it then carries
    the description [KeyError: '<key>'].  Without debug mode it is
    returned, unchanged, as the value from which the response is
    made. *)
Theorem handle_user_exception_key_error s e ctx
    (Htop : top (_request_ctx_stack s) = Some ctx)
    (Hexc : isinstance_exn e "Exception" = true)
    (Hhttp : isinstance_exn e "HTTPException" = true)
    (Hkey : isinstance_exn e "BadRequestKeyError" = true)
    (Hdescription : exc_description e = None)
    (Htrap_http : TRAP_HTTP_EXCEPTIONS (app_config (self s)) = false)
    (Htrap : TRAP_BAD_REQUEST_ERRORS (app_config (self s)) = None)
    (Hnone : spec_find_error_handler (error_handler_spec (self s))
                                     (blueprint (rc_request ctx)) e = None) :
  let described :=
    Exn (exc_class e) (exc_message e)
        (Some ("KeyError: '" ++ exc_message e ++ "'")%string) in
  (debug s = true → ∃ s', handle_user_exception e s = (Raise described, s'))
  ∧ (debug s = false → ∃ s', handle_user_exception e s = (Ok (VExn e), s')).
Proof.
  intros described. split; intros Hdebug.
  - assert (Hexc' : isinstance_exn described "Exception" = true) by exact Hexc.
    destruct (find_error_handler_run s described ctx Htop Hexc') as (s' & Hrun & _).
    exists s'. unfold handle_user_exception. rewrite bind_run, gets_run.
    assert (He : describe_key_error e s = described).
    { unfold describe_key_error. rewrite Hdebug, Hkey, Hdescription. reflexivity. }
    rewrite He, bind_run, gets_run.
    assert (Htrapped : trap_http_exception described s = true).
    { unfold trap_http_exception. rewrite Htrap_http, Htrap, Hdebug.
      change (isinstance_exn described "BadRequestKeyError")
        with (isinstance_exn e "BadRequestKeyError").
      rewrite Hkey. reflexivity. }
    rewrite Htrapped, andb_false_r, bind_run, Hrun.
    rewrite (spec_find_error_handler_class _ _ e described eq_refl), Hnone.
    reflexivity.
  - destruct (find_error_handler_run s e ctx Htop Hexc) as (s' & Hrun & _).
    unfold handle_user_exception. rewrite bind_run, gets_run.
    assert (He : describe_key_error e s = e).
    { unfold describe_key_error. rewrite Hdebug, Htrap. reflexivity. }
    rewrite He, bind_run, gets_run.
    assert (Hfree : trap_http_exception e s = false).
    { unfold trap_http_exception. rewrite Htrap_http, Htrap, Hdebug. reflexivity. }
    rewrite Hfree, Hhttp. simpl. unfold handle_http_exception.
    destruct (exc_code e); [|eexists; reflexivity].
    rewrite bind_run, Hrun, Hnone. eexists. reflexivity.
Qed.
End Handlers.

Section MoreHandlers.
Context {W : Type}.
Implicit Types (s : state W).

(** X13.  A handler registered for an HTTP exception that has no status
    code is not used.  For an HTTP exception whose class carries no
    code, when HTTP exceptions are not trapped, [handle_user_exception]
    returns the exception itself as the value from which the response
    is made: no handler is looked up, whatever is registered, and the
    state is left as it was. *)
Theorem handle_user_exception_without_code s e
    (Hhttp : isinstance_exn e "HTTPException" = true)
    (Hkey : isinstance_exn e "BadRequestKeyError" = false)
    (Hcode : exc_code e = None)
    (Htrap : trap_http_exception e s = false) :
  handle_user_exception e s = (Ok (VExn e), s).
Proof.
  unfold handle_user_exception. rewrite bind_run, gets_run.
  assert (He : describe_key_error e s = e).
  { unfold describe_key_error. rewrite Hkey, andb_false_r. reflexivity. }
  rewrite He, bind_run, gets_run, Htrap, Hhttp. simpl.
  unfold handle_http_exception. rewrite Hcode. reflexivity.
Qed.
End MoreHandlers.

(** ** [full_dispatch_request] *)

Section FullDispatch.
Context {W : Type}.
Implicit Types (s : state W).

(** X14.  What an error handler returns is finalized like the return
    value of a view.  When preprocessing or the view raises an
    exception for which a handler is registered, and the exception is
    not an HTTP exception that is neither trapped nor has a status code
    (for such a one no handler is used), [full_dispatch_request] calls
    that handler with the exception and hands its result to
    [finalize_request], so the response is made from it and the
    after-request functions run on it.  A [BadRequestKeyError] reaches
    the handler with the description that names the key when debug mode
    is on or bad request errors are trapped. *)
Theorem full_dispatch_request_handled s0 s s1 e ctx h
    (Hfirst : (try_trigger_before_first_request_functions ;;;
               emit (EvSignal "request-started" None)) s0 = (Ok tt, s))
    (Hraise : (rv <- preprocess_request ;;
               if is_None rv then dispatch_request else ret rv) s = (Raise e, s1))
    (Htop : top (_request_ctx_stack s1) = Some ctx)
    (Hexc : isinstance_exn e "Exception" = true)
    (Hcase : isinstance_exn e "HTTPException" = false ∨ trap_http_exception e s1 = true
             ∨ is_Some (exc_code e))
    (Hhandler : spec_find_error_handler (error_handler_spec (self s1))
                                        (blueprint (rc_request ctx)) e = Some h) :
  let raised := describe_key_error e s1 in
  (∃ s2, log s2 = log s1 ∧ world s2 = world s1
     ∧ full_dispatch_request s0 =
         (rv <- call KErrorHandler h [VExn raised] ;; finalize_request rv false) s2)
  ∧ exc_class raised = exc_class e
  ∧ exc_message raised = exc_message e
  ∧ (isinstance_exn e "BadRequestKeyError" = false → raised = e).
Proof.
  intros raised. subst raised. split; [|repeat split].
  - destruct (handle_user_exception_run s1 e ctx Htop Hexc)
      as (s2 & _ & Hlog & Hworld & Hhandle).
    cbv zeta in Hhandle. rewrite Hhandler in Hhandle.
    assert (Hcall : handle_user_exception e s1
                    = call KErrorHandler h [VExn (describe_key_error e s1)] s2).
    { rewrite Hhandle.
      destruct (isinstance_exn e "HTTPException" && negb (trap_http_exception e s1))
        eqn:Hhttp; [|reflexivity].
      destruct Hcase as [Hn | [Ht | [code Hcode]]].
      - rewrite Hn in Hhttp. discriminate Hhttp.
      - rewrite Ht, andb_false_r in Hhttp. discriminate Hhttp.
      - rewrite Hcode. reflexivity. }
    exists s2. split; [exact Hlog|]. split; [exact Hworld|].
    rewrite (full_dispatch_request_raised _ _ _ _ Hfirst Hraise), Hexc.
    rewrite !bind_run, Hcall. reflexivity.
  - apply describe_key_error_class.
  - unfold describe_key_error. destruct (_ && _ && _); reflexivity.
  - apply describe_key_error_other.
Qed.

(** X15.  An exception that is not an instance of [Exception] (a
    [KeyboardInterrupt] or a [SystemExit], for instance) passes through
    [full_dispatch_request]: no error handler is looked up, even if one
    is registered for its class, and the request is not finalized, so
    no after-request function runs. *)
Theorem full_dispatch_request_base_exception s0 s s1 e
    (Hfirst : (try_trigger_before_first_request_functions ;;;
               emit (EvSignal "request-started" None)) s0 = (Ok tt, s))
    (Hraise : (rv <- preprocess_request ;;
               if is_None rv then dispatch_request else ret rv) s = (Raise e, s1))
    (Hbase : isinstance_exn e "Exception" = false) :
  full_dispatch_request s0 = (Raise e, s1).
Proof.
  rewrite (full_dispatch_request_raised _ _ _ _ Hfirst Hraise), Hbase. reflexivity.
Qed.
End FullDispatch.

Section RequestTrace.
Context {W : Type}.
Implicit Types (s : state W).

Lemma url_value_preprocessors_run ctx (funcs : list (callback W)) :
  Forall returns_normally funcs →
  ∀ s, top (_request_ctx_stack s) = Some ctx →
  ∃ outs s',
    for_each funcs (fun func =>
      req <- current_request ;;
      call KUrlValuePreprocessor func [pyval_of_endpoint req; pyval_of_view_args req] ;;;
      ret tt) s = (Ok tt, s')
    ∧ length outs = length funcs
    ∧ log s' = log s ++
        zip_with (call_event KUrlValuePreprocessor
                    [pyval_of_endpoint (rc_request ctx);
                     pyval_of_view_args (rc_request ctx)]) funcs outs
    ∧ self s' = self s
    ∧ _request_ctx_stack s' = _request_ctx_stack s.
Proof.
  induction 1 as [|f fs Hf _ IH]; intros s Htop; simpl.
  - exists [], s. rewrite app_nil_r. auto.
  - rewrite bind_run, bind_run, (current_request_top _ _ Htop), bind_run. unfold call.
    destruct (Hf [pyval_of_endpoint (rc_request ctx); pyval_of_view_args (rc_request ctx)]
                 (world s)) as (v & w & Hrun).
    rewrite Hrun. unfold ret at 1.
    match goal with
    | |- context [for_each fs _ ?s1] => destruct (IH s1 Htop)
          as (outs & s' & Hrest & Hlen & Hlog & Hself & Hst)
    end.
    exists (v :: outs), s'. split; [exact Hrest|]. simpl in *.
    rewrite Hlen, Hlog, <- app_assoc. auto.
Qed.

Lemma first_not_None_run (funcs : list (callback W)) :
  Forall returns_None funcs →
  ∀ s, ∃ s',
    first_not_None funcs s = (Ok VNone, s')
    ∧ log s' = log s ++ map (fun c => call_event KBeforeRequest [] c VNone) funcs
    ∧ self s' = self s
    ∧ _request_ctx_stack s' = _request_ctx_stack s.
Proof.
  induction 1 as [|f fs Hf _ IH]; intros s; simpl.
  - exists s. rewrite app_nil_r. auto.
  - rewrite bind_run. unfold call.
    destruct (Hf [] (world s)) as (w & Hrun). rewrite Hrun. simpl.
    match goal with
    | |- context [first_not_None fs ?s1] => destruct (IH s1)
          as (s' & Hrest & Hlog & Hself & Hst)
    end.
    exists s'. split; [exact Hrest|]. simpl in *.
    rewrite Hlog, <- app_assoc. auto.
Qed.

Lemma apply_handlers_run (funcs : list (callback W)) :
  Forall returns_normally funcs →
  ∀ response s, ∃ vs s',
    apply_handlers funcs response s = (Ok (List.last vs response), s')
    ∧ length vs = length funcs
    ∧ log s' = log s ++ after_request_events funcs response vs
    ∧ self s' = self s
    ∧ _request_ctx_stack s' = _request_ctx_stack s.
Proof.
  induction 1 as [|f fs Hf _ IH]; intros response s; simpl.
  - exists [], s. simpl. rewrite app_nil_r. auto.
  - rewrite bind_run. unfold call.
    destruct (Hf [response] (world s)) as (v & w & Hrun). rewrite Hrun.
    match goal with
    | |- context [apply_handlers fs v ?s1] => destruct (IH v s1)
          as (vs & s' & Hrest & Hlen & Hlog & Hself & Hst)
    end.
    exists (v :: vs), s'. rewrite last_cons_default. split; [exact Hrest|].
    unfold after_request_events in *. simpl in *.
    rewrite Hlen, Hlog, <- app_assoc. auto.
Qed.

(** X16.  The order of events in a request that goes well.  After the
    first request, for a request matched to a rule whose view function
    is registered and which is not answered as an automatic OPTIONS
    request: when the URL value preprocessors return, the
    before-request functions return [None], the view returns a response
    object, and the after-request functions and the session interface
    return, [full_dispatch_request] returns what the last after-request
    function returned (the response of the view when there is none),
    and the events are, in this order: the signal [request-started];
    the URL value preprocessors; the before-request functions; the
    view; the after-request functions in the order of
    [after_request_order], fed by the response of the view; the saving
    of the session unless it is the null session; the signal
    [request-finished]. *)
Theorem full_dispatch_request_order s ctx r kw view response
    (Hgot : _got_first_request (self s) = true)
    (Htop : top (_request_ctx_stack s) = Some ctx)
    (Hnone : routing_exception (rc_request ctx) = None)
    (Hrule : url_rule (rc_request ctx) = Some r)
    (Hargs : view_args (rc_request ctx) = Some kw)
    (Hauto : provide_automatic_options r
             && String.eqb (method (rc_request ctx)) "OPTIONS" = false)
    (Hview : view_functions (self s) !! endpoint r = Some view)
    (Hurl_funcs : Forall returns_normally
                    (spec_scoped (url_value_preprocessors (self s))
                                 (blueprint (rc_request ctx))))
    (Hbefore_funcs : Forall returns_None
                       (spec_scoped (before_request_funcs (self s))
                                    (blueprint (rc_request ctx))))
    (Hresponse : returns_response (vf_func view) response)
    (Hafter_funcs : Forall returns_normally
                      (after_request_order ctx (after_request_funcs (self s))))
    (Hsave : returns_normally (save_session (self s))) :
  let req := rc_request ctx in
  let url_funcs := spec_scoped (url_value_preprocessors (self s)) (blueprint req) in
  let before_funcs := spec_scoped (before_request_funcs (self s)) (blueprint req) in
  let after_funcs := after_request_order ctx (after_request_funcs (self s)) in
  ∃ outs vs saved s',
    full_dispatch_request s = (Ok (List.last vs (VResponse response)), s')
    ∧ length outs = length url_funcs
    ∧ length vs = length after_funcs
    ∧ log s' = log s
        ++ [EvSignal "request-started" None]
        ++ zip_with (call_event KUrlValuePreprocessor
                       [pyval_of_endpoint req; pyval_of_view_args req]) url_funcs outs
        ++ map (fun c => call_event KBeforeRequest [] c VNone) before_funcs
        ++ [EvCall KView (cb_id (vf_func view)) [pyval_of_kwargs kw]
                   (Ok (VResponse response))]
        ++ after_request_events after_funcs (VResponse response) vs
        ++ saved
        ++ [EvSignal "request-finished" None]
    ∧ if session_null (rc_session ctx) then saved = []
      else ∃ v, saved =
             [EvCall KSaveSession (cb_id (save_session (self s)))
                     [pyval_of_kwargs (session_data (rc_session ctx));
                      List.last vs (VResponse response)]
                     (Ok v)].
Proof.
  intros req url_funcs before_funcs after_funcs.
  unfold full_dispatch_request.
  (* the first-request check *)
  rewrite bind_run. unfold try_trigger_before_first_request_functions at 1.
  rewrite bind_run, gets_run, Hgot. unfold ret at 1.
  rewrite bind_run. unfold try_except. rewrite bind_run, emit_run.
  set (sa := set_log (log s ++ [EvSignal "request-started" None]) s).
  (* preprocessing *)
  rewrite bind_run. unfold preprocess_request.
  rewrite bind_run, (top_request_context_top sa ctx Htop). cbv zeta.
  rewrite bind_run, gets_run, chain_blueprint_scoped.
  change (url_value_preprocessors (self sa)) with (url_value_preprocessors (self s)).
  fold req. fold url_funcs. rewrite bind_run.
  destruct (url_value_preprocessors_run ctx url_funcs Hurl_funcs sa Htop)
    as (outs & sb & Hrun & Hlen & Hlogb & Hselfb & Hstb).
  rewrite Hrun, bind_run, gets_run, chain_blueprint_scoped, Hselfb. clear Hrun.
  change (before_request_funcs (self sa)) with (before_request_funcs (self s)).
  fold req. fold before_funcs.
  destruct (first_not_None_run before_funcs Hbefore_funcs sb)
    as (sc & Hrun & Hlogc & Hselfc & Hstc).
  rewrite Hrun. clear Hrun. cbv beta iota. change (is_None VNone) with true. cbv iota.
  (* the view *)
  assert (Htopc : top (_request_ctx_stack sc) = Some ctx).
  { rewrite Hstc, Hstb. exact Htop. }
  rewrite (dispatch_request_matched sc ctx r Htopc Hnone Hrule), Hauto.
  rewrite bind_run, gets_run, Hselfc, Hselfb.
  change (view_functions (self sa)) with (view_functions (self s)).
  rewrite Hview, Hargs. unfold call at 1.
  destruct (Hresponse [pyval_of_kwargs kw] (world sc)) as (w & Hrun).
  rewrite Hrun. clear Hrun.
  set (sd := set_log _ (set_world w sc)).
  assert (Htopd : top (_request_ctx_stack sd) = Some ctx) by exact Htopc.
  assert (Hselfd : self sd = self s).
  { change (self sd) with (self sc). rewrite Hselfc, Hselfb. reflexivity. }
  (* the response *)
  unfold finalize_request. rewrite bind_run.
  assert (Hmake : make_response (VResponse response) sd = (Ok response, sd)).
  { reflexivity. }
  rewrite Hmake. unfold try_except. rewrite bind_run.
  rewrite (process_response_chain sd ctx _ Htopd), Hselfd. fold after_funcs.
  rewrite bind_run.
  destruct (apply_handlers_run after_funcs Hafter_funcs (VResponse response) sd)
    as (vs & se & Hrun & Hlenv & Hloge & Hselfe & Hste).
  rewrite Hrun. clear Hrun. rewrite bind_run.
  assert (Hlog : log se = log s
        ++ [EvSignal "request-started" None]
        ++ zip_with (call_event KUrlValuePreprocessor
                       [pyval_of_endpoint req; pyval_of_view_args req]) url_funcs outs
        ++ map (fun c => call_event KBeforeRequest [] c VNone) before_funcs
        ++ [EvCall KView (cb_id (vf_func view)) [pyval_of_kwargs kw]
                   (Ok (VResponse response))]
        ++ after_request_events after_funcs (VResponse response) vs).
  { rewrite Hloge. subst sd. simpl. rewrite Hlogc, Hlogb. subst sa. simpl.
    rewrite <- !app_assoc. reflexivity. }
  exists outs, vs.
  destruct (session_null (rc_session ctx)); cbn [negb].
  - unfold ret at 1 2. cbv beta iota. rewrite bind_run, emit_run.
    eexists [], _. split; [reflexivity|].
    split; [exact Hlen|]. split; [exact Hlenv|]. split; [|reflexivity].
    simpl. rewrite Hlog, <- !app_assoc. reflexivity.
  - rewrite bind_run, gets_run, bind_run. unfold call.
    rewrite Hselfe, Hselfd.
    destruct (Hsave [pyval_of_kwargs (session_data (rc_session ctx));
                     List.last vs (VResponse response)] (world se)) as (v & w' & Hrun).
    rewrite Hrun. unfold ret at 1 2. cbv beta iota. rewrite bind_run, emit_run.
    eexists [_], _. split; [reflexivity|].
    split; [exact Hlen|]. split; [exact Hlenv|]. split; [|exists v; reflexivity].
    simpl. rewrite Hlog, <- !app_assoc. reflexivity.
Qed.
End RequestTrace.

Section DispatchFrame.
Context {W : Type}.
Implicit Types (s : state W).

(** X17.  What the code that handles a request leaves alone.  The
    statements of [full_dispatch_request] and of [handle_exception],
    and of the methods they call, leave these as they were: the
    configuration, the identity of the application, the view functions,
    the URL map, the before-request, before-first-request,
    after-request and teardown functions, the URL value preprocessors,
    the session saver and both context stacks; the log only grows, and
    no teardown function is called.  (What they do write is the
    registry of error handlers, where a lookup may leave an empty
    dictionary, and the flag [_got_first_request].)  Callbacks are
    outside the statement: here a callback acts on a state of its own,
    so what a Python callback may do to the application or to the
    stacks is not covered. *)
Theorem dispatch_frame s e :
  frame s (snd (full_dispatch_request s))
  ∧ frame s (snd (handle_exception e s)).
Proof.
  split.
  - destruct (full_dispatch_request s) as [r s'] eqn:Hrun.
    exact (preserves_full_dispatch_request s r s' Hrun).
  - destruct (handle_exception e s) as [r s'] eqn:Hrun.
    exact (preserves_handle_exception e s r s' Hrun).
Qed.
End DispatchFrame.

Section PreprocessFailure.
Context {W : Type}.
Implicit Types (s : state W).

(** The loop over the URL value preprocessors, whatever they do. *)
Lemma url_value_preprocessors_outcome ctx (funcs : list (callback W)) : ∀ s r s',
  top (_request_ctx_stack s) = Some ctx →
  for_each funcs (fun func =>
    req <- current_request ;;
    call KUrlValuePreprocessor func [pyval_of_endpoint req; pyval_of_view_args req] ;;;
    ret tt) s = (r, s') →
  let args := [pyval_of_endpoint (rc_request ctx); pyval_of_view_args (rc_request ctx)] in
  self s' = self s
  ∧ _request_ctx_stack s' = _request_ctx_stack s
  ∧ ∃ outs,
      match r with
      | Ok _ =>
          length outs = length funcs
          ∧ log s' = log s ++ zip_with (call_event KUrlValuePreprocessor args) funcs outs
      | Raise e =>
          ∃ f, funcs !! length outs = Some f
            ∧ log s' = log s ++ zip_with (call_event KUrlValuePreprocessor args) funcs outs
                ++ [EvCall KUrlValuePreprocessor (cb_id f) args (Raise e)]
      end.
Proof.
  induction funcs as [|f fs IH]; intros s r s' Htop; simpl.
  - intros [= <- <-]. repeat split. exists []. rewrite app_nil_r. auto.
  - rewrite bind_run, bind_run, (current_request_top _ _ Htop), bind_run. unfold call.
    destruct (cb_run f _ (world s)) as [[v|e] w].
    + unfold ret at 1. intros Hrest. apply IH in Hrest; [|exact Htop].
      destruct Hrest as (Hself & Hst & outs & Hr). simpl in *.
      repeat (split; [assumption|]).
      exists (v :: outs). destruct r as [[]|e]; simpl.
      * destruct Hr as [Hlen Hlog]. rewrite Hlen, Hlog, <- app_assoc. auto.
      * destruct Hr as (f' & Hf' & Hlog). exists f'. split; [exact Hf'|].
        rewrite Hlog, <- !app_assoc. reflexivity.
    + intros [= <- <-]. simpl. repeat split.
      exists []. exists f. split; reflexivity.
Qed.

(** The loop over the before-request functions when it raises. *)
Lemma first_not_None_raises (funcs : list (callback W)) : ∀ s e s',
  first_not_None funcs s = (Raise e, s') →
  ∃ l1 f l2, funcs = l1 ++ f :: l2
    ∧ log s' = log s ++ map (fun c => call_event KBeforeRequest [] c VNone) l1
                     ++ [EvCall KBeforeRequest (cb_id f) [] (Raise e)].
Proof.
  induction funcs as [|f fs IH]; intros s e s'; simpl; [discriminate|].
  rewrite bind_run. unfold call.
  destruct (cb_run f [] (world s)) as [[rv|e1] w].
  - destruct (is_None rv) eqn:Hrv; [|discriminate].
    destruct rv; try discriminate Hrv. intros Hrest. apply IH in Hrest.
    destruct Hrest as (l1 & f' & l2 & -> & Hlog).
    exists (f :: l1), f', l2. split; [reflexivity|].
    rewrite Hlog. simpl. rewrite <- !app_assoc. reflexivity.
  - intros [= <- <-]. exists [], f, fs. split; reflexivity.
Qed.

(** X18.  When [preprocess_request] raises, the exception is that of
    the last call it made.  If a URL value preprocessor raised it, the
    preprocessors after that one and all before-request functions were
    not called.  Otherwise every URL value preprocessor returned, the
    before-request functions before the failing one returned [None],
    and those after it were not called. *)
Theorem preprocess_request_failure s ctx e s'
    (Htop : top (_request_ctx_stack s) = Some ctx)
    (Hrun : preprocess_request s = (Raise e, s')) :
  let req := rc_request ctx in
  let args := [pyval_of_endpoint req; pyval_of_view_args req] in
  let url_funcs := spec_scoped (url_value_preprocessors (self s)) (blueprint req) in
  let before_funcs := spec_scoped (before_request_funcs (self s)) (blueprint req) in
  ∃ outs,
    (∃ f, url_funcs !! length outs = Some f
       ∧ log s' = log s ++ zip_with (call_event KUrlValuePreprocessor args) url_funcs outs
           ++ [EvCall KUrlValuePreprocessor (cb_id f) args (Raise e)])
    ∨ (length outs = length url_funcs
       ∧ ∃ l1 f l2, before_funcs = l1 ++ f :: l2
           ∧ log s' = log s
               ++ zip_with (call_event KUrlValuePreprocessor args) url_funcs outs
               ++ map (fun c => call_event KBeforeRequest [] c VNone) l1
               ++ [EvCall KBeforeRequest (cb_id f) [] (Raise e)]).
Proof.
  intros req args url_funcs before_funcs.
  unfold preprocess_request in Hrun.
  rewrite bind_run, (top_request_context_top _ _ Htop) in Hrun. cbv zeta in Hrun.
  rewrite bind_run, gets_run, chain_blueprint_scoped in Hrun.
  fold req in Hrun. fold url_funcs in Hrun. rewrite bind_run in Hrun.
  match type of Hrun with
  | context [for_each url_funcs ?body s] =>
      destruct (for_each url_funcs body s) as [r1 s1] eqn:Hurl
  end.
  apply (url_value_preprocessors_outcome ctx) in Hurl; [|exact Htop].
  destruct Hurl as (Hself & _ & outs & Hr). fold req in Hr. fold args in Hr.
  exists outs. destruct r1 as [[]|e1].
  - right. destruct Hr as [Hlen Hlog]. split; [exact Hlen|].
    rewrite bind_run, gets_run, chain_blueprint_scoped, Hself in Hrun.
    fold req in Hrun. fold before_funcs in Hrun.
    apply first_not_None_raises in Hrun.
    destruct Hrun as (l1 & f & l2 & Hsplit & Hlog').
    exists l1, f, l2. split; [exact Hsplit|].
    rewrite Hlog', Hlog, <- !app_assoc. reflexivity.
  - left. injection Hrun as <- <-. exact Hr.
Qed.
End PreprocessFailure.

Section FirstRequestTrace.
Context {W : Type}.
Implicit Types (s : state W).

(** X19.  The first-request check when the flag is not yet set,
    whatever the before-first-request functions do.  They are called in
    the order of registration while the lock is held, and the lock is
    released on every path.  When all return, the flag is set.  When
    one raises, its exception leaves the check, the functions after it
    are not called, and the flag stays unset, so the next request
    starts over with the first function. *)
Theorem before_first_request_trace s r s'
    (Hflag : _got_first_request (self s) = false)
    (Hrun : try_trigger_before_first_request_functions s = (r, s')) :
  let funcs := before_first_request_funcs (self s) in
  ∃ vs,
    match r with
    | Ok _ =>
        length vs = length funcs
        ∧ log s' = log s ++ [EvLock true]
            ++ zip_with (call_event KBeforeFirstRequest []) funcs vs
            ++ [EvLock false]
        ∧ _got_first_request (self s') = true
    | Raise e =>
        ∃ f, funcs !! length vs = Some f
          ∧ log s' = log s ++ [EvLock true]
              ++ zip_with (call_event KBeforeFirstRequest []) funcs vs
              ++ [EvCall KBeforeFirstRequest (cb_id f) [] (Raise e); EvLock false]
          ∧ _got_first_request (self s') = false
    end.
Proof.
  intros funcs. unfold try_trigger_before_first_request_functions in Hrun.
  rewrite bind_run, gets_run, Hflag in Hrun.
  unfold with_before_request_lock in Hrun.
  rewrite bind_run, emit_run, try_finally_run, bind_run, gets_run in Hrun.
  change (_got_first_request (self (set_log (log s ++ [EvLock true]) s)))
    with (_got_first_request (self s)) in Hrun.
  rewrite Hflag, bind_run, gets_run in Hrun.
  change (before_first_request_funcs (self (set_log (log s ++ [EvLock true]) s)))
    with funcs in Hrun.
  rewrite bind_run in Hrun.
  destruct (for_each funcs _ (set_log (log s ++ [EvLock true]) s)) as [r1 s1] eqn:Hloop.
  apply for_each_trace in Hloop. destruct Hloop as (Hself & _ & _ & vs & Hr).
  exists vs. destruct r1 as [[]|e].
  - rewrite modify_run, emit_run in Hrun. injection Hrun as <- <-. simpl.
    destruct Hr as [Hlen Hlog]. split; [exact Hlen|]. split; [|reflexivity].
    rewrite Hlog. simpl. rewrite <- !app_assoc. reflexivity.
  - rewrite emit_run in Hrun. injection Hrun as <- <-. simpl.
    destruct Hr as (f & Hf & Hlog). exists f. split; [exact Hf|]. split.
    + rewrite Hlog. simpl. rewrite <- !app_assoc. reflexivity.
    + rewrite Hself. exact Hflag.
Qed.
End FirstRequestTrace.

(** ** [route] *)

Section Route.
Context {W : Type}.
Variable _endpoint_from_view_func : option (view_function W) → result string.
Variable url_rule_class : string → gset string → string → result rule.
Implicit Types (s : state W).

(** A registration that succeeds has bound the endpoint (the one given,
    or else the one derived from the view function) to the view
    function. *)
Lemma add_url_rule_ok s pattern name vf pao methods s1 :
  add_url_rule _endpoint_from_view_func url_rule_class pattern name (Some vf) pao
               methods s = (Ok tt, s1) →
  ∃ ep, match name with
        | Some x => x = ep
        | None => _endpoint_from_view_func (Some vf) = Ok ep
        end
    ∧ view_functions (self s1) = <[ep := vf]> (view_functions (self s)).
Proof.
  intros Hadd.
  destruct (debug s && _got_first_request (self s)) eqn:Hsetup.
  { rewrite add_url_rule_setup_failure in Hadd by exact Hsetup. discriminate Hadd. }
  assert (∃ ep, match name with
                | Some x => x = ep
                | None => _endpoint_from_view_func (Some vf) = Ok ep
                end) as [ep Hendpoint].
  { destruct name as [x|]; [exists x; reflexivity|].
    destruct (_endpoint_from_view_func (Some vf)) as [ep|e] eqn:He;
      [exists ep; reflexivity|].
    exfalso. revert Hadd. unfold add_url_rule, setupmethod, bind, gets, lift.
    rewrite Hsetup, He. discriminate. }
  exists ep. split; [exact Hendpoint|].
  assert (Hlist : ∃ ms, methods = option_map MethodsList ms).
  { destruct methods as [[m|ms]|]; [|exists (Some ms); reflexivity|exists None; reflexivity].
    exfalso. revert Hadd. unfold add_url_rule, setupmethod, bind, gets.
    rewrite Hsetup.
    destruct name as [x|]; [|unfold lift; rewrite Hendpoint]; discriminate. }
  destruct Hlist as [ms ->].
  rewrite (add_url_rule_run _ _ s pattern name ep vf pao ms Hsetup Hendpoint) in Hadd.
  cbv zeta in Hadd.
  destruct (url_rule_class pattern _ ep) as [r|e]; [|discriminate Hadd].
  destruct (view_functions (self s) !! ep) as [old|];
    [destruct (Nat.eqb (cb_id (vf_func old)) (cb_id (vf_func vf)));
       [|discriminate Hadd]|];
    injection Hadd as <-; reflexivity.
Qed.

(** X20.  A decorator made by [route] keeps its endpoint for one use
    only.  Applied to a function [f], the decorator of
    [route(rule, endpoint=ep, ...)] returns [f] and has registered it
    under [ep].  Applied once more, to a function [g], the same
    decorator registers [g] under the endpoint derived from [g], not
    under [ep]: the first call popped [endpoint] out of the dictionary
    of options that the closure holds. *)
Theorem route_decorator_reuse s (pattern ep name_g : string) (options : route_options)
    (f g : view_function W) r1 options1 s1 r2 options2 s2
    (Hendpoint : opt_endpoint options = Some ep)
    (Hfirst : decorator _endpoint_from_view_func url_rule_class pattern options f s
              = ((Ok r1, options1), s1))
    (Hsecond : decorator _endpoint_from_view_func url_rule_class pattern options1 g s1
               = ((Ok r2, options2), s2))
    (Hname : _endpoint_from_view_func (Some g) = Ok name_g) :
  r1 = f
  ∧ view_functions (self s1) = <[ep := f]> (view_functions (self s))
  ∧ opt_endpoint options1 = None
  ∧ r2 = g
  ∧ view_functions (self s2) = <[name_g := g]> (<[ep := f]> (view_functions (self s))).
Proof.
  unfold decorator, pop_endpoint in Hfirst. rewrite Hendpoint in Hfirst.
  destruct (add_url_rule _ _ pattern (Some ep) (Some f) _ _ s) as [[[]|e] sa] eqn:Hadd1;
    [|discriminate Hfirst].
  injection Hfirst as <- <- <-.
  apply add_url_rule_ok in Hadd1 as (ep1 & <- & Hviews1).
  unfold decorator, pop_endpoint in Hsecond. cbn [opt_endpoint] in Hsecond.
  destruct (add_url_rule _ _ pattern None (Some g) _ _ sa) as [[[]|e] sb] eqn:Hadd2;
    [|discriminate Hsecond].
  injection Hsecond as <- <- <-.
  apply add_url_rule_ok in Hadd2 as (ep2 & Hep2 & Hviews2).
  rewrite Hname in Hep2. injection Hep2 as <-.
  rewrite Hviews2, Hviews1. auto.
Qed.
End Route.

(** ** [__json.py] *)

(** Decides the tests of [detect_encoding] on a head whose length is
    known. *)
Ltac decide_head :=
  unfold detect_encoding, BOM_UTF8, BOM_UTF16_BE, BOM_UTF16_LE, BOM_UTF32_BE,
    BOM_UTF32_LE in *;
  cbn [encode_ascii flat_map encode_ascii_character app take drop every_second
       length Nat.eqb utf_name] in *;
  repeat (case_bool_decide; simplify_eq; try lia);
  solve [ reflexivity
        | congruence
        | exfalso;
          repeat match goal with
                 | H : _ ∈ _ :: _ |- _ => apply elem_of_cons in H; destruct H; try lia
                 | H : _ ∈ [] |- _ => apply elem_of_nil in H; destruct H
                 end
        | match goal with
          | H : ¬ (_ ∈ _) |- _ => exfalso; apply H; rewrite !elem_of_cons; auto 6
          end ].

Section DetectEncodingMarks.

(** X21.  [detect_encoding] looks at the first four bytes only, and
    this is what it makes of a byte order mark.  Data that starts with
    the UTF-8 mark is [utf-8-sig]; data whose first four bytes are a
    UTF-32 mark is [utf-32]; data that starts with a UTF-16 mark is
    [utf-16] when one of its first four bytes is zero and these four are
    not the UTF-32 mark of the little-endian order, but [utf-8] when
    none of its first four bytes is zero, because that test comes before
    the tests for the UTF-16 and UTF-32 marks. *)
Theorem detect_encoding_marks (data : list Z) :
  detect_encoding data = detect_encoding (take 4 data)
  ∧ (take 3 data = BOM_UTF8 → detect_encoding data = "utf-8-sig")
  ∧ (take 4 data = BOM_UTF32_BE ∨ take 4 data = BOM_UTF32_LE →
       detect_encoding data = "utf-32")
  ∧ (take 2 data = BOM_UTF16_BE ∨ take 2 data = BOM_UTF16_LE →
       (0 ∈ take 4 data → take 4 data ≠ BOM_UTF32_LE → detect_encoding data = "utf-16")
       ∧ (0 ∉ take 4 data → detect_encoding data = "utf-8")).
Proof.
  split.
  { assert (H : take 4 (take 4 data) = take 4 data)
      by (rewrite take_take; reflexivity).
    unfold detect_encoding. rewrite H. reflexivity. }
  destruct data as [|a [|b [|c [|d rest]]]];
    (split;
     [intros H
     |split; [intros [H|H] | intros [H|H]; (split; [intros H1 H2 | intros H1])]]);
    try discriminate H; decide_head.
Qed.
End DetectEncodingMarks.

Section DetectEncodingOfText.

(** X22.  [detect_encoding] recognises JSON text without a byte order
    mark.  For a text of ASCII characters other than NUL that is not
    empty, encoded in UTF-8 or in UTF-16 or UTF-32 of either byte order,
    [detect_encoding] names the encoding that was used. *)
Theorem detect_encoding_ascii_text (u : utf) (text : list Z)
    (Hnonempty : text ≠ [])
    (Hascii : Forall (fun c => 0 < c < 128) text) :
  detect_encoding (encode_ascii u text) = utf_name u.
Proof.
  destruct text as [|a text]; [congruence|].
  apply Forall_cons in Hascii as [Ha Hascii].
  destruct text as [|b text].
  { destruct u; decide_head. }
  apply Forall_cons in Hascii as [Hb Hascii].
  destruct u; try (decide_head; fail).
  (* UTF-8: up to four characters matter *)
  destruct text as [|c text];
    [|apply Forall_cons in Hascii as [Hc Hascii]; destruct text as [|d text];
      [|apply Forall_cons in Hascii as [Hd Hascii]]];
    decide_head.
Qed.
End DetectEncodingOfText.

Section HtmlSafe.

Lemma occurs_app c (s1 s2 : string) :
  occurs c (s1 ++ s2)%string = occurs c s1 || occurs c s2.
Proof.
  induction s1 as [|c' s1 IH]; simpl; [reflexivity|].
  rewrite IH, orb_assoc. reflexivity.
Qed.

(** A replacement brings in no character that neither the text nor the
    replacing text has. *)
Lemma replace_from_keeps_out c old new : ∀ s skip,
  occurs c new = false → occurs c s = false →
  occurs c (replace_from old new skip s) = false.
Proof.
  induction s as [|c' s IH]; intros skip Hnew Hs; [reflexivity|].
  cbn [replace_from]. cbn [occurs] in Hs. apply orb_false_iff in Hs as [Hc Hs].
  destruct skip as [|k]; [|apply IH; assumption].
  destruct (String.prefix old (String c' s)).
  - rewrite occurs_app, Hnew. apply IH; assumption.
  - cbn [occurs]. rewrite Hc. apply IH; assumption.
Qed.

(** Replacing a character takes it out of the text. *)
Lemma replace_from_removes c new : ∀ s,
  occurs c new = false →
  occurs c (replace_from (String c EmptyString) new 0 s) = false.
Proof.
  induction s as [|c' s IH]; intros Hnew; [reflexivity|].
  cbn [replace_from String.length Nat.sub].
  assert (Hprefix : String.prefix (String c EmptyString) (String c' s) = Ascii.eqb c c').
  { cbn [String.prefix]. destruct (Ascii.ascii_dec c c') as [->|Hne].
    - rewrite Ascii.eqb_refl. destruct s; reflexivity.
    - symmetry. apply Ascii.eqb_neq. exact Hne. }
  rewrite Hprefix. destruct (Ascii.eqb c c') eqn:Hc.
  - rewrite occurs_app, Hnew. apply (IH Hnew).
  - cbn [occurs]. rewrite Hc. apply (IH Hnew).
Qed.

(** X23.  The text that [htmlsafe_dumps] returns holds none of the
    characters [<], [>], [&] and ['], whatever the JSON library
    produced and whether or not it escapes slashes; and
    [htmlsafe_dumps] returns nothing but text. *)
Theorem htmlsafe_dumps_safe app req _json_dumps str_encode _slash_escape obj kwargs v
    (Hrun : htmlsafe_dumps app req _json_dumps str_encode _slash_escape obj kwargs
            = Ok v) :
  ∃ rv, v = VStr rv
    ∧ ∀ c, In c (String.list_ascii_of_string "<>&'") → occurs c rv = false.
Proof.
  unfold htmlsafe_dumps in Hrun.
  destruct (dumps app req _json_dumps str_encode obj kwargs) as [[]|]; try discriminate Hrun.
  injection Hrun as <-. eexists. split; [reflexivity|].
  intros c Hc. unfold str_replace.
  destruct _slash_escape; cbn [negb];
    cbn [String.list_ascii_of_string In] in Hc;
    destruct Hc as [<-|[<-|[<-|[<-|[]]]]];
    repeat first [ apply replace_from_removes; reflexivity
                 | apply replace_from_keeps_out; [reflexivity|] ].
Qed.
End HtmlSafe.

Section ArgumentDefaults.

Lemma setdefault_keeps k v (kwargs : gmap string kwarg) k' v' :
  kwargs !! k' = Some v' → setdefault k v kwargs !! k' = Some v'.
Proof.
  intros H. unfold setdefault.
  destruct (kwargs !! k) eqn:Hk; [exact H|].
  rewrite lookup_insert_ne; [exact H|]. intros <-. congruence.
Qed.

Lemma setdefault_sets k v (kwargs : gmap string kwarg) :
  is_Some (setdefault k v kwargs !! k).
Proof.
  unfold setdefault. destruct (kwargs !! k) eqn:Hk; [rewrite Hk; eauto|].
  rewrite lookup_insert_eq. eauto.
Qed.

Lemma setdefault_other k v (kwargs : gmap string kwarg) k' :
  k' ≠ k → setdefault k v kwargs !! k' = kwargs !! k'.
Proof.
  intros H. unfold setdefault. destruct (kwargs !! k); [reflexivity|].
  apply lookup_insert_ne. congruence.
Qed.

Lemma setdefault_new k v (kwargs : gmap string kwarg) :
  kwargs !! k = None → setdefault k v kwargs !! k = Some v.
Proof.
  intros H. unfold setdefault. rewrite H. apply lookup_insert_eq.
Qed.

(** X24.  The defaults of the dump and load functions.  When
    [_dump_arg_defaults] returns, it has kept every keyword argument it
    was given, [cls] and [sort_keys] are set, no key other than [cls],
    [sort_keys] and [ensure_ascii] was added, and [ensure_ascii] was
    added only with the value [False] and only for an application whose
    [JSON_AS_ASCII] is off; [_load_arg_defaults] keeps every keyword
    argument as well and sets no key but [cls].  Outside an application
    context both return, and the defaults are to sort the keys and to
    use [JSONEncoder].  With an application that has no attribute
    [json_encoder] (an instance of [Flask] has none unless it was
    assigned one) and a request whose blueprint brings no encoder,
    [_dump_arg_defaults] and [dumps] raise [AttributeError] whatever
    the arguments are, [cls] included, because the default is computed
    before [setdefault] is called; [_load_arg_defaults] does the same
    for [json_decoder]. *)
Theorem dump_arg_defaults_keep_arguments app req (kwargs : gmap string kwarg) :
  (∀ kwargs', _dump_arg_defaults app req kwargs = Ok kwargs' →
     (∀ k v, kwargs !! k = Some v → kwargs' !! k = Some v)
     ∧ is_Some (kwargs' !! "cls")
     ∧ is_Some (kwargs' !! "sort_keys")
     ∧ (∀ k, k ≠ "cls" → k ≠ "sort_keys" → k ≠ "ensure_ascii" →
             kwargs' !! k = kwargs !! k)
     ∧ (kwargs !! "ensure_ascii" = None →
          kwargs' !! "ensure_ascii" =
            match app with
            | Some a => if JSON_AS_ASCII a then None else Some (KwBool false)
            | None => None
            end))
  ∧ (∀ kwargs', _load_arg_defaults app req kwargs = Ok kwargs' →
       (∀ k v, kwargs !! k = Some v → kwargs' !! k = Some v)
       ∧ is_Some (kwargs' !! "cls")
       ∧ (∀ k, k ≠ "cls" → kwargs' !! k = kwargs !! k))
  ∧ (app = None →
       ∃ dump load,
         _dump_arg_defaults app req kwargs = Ok dump
         ∧ _load_arg_defaults app req kwargs = Ok load
         ∧ (kwargs !! "sort_keys" = None → dump !! "sort_keys" = Some (KwBool true))
         ∧ (kwargs !! "cls" = None → dump !! "cls" = Some (KwClass "JSONEncoder"))
         ∧ (kwargs !! "cls" = None → load !! "cls" = Some (KwClass "JSONDecoder")))
  ∧ (∀ a, app = Some a →
       (∀ b, request_blueprint req a = Some b → bp_json_encoder b = None) →
       json_encoder a = None →
       let e := AttributeError "'Flask' object has no attribute 'json_encoder'" in
       _dump_arg_defaults app req kwargs = Raise e
       ∧ ∀ _json_dumps str_encode obj,
           dumps app req _json_dumps str_encode obj kwargs = Raise e)
  ∧ (∀ a, app = Some a →
       (∀ b, request_blueprint req a = Some b → bp_json_decoder b = None) →
       json_decoder a = None →
       _load_arg_defaults app req kwargs
       = Raise (AttributeError "'Flask' object has no attribute 'json_decoder'"))
  ∧ (app = Some flask_json →
       _dump_arg_defaults app req kwargs
       = Raise (AttributeError "'Flask' object has no attribute 'json_encoder'")).
Proof.
  assert (Hencoder : ∀ a,
            (∀ b, request_blueprint req a = Some b → bp_json_encoder b = None) →
            json_encoder a = None →
            default_encoder req a
            = Raise (AttributeError "'Flask' object has no attribute 'json_encoder'")).
  { intros a Hbp Hnone. unfold default_encoder.
    destruct (request_blueprint req a) as [b|] eqn:Hb.
    - rewrite (Hbp b eq_refl), Hnone. reflexivity.
    - rewrite Hnone. reflexivity. }
  repeat apply conj.
  - intros kwargs'. unfold _dump_arg_defaults.
    destruct app as [a|].
    + destruct (default_encoder req a) as [encoder|e]; [|discriminate].
      cbv zeta. intros [= <-]. repeat split.
      * intros k v H. apply setdefault_keeps.
        destruct (JSON_AS_ASCII a); simpl; repeat apply setdefault_keeps; exact H.
      * destruct (setdefault_sets "cls" (KwClass encoder) kwargs) as [v Hv].
        exists v. destruct (JSON_AS_ASCII a); simpl;
          [apply setdefault_keeps | do 2 apply setdefault_keeps]; exact Hv.
      * apply setdefault_sets.
      * intros k H1 H2 H3. rewrite setdefault_other by exact H2.
        destruct (JSON_AS_ASCII a); simpl;
          rewrite ?(setdefault_other "ensure_ascii") by exact H3;
          apply setdefault_other; exact H1.
      * intros H. rewrite setdefault_other by discriminate.
        destruct (JSON_AS_ASCII a); simpl.
        -- rewrite setdefault_other by discriminate. exact H.
        -- apply setdefault_new. rewrite setdefault_other by discriminate. exact H.
    + cbv zeta. intros [= <-]. repeat split.
      * intros k v H. do 2 apply setdefault_keeps. exact H.
      * apply setdefault_sets.
      * destruct (setdefault_sets "sort_keys" (KwBool true) kwargs) as [v Hv].
        exists v. apply setdefault_keeps. exact Hv.
      * intros k H1 H2 H3. rewrite setdefault_other by exact H1.
        apply setdefault_other; exact H2.
      * intros H. rewrite !setdefault_other by discriminate. exact H.
  - intros kwargs'. unfold _load_arg_defaults.
    destruct app as [a|].
    + destruct (default_decoder req a) as [decoder|e]; [|discriminate].
      intros [= <-]. repeat split.
      * intros k v H. apply setdefault_keeps. exact H.
      * apply setdefault_sets.
      * intros k H. apply setdefault_other. exact H.
    + intros [= <-]. repeat split.
      * intros k v H. apply setdefault_keeps. exact H.
      * apply setdefault_sets.
      * intros k H. apply setdefault_other. exact H.
  - intros ->. eexists _, _. split; [reflexivity|]. split; [reflexivity|].
    repeat split.
    + intros H. rewrite setdefault_other by discriminate. apply setdefault_new, H.
    + intros H. apply setdefault_new. rewrite setdefault_other by discriminate. exact H.
    + intros H. apply setdefault_new, H.
  - intros a -> Hbp Hnone e. subst e.
    assert (Hdump : _dump_arg_defaults (Some a) req kwargs
                    = Raise (AttributeError "'Flask' object has no attribute 'json_encoder'")).
    { unfold _dump_arg_defaults. rewrite (Hencoder a Hbp Hnone). reflexivity. }
    split; [exact Hdump|].
    intros _json_dumps str_encode obj. unfold dumps. rewrite Hdump. reflexivity.
  - intros a -> Hbp Hnone. unfold _load_arg_defaults, default_decoder.
    destruct (request_blueprint req a) as [b|] eqn:Hb.
    + rewrite (Hbp b eq_refl), Hnone. reflexivity.
    + rewrite Hnone. reflexivity.
  - intros ->. unfold _dump_arg_defaults.
    rewrite (Hencoder flask_json); [reflexivity| |reflexivity].
    intros b. unfold request_blueprint, flask_json. simpl.
    destruct req as [r|]; [|discriminate].
    destruct (blueprint r); [rewrite lookup_empty|]; discriminate.
Qed.
End ArgumentDefaults.

(** ** [JSONEncoder.default] and [__cli.py] *)

Section Encoder.

(** X25.  [JSONEncoder.default] serializes nothing.  Its first test is
    [isinstance(o, datetime)], and [datetime] is bound to the module
    ([import datetime]), not to the class; so for every object, a date
    or a UUID included, the call ends in the [TypeError] of
    [isinstance], and the branches for dates, UUIDs and [__html__] are
    never reached. *)
Theorem JSONEncoder_default_raises http_date_utc http_date_local str (o : pyobject) :
  JSONEncoder_default http_date_utc http_date_local str o
  = Raise (TypeError "isinstance() arg 2 must be a type or tuple of types")
  ∧ isinstance o date = Ok (existsb (String.eqb "date") (ob_classes o)).
Proof. split; reflexivity. Qed.
End Encoder.

Section DebugFlag.

(** X26.  [FLASK_DEBUG] comes before [FLASK_ENV].  When [FLASK_DEBUG]
    is set to a text that is not empty, [get_debug_flag] does not depend
    on [FLASK_ENV]: the flag is off exactly for the values [0], [false]
    and [no] in any mix of upper and lower case.  When it is unset or
    empty, the flag is on exactly when [FLASK_ENV] is [development]; and
    [get_env] is [production] when [FLASK_ENV] is unset or empty. *)
Theorem get_debug_flag_precedence (os_environ : gmap string string) :
  (∀ val env, val ≠ "" →
     get_debug_flag (<["FLASK_DEBUG" := val]> (<["FLASK_ENV" := env]> os_environ))
     = get_debug_flag (<["FLASK_DEBUG" := val]> os_environ)
     ∧ (get_debug_flag (<["FLASK_DEBUG" := val]> os_environ) = false
        ↔ lower val = "0" ∨ lower val = "false" ∨ lower val = "no"))
  ∧ (os_environ !! "FLASK_DEBUG" = None ∨ os_environ !! "FLASK_DEBUG" = Some "" →
       (get_debug_flag os_environ = true ↔ os_environ !! "FLASK_ENV" = Some "development"))
  ∧ (os_environ !! "FLASK_ENV" = None ∨ os_environ !! "FLASK_ENV" = Some "" →
       get_env os_environ = "production").
Proof.
  split; [|split].
  - intros val env Hval. unfold get_debug_flag. rewrite !lookup_insert_eq.
    apply String.eqb_neq in Hval. rewrite Hval. split; [reflexivity|].
    cbn [existsb]. rewrite negb_false_iff, !orb_true_iff, !String.eqb_eq.
    intuition congruence.
  - intros Hunset. unfold get_debug_flag, get_env.
    assert (Hflag : match os_environ !! "FLASK_DEBUG" with
                    | Some val => String.eqb val "" = true
                    | None => True
                    end).
    { destruct Hunset as [-> | ->]; [exact I | reflexivity]. }
    destruct (os_environ !! "FLASK_DEBUG") as [val|]; [rewrite Hflag|];
      (destruct (os_environ !! "FLASK_ENV") as [env|];
       [destruct (String.eqb env "") eqn:He|]);
      rewrite ?String.eqb_eq in *; subst; split; intros H;
      try discriminate H; try (injection H as ->); try reflexivity; try congruence.
  - intros [H | H]; unfold get_env; rewrite H; reflexivity.
Qed.
End DebugFlag.

Section FindBestApp.

(** X27.  [find_best_app] finds no application.  Its first statement
    is [from . import Flask], and [__cli] is a module without a parent
    package; so for every module, one that binds the name [app] to an
    application included, the call ends in the [ImportError] of that
    statement.  The result does not depend on the module: no name of it
    is looked up and no factory is called. *)
Theorem find_best_app_raises module_name (module : gmap string module_object) :
  find_best_app module_name module
  = Raise (ImportError "attempted relative import with no known parent package")
  ∧ isinstance_exn (ImportError "attempted relative import with no known parent package")
                   "NoAppException" = false.
Proof. split; reflexivity. Qed.
End FindBestApp.

(** ** Instances on concrete applications *)

Import Examples.

Lemma wsgi_app_teardown_witness :
  let environ := environ_of get_index false in
  let s := fresh teardown_app in
  ∃ l, log (snd (wsgi_app environ s)) = log s ++ l
    ∧ teardown_calls l
      = [(KTeardownRequest, 41%nat, [VExn boom]);
         (KTeardownRequest, 40%nat, [VExn boom]);
         (KTeardownAppcontext, 42%nat, [VExn boom])].
Proof.
  destruct (wsgi_app_teardown (fresh teardown_app) (environ_of get_index false))
    as (l & Hlog & Hcalls & _).
  - reflexivity.
  - exact I.
  - repeat constructor; intros args w; eexists _, _; reflexivity.
  - repeat constructor; intros args w; eexists _, _; reflexivity.
  - exists l. split; [exact Hlog | exact Hcalls].
Defined.

(** With the pop postponed no teardown function is called by
    [wsgi_app], although three are registered. *)
Lemma wsgi_app_teardown_counterexample :
  let environ := environ_of get_index true in
  let s := fresh teardown_app in
  teardown_calls (log (snd (wsgi_app environ s))) = []
  ∧ length (spec_teardown_order (teardown_request_funcs (self s)) None) = 2%nat
  ∧ length (teardown_appcontext_funcs (self s)) = 1%nat.
Proof. vm_compute. repeat split. Qed.

(** A teardown function that raises ends the loop of
    [do_teardown_request]: the functions after it are not called. *)
Example do_teardown_request_stops_at_failure :
  let careless :=
    Flask 1 production {[ "index" := index ]} ∅ ∅ [] ∅
          {[ None := [returning 40 VNone; raising 41 boom] ]} [] ∅ [index_rule] false
          (returning 0 VNone) in
  let s := serving careless get_index in
  fst (do_teardown_request None s) = Raise boom
  ∧ log (snd (do_teardown_request None s))
    = [EvCall KTeardownRequest 41 [VNone] (Raise boom)].
Proof. split; reflexivity. Qed.

Lemma make_response_coercion_witness :
  let s := serving (app production) get_index in
  make_response (VTuple [VStr "ok"; VInt 404; VDict [(VStr "X", VStr "1")]]) s
    = (Ok (Response "ok" "200 OK" 404 [("X", "1")]), s)
  ∧ make_response (VTuple [VStr "ok"; VInt 404]) s
    = (Ok (Response "ok" "200 OK" 404 []), s)
  ∧ make_response (VTuple [VStr "ok"; VDict [(VStr "X", VStr "1")]]) s
    = (Ok (Response "ok" "200 OK" 200 [("X", "1")]), s)
  ∧ make_response (VTuple [VInt 1; VInt 2; VInt 3; VInt 4]) s
    = (Raise (TypeError invalid_tuple_msg), s)
  ∧ make_response (VStr "ok") s = (Ok (Response "ok" "200 OK" 200 []), s).
Proof.
  destruct (make_response_coercion (serving (app production) get_index)
              (VStr "ok") (VInt 404) (VDict [(VStr "X", VStr "1")]) VNone
              (Response "ok" "200 OK" 200 []) (Response "ok" "200 OK" 404 [])
              [VInt 1; VInt 2; VInt 3; VInt 4] [("X", "1")] eq_refl eq_refl eq_refl)
    as (Htriple & _ & Hheaders & Hstatus & Hlen & _ & _ & _ & Halone & _).
  - simpl. lia.
  - split; [exact Htriple|]. split; [exact (Hstatus eq_refl)|].
    split; [exact (Hheaders eq_refl)|]. split; [exact Hlen | exact Halone].
Defined.

(** A 2-tuple whose second element is a tuple: not "a mapping or
    list-of-pairs or multi-valued-header object", yet taken as the
    headers and not as the status. *)
Lemma make_response_tuple_counterexample :
  let x := VTuple [VTuple [VStr "X"; VStr "1"]] in
  let s := serving (app production) get_index in
  spec_header_like x = false
  ∧ make_response (VTuple [VStr "ok"; x]) s
    = (Ok (Response "ok" "200 OK" 200 [("X", "1")]), s)
  ∧ make_response (VTuple [VStr "ok"; x]) s
    = make_response (VTuple [VStr "ok"; VNone; x]) s
  ∧ make_response (VTuple [VStr "ok"; x]) s
    ≠ make_response (VTuple [VStr "ok"; x; VNone]) s.
Proof. repeat split. discriminate. Qed.

(** The examples of the specification. *)
Example make_response_examples :
  let s := serving (app production) get_index in
  make_response (VStr "ok") s = (Ok (Response "ok" "200 OK" 200 []), s)
  ∧ make_response (VTuple [VStr "ok"; VInt 404]) s
    = (Ok (Response "ok" "200 OK" 404 []), s)
  ∧ make_response (VTuple [VStr "ok"; VDict [(VStr "X", VStr "1")]]) s
    = (Ok (Response "ok" "200 OK" 200 [("X", "1")]), s)
  ∧ make_response (VTuple [VStr "ok"; VInt 404; VDict [(VStr "X", VStr "1")]]) s
    = (Ok (Response "ok" "200 OK" 404 [("X", "1")]), s)
  ∧ make_response (VTuple [VInt 1; VInt 2; VInt 3; VInt 4]) s
    = (Raise (TypeError invalid_tuple_msg), s)
  ∧ make_response VNone s = (Raise (TypeError none_body_msg), s)
  ∧ make_response (VTuple [VResponse (Response "ok" "200 OK" 200 [("A", "1")]);
                           VStr "404 NOT FOUND"; VDict [(VStr "X", VStr "1")]]) s
    = (Ok (Response "ok" "404 NOT FOUND" 200 [("A", "1"); ("X", "1")]), s)
  ∧ fst (make_response (VTuple [VInt 7; VInt 404]) s)
    = Raise (TypeError "object is not callable
The view function did not return a valid response. The return type must be a string, tuple, Response instance, or WSGI callable, but it was a int.").
Proof. repeat split. Qed.

Lemma find_error_handler_precedence_witness :
  let s := serving handlers_app admin_request in
  fst (_find_error_handler value_error s) = Ok (Some blueprint_handler)
  ∧ fst (handle_user_exception value_error s) = Ok (VStr "blueprint")
  ∧ log (snd (handle_user_exception value_error s))
    = [EvCall KErrorHandler 21 [VExn value_error] (Ok (VStr "blueprint"))].
Proof.
  destruct (find_error_handler_precedence (serving handlers_app admin_request)
              value_error
              (RequestContext 0 1 admin_request (Session true []) ["GET"] [] false true)
              eq_refl eq_refl) as (_ & _ & _ & Hblueprint).
  destruct (Hblueprint "admin" "ValueError" ["Exception"; "BaseException"; "object"]
              {[ None := {[ "ValueError" := blueprint_handler ]} ]}
              {[ None := {[ "ValueError" := global_handler ]} ]}
              {[ "ValueError" := blueprint_handler ]}
              {[ "ValueError" := global_handler ]}
              blueprint_handler global_handler
              eq_refl eq_refl eq_refl eq_refl eq_refl eq_refl eq_refl eq_refl)
    as (Hfound & Hcalled & _).
  destruct (Hcalled (or_introl eq_refl)) as (s' & _ & _ & Hrun & Hlog & _).
  split; [exact Hfound|]. split; [reflexivity|].
  vm_compute in Hlog |- *. exact Hlog.
Defined.

Lemma preprocess_request_short_circuit_witness :
  let s0 := serving guarded_app get_index in
  full_dispatch_request s0
  = finalize_request (VStr "stop") false
      (State guarded_app (_request_ctx_stack s0) (_app_ctx_stack s0) tt
         [EvSignal "request-started" None;
          EvCall KUrlValuePreprocessor 33 [VStr "index"; VDict []] (Ok VNone);
          EvCall KBeforeRequest 30 [] (Ok VNone);
          EvCall KBeforeRequest 31 [] (Ok (VStr "stop"))] 1).
Proof.
  apply (preprocess_request_short_circuit (serving guarded_app get_index)
           (State guarded_app (_request_ctx_stack (serving guarded_app get_index))
                  (_app_ctx_stack (serving guarded_app get_index)) tt
                  [EvSignal "request-started" None] 1)
           (RequestContext 0 1 get_index (Session true []) ["GET"] [] false true)
           (VStr "stop")); reflexivity.
Defined.

(** A before-request function that returns the empty string, a result
    that is empty, answers the request all the same: the test is
    [rv is not None].  The function registered after it, whose result is
    not empty, is never called. *)
Lemma preprocess_request_short_circuit_counterexample :
  let quiet :=
    Flask 1 production {[ "index" := index ]} ∅
          {[ None := [returning 30 (VStr ""); returning 31 (VStr "stop")] ]}
          [] ∅ ∅ [] ∅ [index_rule] true (returning 0 VNone) in
  let s := serving quiet get_index in
  truthy (VStr "") = false
  ∧ fst (preprocess_request s) = Ok (VStr "")
  ∧ fst (full_dispatch_request s) = Ok (VResponse (Response "" "200 OK" 200 []))
  ∧ log (snd (full_dispatch_request s))
    = [EvSignal "request-started" None;
       EvCall KBeforeRequest 30 [] (Ok (VStr ""));
       EvSignal "request-finished" None].
Proof. repeat split. Qed.

Lemma dispatch_request_redirect_witness :
  let get := serving (app production) (redirected "GET") in
  let post := serving (app development) (redirected "POST") in
  dispatch_request post
    = (Raise (ModuleNotFoundError "No module named '_Flask__debughelpers'"), post)
  ∧ dispatch_request get = (Raise redirect, get)
  ∧ ∃ s' r, full_dispatch_request get = finalize_request (VExn redirect) false s'
      ∧ make_response (VExn redirect) s' = (Ok r, s')
      ∧ resp_status_code r = 301.
Proof.
  split.
  { apply (dispatch_request_redirect (serving (app development) (redirected "POST"))
             (RequestContext 0 1 (redirected "POST") (Session true []) ["GET"] [] false true)
             redirect eq_refl eq_refl eq_refl).
    split; reflexivity. }
  split.
  { apply (dispatch_request_redirect (serving (app production) (redirected "GET"))
             (RequestContext 0 1 (redirected "GET") (Session true []) ["GET"] [] false true)
             redirect eq_refl eq_refl eq_refl).
    left. reflexivity. }
  assert (Hfirst : (try_trigger_before_first_request_functions ;;;
                    emit (EvSignal "request-started" None))
                     (serving (app production) (redirected "GET"))
                   = (Ok tt, snd ((try_trigger_before_first_request_functions ;;;
                                   emit (EvSignal "request-started" None))
                                    (serving (app production) (redirected "GET")))))
    by (vm_compute; reflexivity).
  assert (Hpre : preprocess_request
                   (snd ((try_trigger_before_first_request_functions ;;;
                          emit (EvSignal "request-started" None))
                           (serving (app production) (redirected "GET"))))
                 = (Ok VNone,
                    snd (preprocess_request
                           (snd ((try_trigger_before_first_request_functions ;;;
                                  emit (EvSignal "request-started" None))
                                   (serving (app production) (redirected "GET")))))))
    by (vm_compute; reflexivity).
  destruct (dispatch_request_redirect
              (snd (preprocess_request
                      (snd ((try_trigger_before_first_request_functions ;;;
                             emit (EvSignal "request-started" None))
                              (serving (app production) (redirected "GET"))))))
              (RequestContext 0 1 (redirected "GET") (Session true []) ["GET"] [] false true)
              redirect eq_refl eq_refl eq_refl) as (Hsafe & _).
  destruct (Hsafe (or_introl eq_refl)) as (_ & Hresponse).
  destruct (Hresponse 301 _ _ eq_refl eq_refl eq_refl eq_refl eq_refl eq_refl Hfirst Hpre)
    as (s' & _ & _ & Hrun & Hmade & Hcode).
  exists s', (get_response redirect).
  split; [exact Hrun|]. split; [exact Hmade | exact Hcode].
Defined.

Lemma handle_exception_policy_witness :
  let s := serving (app production) get_index in
  ∃ s1, log s1 = [EvSignal "got-request-exception" (Some boom)]
    ∧ handle_exception boom s
      = (Ok (VExn InternalServerError),
         set_log (log s1 ++ [EvLogError "Exception on / [GET]" (Some boom)]) s1).
Proof.
  destruct (handle_exception_policy (serving (app production) get_index) boom
              (RequestContext 0 1 get_index (Session true []) ["GET"] [] false true)
              eq_refl) as (_ & (s1 & _ & Hlog & Hrun) & _).
  exists s1. split; [exact Hlog | exact Hrun].
Defined.

(** With the propagation flag set the exception is raised again and
    never logged: the log holds the signal and nothing else. *)
Lemma handle_exception_counterexample :
  let s := serving (app propagating) get_index in
  fst (handle_exception boom s) = Raise boom
  ∧ log (snd (handle_exception boom s)) = [EvSignal "got-request-exception" (Some boom)]
  ∧ ¬ In (EvLogError "Exception on / [GET]" (Some boom))
         (log (snd (handle_exception boom s))).
Proof.
  repeat split. intros [H|[]]. discriminate H.
Qed.


(** An after-request function that fails, seen from both modes. *)
Example finalize_request_after_request_failure :
  let failing :=
    Flask 1 production {[ "index" := index ]} ∅ ∅ [] {[ None := [raising 50 boom] ]} ∅ []
          ∅ [index_rule] false (returning 0 VNone) in
  let s := serving failing get_index in
  fst (finalize_request (VStr "ok") true s)
    = Ok (VResponse (Response "ok" "200 OK" 200 []))
  ∧ fst (finalize_request (VStr "ok") false s) = Raise boom.
Proof. split; reflexivity. Qed.

Lemma add_url_rule_view_function_witness :
  let s := fresh (app production) in
  fst (add_url_rule endpoint_of_view_func make_rule "/again" None (Some other_index) None
         (Some (MethodsList ["GET"])) s)
    = Raise (AssertionError (overwriting_msg "index"))
  ∧ view_functions (self (snd (add_url_rule endpoint_of_view_func make_rule "/again" None
                                 (Some other_index) None (Some (MethodsList ["GET"])) s)))
    = view_functions (self s).
Proof.
  destruct (add_url_rule_view_function endpoint_of_view_func make_rule
              (fresh (app production)) "/again" None "index" other_index None
              (Some ["GET"]) eq_refl eq_refl
              (fun ms => ex_intro _ (Rule "/again" ms "index" false) eq_refl))
    as (s' & Hs' & Hcase).
  change (view_functions (self (fresh (app production))) !! "index")
    with (Some index) in Hcase.
  change (Nat.eqb (cb_id (vf_func index)) (cb_id (vf_func other_index)))
    with false in Hcase.
  destruct Hcase as [Hraise Hsame]. subst s'. split; [exact Hraise | exact Hsame].
Defined.

(** Two calls that supply a view function and do not behave as claimed:
    with [methods] given as a string the call for an endpoint bound to
    another function raises a [TypeError], not an [AssertionError]; in
    debug mode after the first request, registering the same function
    again raises the [AssertionError] of [setupmethod]. *)
Lemma add_url_rule_counterexample :
  let s := fresh (app production) in
  let late := fresh (set_got_first_request true (app development)) in
  (∃ e, fst (add_url_rule endpoint_of_view_func make_rule "/again" (Some "index")
               (Some other_index) None (Some (MethodsString "POST")) s) = Raise e
        ∧ isinstance_exn e "AssertionError" = false
        ∧ isinstance_exn e "TypeError" = true)
  ∧ view_functions (self late) !! "index" = Some index
  ∧ fst (add_url_rule endpoint_of_view_func make_rule "/" (Some "index")
           (Some index) None (Some (MethodsList ["GET"])) late)
    = Raise (AssertionError setup_msg).
Proof.
  split; [|split; reflexivity].
  eexists. repeat split.
Qed.

Import Cases.

(** Both handlers are registered for the class of the exception that
    the view of the blueprint raises, and the lookup returns the one of
    the blueprint; but the exception is an HTTP exception without a
    status code and is not trapped, so the request calls no handler at
    all: the exception itself is made the response. *)
Lemma find_error_handler_precedence_counterexample :
  let s := serving proxy_handlers_app admin_request in
  fst (_find_error_handler proxy_exception s) = Ok (Some blueprint_handler)
  ∧ fst (dispatch_request s) = Raise proxy_exception
  ∧ fst (full_dispatch_request s) = Ok (VResponse (get_response proxy_exception))
  ∧ log (snd (full_dispatch_request s))
    = [EvSignal "request-started" None;
       EvCall KView 14 [VDict []] (Raise proxy_exception);
       EvSignal "request-finished" None].
Proof. vm_compute. repeat split. Qed.

Lemma do_teardown_request_trace_witness :
  let s := serving careless_app get_index in
  ∃ vs f,
    [raising 41 boom; returning 40 VNone] !! length vs = Some f
    ∧ log (snd (do_teardown_request None s))
      = log s
        ++ zip_with (call_event KTeardownRequest [VNone])
                    [raising 41 boom; returning 40 VNone] vs
        ++ [EvCall KTeardownRequest (cb_id f) [VNone] (Raise boom)].
Proof.
  exact (do_teardown_request_trace (serving careless_app get_index) _ None (Raise boom)
           (snd (do_teardown_request None (serving careless_app get_index)))
           eq_refl eq_refl).
Defined.

Lemma do_teardown_appcontext_trace_witness :
  let s := fresh careless_app in
  ∃ vs f,
    [returning 42 VNone; raising 43 boom] !! length vs = Some f
    ∧ log (snd (do_teardown_appcontext (Some boom) s))
      = log s
        ++ zip_with (call_event KTeardownAppcontext [VExn boom])
                    [returning 42 VNone; raising 43 boom] vs
        ++ [EvCall KTeardownAppcontext (cb_id f) [VExn boom] (Raise boom)].
Proof.
  exact (do_teardown_appcontext_trace (fresh careless_app) (Some boom) (Raise boom)
           (snd (do_teardown_appcontext (Some boom) (fresh careless_app))) eq_refl).
Defined.

Lemma process_response_order_witness :
  let s := logged_in after_app admin_request in
  let funcs := [returning 52 (answer "admin"); returning 51 (answer "second");
                returning 50 (answer "first")] in
  ∃ vs,
    length vs = 3%nat
    ∧ answer "first" = List.last vs (answer "view")
    ∧ ∃ saved,
        log (snd (process_response (answer "view") s))
        = log s ++ after_request_events funcs (answer "view") vs ++ saved
        ∧ ∃ v, saved = [EvCall KSaveSession 0 [VDict [(VStr "user", VStr "me")];
                                               answer "first"] (Ok v)].
Proof.
  assert (Hrun : process_response (answer "view") (logged_in after_app admin_request)
                 = (Ok (answer "first"),
                    snd (process_response (answer "view")
                           (logged_in after_app admin_request))))
    by (vm_compute; reflexivity).
  pose proof (process_response_order (logged_in after_app admin_request) _ (answer "view")
                (answer "first") _ eq_refl Hrun) as H.
  vm_compute in H |- *. exact H.
Defined.

Lemma process_response_failure_witness :
  let s := logged_in after_failing_app admin_request in
  let funcs := [returning 52 (answer "admin"); raising 51 boom;
                returning 50 (answer "first")] in
  ∃ vs,
    (∃ f, funcs !! length vs = Some f
       ∧ log (snd (process_response (answer "view") s))
         = log s ++ after_request_events funcs (answer "view") vs
           ++ [EvCall KAfterRequest (cb_id f) [List.last vs (answer "view")] (Raise boom)])
    ∨ (length vs = 3%nat
       ∧ false = false
       ∧ log (snd (process_response (answer "view") s))
         = log s ++ after_request_events funcs (answer "view") vs
           ++ [EvCall KSaveSession 0 [VDict [(VStr "user", VStr "me")];
                                      List.last vs (answer "view")] (Raise boom)]).
Proof.
  exact (process_response_failure (logged_in after_failing_app admin_request) _
           (answer "view") boom
           (snd (process_response (answer "view")
                   (logged_in after_failing_app admin_request)))
           eq_refl eq_refl).
Defined.

Lemma add_url_rule_failure_keeps_rule_witness :
  let s := fresh (app production) in
  ∃ s', add_url_rule endpoint_of_view_func make_rule "/again" None (Some other_index) None
                     (Some (MethodsList ["get"])) s
        = (Raise (AssertionError (overwriting_msg "index")), s')
    ∧ url_map (self s')
      = [index_rule; Rule "/again" {[ "GET"; "OPTIONS" ]} "index" true]
    ∧ view_functions (self s') = view_functions (self s).
Proof.
  destruct (add_url_rule_failure_keeps_rule endpoint_of_view_func make_rule
              (fresh (app production)) "/again" None "index" other_index index None
              (Some ["get"]) (Rule "/again" {[ "GET"; "OPTIONS" ]} "index" false)
              eq_refl eq_refl eq_refl eq_refl)
    as (s' & Hrun & Hmap & Hviews).
  - discriminate.
  - exists s'. split; [exact Hrun|]. split; [exact Hmap | exact Hviews].
Defined.

Lemma add_url_rule_methods_witness :
  let s := fresh (app production) in
  ∃ ep methods r,
    keeping_endpoint "/hello" methods ep = Ok r
    ∧ url_map (self (snd (add_url_rule endpoint_of_view_func keeping_endpoint "/hello" None
                            (Some hello) None (Some (MethodsList ["get"; "Post"])) s)))
      = url_map (self s) ++ [set_provide_automatic_options true r]
    ∧ "OPTIONS" ∈ methods
    ∧ (∀ m, m ∈ ["get"; "Post"] → upper m ∈ methods).
Proof.
  destruct (add_url_rule_methods endpoint_of_view_func keeping_endpoint
              (fresh (app production)) "/hello" None hello ["get"; "Post"]
              (snd (add_url_rule endpoint_of_view_func keeping_endpoint "/hello" None
                      (Some hello) None (Some (MethodsList ["get"; "Post"]))
                      (fresh (app production))))
              eq_refl eq_refl)
    as (ep & methods & r & Hr & Hmap & Hoptions & Hgiven & _).
  exists ep, methods, r. split; [exact Hr|]. split; [exact Hmap|].
  split; [exact Hoptions | exact Hgiven].
Defined.

Lemma before_first_request_trace_witness :
  let s := fresh flaky_app in
  ∃ vs f,
    [returning 1 VNone; raising 2 (RuntimeError "no database")] !! length vs = Some f
    ∧ log (snd (try_trigger_before_first_request_functions s))
      = log s ++ [EvLock true]
        ++ zip_with (call_event KBeforeFirstRequest [])
                    [returning 1 VNone; raising 2 (RuntimeError "no database")] vs
        ++ [EvCall KBeforeFirstRequest (cb_id f) [] (Raise (RuntimeError "no database"));
            EvLock false]
    ∧ _got_first_request (self (snd (try_trigger_before_first_request_functions s)))
      = false.
Proof.
  exact (before_first_request_trace (fresh flaky_app) (Raise (RuntimeError "no database"))
           (snd (try_trigger_before_first_request_functions (fresh flaky_app)))
           eq_refl eq_refl).
Defined.

Lemma dispatch_request_routing_failure_witness :
  let not_found :=
    Exn (http_class "NotFound" 404) "The requested URL was not found." None in
  let s := serving (app development)
                   (Request "POST" "/missing" None None None (Some not_found)) in
  dispatch_request s = (Raise not_found, s).
Proof.
  exact (dispatch_request_routing_failure
           (serving (app development)
                    (Request "POST" "/missing" None None None
                       (Some (Exn (http_class "NotFound" 404)
                                  "The requested URL was not found." None))))
           _ _ eq_refl eq_refl eq_refl).
Defined.

Lemma dispatch_request_cases_witness :
  let s := serving hooked_app (hello_request "OPTIONS") in
  let s' := serving (app production) (hello_request "GET") in
  dispatch_request s
  = (Ok (VResponse (Response "" "200 OK" 200 [("Allow", "GET")])), s)
  ∧ dispatch_request s' = (Raise (KeyError "hello"), s').
Proof.
  split.
  - exact (proj1 (dispatch_request_cases (serving hooked_app (hello_request "OPTIONS"))
                    _ hello_rule [] eq_refl eq_refl eq_refl eq_refl) eq_refl).
  - exact (proj1 (proj2 (dispatch_request_cases
                           (serving (app production) (hello_request "GET"))
                           _ hello_rule [] eq_refl eq_refl eq_refl eq_refl))
                 eq_refl eq_refl).
Defined.

Lemma add_url_rule_then_dispatch_witness :
  let s := fresh (app production) in
  let s1 := snd (add_url_rule endpoint_of_view_func keeping_endpoint "/hello" None
                   (Some hello) None None s) in
  let added := Rule "/hello" {[ "GET"; "OPTIONS" ]} "hello" true in
  let s2 := serving (self s1) (Request "GET" "/hello" None (Some added) (Some []) None) in
  dispatch_request s2 = call KView (vf_func hello) [VDict []] s2
  ∧ fst (dispatch_request s2) = Ok (answer "Hello").
Proof.
  assert (Hadd : add_url_rule endpoint_of_view_func keeping_endpoint "/hello" None
                   (Some hello) None (option_map MethodsList None)
                   (fresh (app production))
                 = (Ok tt, snd (add_url_rule endpoint_of_view_func keeping_endpoint
                                  "/hello" None (Some hello) None None
                                  (fresh (app production)))))
    by (vm_compute; reflexivity).
  assert (Hmatched :
            Some (Rule "/hello" {[ "GET"; "OPTIONS" ]} "hello" true)
            = last (url_map (self (snd (add_url_rule endpoint_of_view_func keeping_endpoint
                                          "/hello" None (Some hello) None None
                                          (fresh (app production)))))))
    by (vm_compute; reflexivity).
  destruct (add_url_rule_then_dispatch endpoint_of_view_func keeping_endpoint
              (fresh (app production)) "/hello" None hello None None _
              (serving (self (snd (add_url_rule endpoint_of_view_func keeping_endpoint
                                     "/hello" None (Some hello) None None
                                     (fresh (app production)))))
                       (Request "GET" "/hello" None
                          (Some (Rule "/hello" {[ "GET"; "OPTIONS" ]} "hello" true))
                          (Some []) None))
              _ []
              (fun p ms ep r (H : keeping_endpoint p ms ep = Ok r) =>
                 match H in (_ = y) return (match y with
                                            | Ok r' => endpoint r' = ep
                                            | Raise _ => True
                                            end) with
                 | eq_refl => eq_refl
                 end)
              Hadd eq_refl eq_refl eq_refl Hmatched eq_refl)
    as (r & Hr & _ & Hcall).
  injection Hr as <-.
  split; [exact (Hcall eq_refl)|].
  rewrite (Hcall eq_refl). vm_compute. reflexivity.
Defined.

Lemma handle_user_exception_unhandled_witness :
  let s := serving handlers_app get_index in
  ∃ s', handle_user_exception boom s = (Raise boom, s') ∧ log s' = log s.
Proof.
  destruct (handle_user_exception_unhandled (serving handlers_app get_index) boom _
              eq_refl eq_refl (or_introl eq_refl))
    as ((s' & Hrun & Hlog & _) & _).
  - vm_compute. reflexivity.
  - exists s'. split; [exact Hrun | exact Hlog].
Defined.

Lemma handle_user_exception_key_error_witness :
  (∃ s', handle_user_exception bad_key (serving (app development) get_index)
         = (Raise (Exn (exc_class bad_key) "user" (Some "KeyError: 'user'")), s'))
  ∧ (∃ s', handle_user_exception bad_key (serving (app production) get_index)
           = (Ok (VExn bad_key), s')).
Proof.
  split.
  - apply (handle_user_exception_key_error (serving (app development) get_index) bad_key _
             eq_refl eq_refl eq_refl eq_refl eq_refl eq_refl eq_refl);
      [vm_compute; reflexivity | reflexivity].
  - apply (handle_user_exception_key_error (serving (app production) get_index) bad_key _
             eq_refl eq_refl eq_refl eq_refl eq_refl eq_refl eq_refl);
      [vm_compute; reflexivity | reflexivity].
Defined.

Lemma full_dispatch_request_handled_witness :
  let s0 := serving (failing_app value_error production) get_index in
  ∃ s2, full_dispatch_request s0
        = (rv <- call KErrorHandler global_handler [VExn value_error] ;;
           finalize_request rv false) s2.
Proof.
  assert (Hfirst : (try_trigger_before_first_request_functions ;;;
                    emit (EvSignal "request-started" None))
                     (serving (failing_app value_error production) get_index)
                   = (Ok tt, snd ((try_trigger_before_first_request_functions ;;;
                                   emit (EvSignal "request-started" None))
                                    (serving (failing_app value_error production)
                                             get_index))))
    by (vm_compute; reflexivity).
  destruct (full_dispatch_request_handled _ _
              (snd ((rv <- preprocess_request ;;
                     if is_None rv then dispatch_request else ret rv)
                      (snd ((try_trigger_before_first_request_functions ;;;
                             emit (EvSignal "request-started" None))
                              (serving (failing_app value_error production) get_index)))))
              value_error
              (RequestContext 0 1 get_index (Session true []) ["GET"] [] false true)
              global_handler Hfirst)
    as ((s2 & _ & _ & Hrun) & _).
  - vm_compute. reflexivity.
  - reflexivity.
  - reflexivity.
  - left. reflexivity.
  - vm_compute. reflexivity.
  - exists s2. exact Hrun.
Defined.

Lemma full_dispatch_request_base_exception_witness :
  let s0 := serving (failing_app interrupt production) get_index in
  fst (full_dispatch_request s0) = Raise interrupt.
Proof.
  assert (Hfirst : (try_trigger_before_first_request_functions ;;;
                    emit (EvSignal "request-started" None))
                     (serving (failing_app interrupt production) get_index)
                   = (Ok tt, snd ((try_trigger_before_first_request_functions ;;;
                                   emit (EvSignal "request-started" None))
                                    (serving (failing_app interrupt production)
                                             get_index))))
    by (vm_compute; reflexivity).
  assert (Hraise : (rv <- preprocess_request ;;
                    if is_None rv then dispatch_request else ret rv)
                     (snd ((try_trigger_before_first_request_functions ;;;
                            emit (EvSignal "request-started" None))
                             (serving (failing_app interrupt production) get_index)))
                   = (Raise interrupt,
                      snd ((rv <- preprocess_request ;;
                            if is_None rv then dispatch_request else ret rv)
                             (snd ((try_trigger_before_first_request_functions ;;;
                                    emit (EvSignal "request-started" None))
                                     (serving (failing_app interrupt production)
                                              get_index))))))
    by (vm_compute; reflexivity).
  cbv zeta.
  rewrite (full_dispatch_request_base_exception _ _ _ interrupt Hfirst Hraise eq_refl).
  reflexivity.
Defined.

Lemma full_dispatch_request_order_witness :
  let s := logged_in hooked_app (hello_request "GET") in
  ∃ vs v,
    fst (full_dispatch_request s) = Ok (List.last vs (answer "Hello"))
    ∧ log (snd (full_dispatch_request s))
      = [EvSignal "request-started" None;
         EvCall KUrlValuePreprocessor 60 [VStr "hello"; VDict []] (Ok VNone);
         EvCall KBeforeRequest 61 [] (Ok VNone);
         EvCall KView 12 [VDict []] (Ok (answer "Hello"))]
        ++ after_request_events [returning 62 (answer "after")] (answer "Hello") vs
        ++ [EvCall KSaveSession 0 [VDict [(VStr "user", VStr "me")];
                                   List.last vs (answer "Hello")] (Ok v);
            EvSignal "request-finished" None].
Proof.
  destruct (full_dispatch_request_order (logged_in hooked_app (hello_request "GET"))
              _ hello_rule [] hello (Response "Hello" "200 OK" 200 [])
              eq_refl eq_refl eq_refl eq_refl eq_refl eq_refl)
    as (outs & vs & saved & s' & Hrun & Hlen & _ & Hlog & v & ->).
  - vm_compute. reflexivity.
  - vm_compute. repeat constructor. intros args w. eexists _, _. reflexivity.
  - vm_compute. repeat constructor. intros args w. eexists. reflexivity.
  - intros args w. eexists. reflexivity.
  - vm_compute. repeat constructor. intros args w. eexists _, _. reflexivity.
  - intros args w. eexists _, _. reflexivity.
  - exists vs, v. rewrite Hrun. split; [reflexivity|].
    destruct outs as [|out [|out' outs]]; try discriminate Hlen.
    assert (Hout : out = VNone).
    { revert Hrun Hlog. vm_compute. intros [= Hr Hs]. subst s'. simpl.
      intros [= -> _]. reflexivity. }
    subst out. exact Hlog.
Defined.

Lemma route_decorator_reuse_witness :
  let options := RouteOptions (Some "greeting") None None in
  let s := fresh (app production) in
  let '(_, options1, s1) := decorator endpoint_of_view_func keeping_endpoint "/hello"
                                      options hello s in
  let '(_, _, s2) := decorator endpoint_of_view_func keeping_endpoint "/hello"
                               options1 goodbye s1 in
  view_functions (self s1) !! "greeting" = Some hello
  ∧ view_functions (self s2) !! "greeting" = Some hello
  ∧ view_functions (self s2) !! "goodbye" = Some goodbye.
Proof.
  destruct (route_decorator_reuse endpoint_of_view_func keeping_endpoint
              (fresh (app production)) "/hello" "greeting" "goodbye"
              (RouteOptions (Some "greeting") None None) hello goodbye
              hello (RouteOptions None None None)
              (snd (decorator endpoint_of_view_func keeping_endpoint "/hello"
                      (RouteOptions (Some "greeting") None None) hello
                      (fresh (app production))))
              goodbye (RouteOptions None None None)
              (snd (decorator endpoint_of_view_func keeping_endpoint "/hello"
                      (RouteOptions None None None) goodbye
                      (snd (decorator endpoint_of_view_func keeping_endpoint "/hello"
                              (RouteOptions (Some "greeting") None None) hello
                              (fresh (app production))))))
              eq_refl)
    as (_ & Hviews1 & _ & _ & Hviews2).
  - vm_compute. reflexivity.
  - vm_compute. reflexivity.
  - reflexivity.
  - vm_compute. repeat split.
Defined.

Lemma handle_user_exception_without_code_witness :
  let s := serving (failing_app proxy_exception production) get_index in
  handle_user_exception proxy_exception s = (Ok (VExn proxy_exception), s).
Proof.
  exact (handle_user_exception_without_code
           (serving (failing_app proxy_exception production) get_index) proxy_exception
           eq_refl eq_refl eq_refl eq_refl).
Defined.

Lemma detect_encoding_ascii_text_witness :
  detect_encoding [123; 0; 125; 0] = "utf-16-le"
  ∧ detect_encoding [0; 0; 0; 91; 0; 0; 0; 93] = "utf-32-be".
Proof.
  split.
  - apply (detect_encoding_ascii_text UTF_16_LE [123; 125]); [discriminate|].
    repeat constructor.
  - apply (detect_encoding_ascii_text UTF_32_BE [91; 93]); [discriminate|].
    repeat constructor.
Defined.

Lemma htmlsafe_dumps_safe_witness :
  let dumped (obj : pyval) (kwargs : gmap string kwarg) : result pyval :=
    match obj with VStr text => Ok (VStr text) | _ => Raise (TypeError "not text") end in
  let encoded (text : string) (encoding : kwarg) : result string := Ok text in
  htmlsafe_dumps None None dumped encoded true (VStr "<a href='x'>&</a>") ∅
  = Ok (VStr "\u003ca href=\u0027x\u0027\u003e\u0026\u003c/a\u003e")
  ∧ ∀ c, In c (String.list_ascii_of_string "<>&'") →
         occurs c "\u003ca href=\u0027x\u0027\u003e\u0026\u003c/a\u003e" = false.
Proof.
  assert (Hrun : htmlsafe_dumps None None
                   (fun obj _ => match obj with
                                 | VStr text => Ok (VStr text)
                                 | _ => Raise (TypeError "not text")
                                 end)
                   (fun text _ => Ok text) true (VStr "<a href='x'>&</a>") ∅
                 = Ok (VStr "\u003ca href=\u0027x\u0027\u003e\u0026\u003c/a\u003e"))
    by (vm_compute; reflexivity).
  split; [exact Hrun|].
  destruct (htmlsafe_dumps_safe _ _ _ _ _ _ _ _ Hrun) as (rv & Hrv & Hsafe).
  injection Hrv as <-. exact Hsafe.
Defined.

Lemma preprocess_request_failure_witness :
  let choosy :=
    Flask 1 production {[ "index" := index ]} ∅
          {[ None := [returning 30 VNone; raising 31 boom; returning 32 VNone] ]}
          [] ∅ ∅ [] {[ None := [returning 33 VNone] ]} [index_rule] true
          (returning 0 VNone) in
  let s := serving choosy get_index in
  let args := [VStr "index"; VDict []] in
  let url_funcs := [returning 33 VNone] in
  let before_funcs := [returning 30 VNone; raising 31 boom; returning 32 VNone] in
  ∃ outs,
    (∃ f, url_funcs !! length outs = Some f
       ∧ log (snd (preprocess_request s))
         = log s ++ zip_with (call_event KUrlValuePreprocessor args) url_funcs outs
           ++ [EvCall KUrlValuePreprocessor (cb_id f) args (Raise boom)])
    ∨ (length outs = length url_funcs
       ∧ ∃ l1 f l2, before_funcs = l1 ++ f :: l2
           ∧ log (snd (preprocess_request s))
             = log s
               ++ zip_with (call_event KUrlValuePreprocessor args) url_funcs outs
               ++ map (fun c => call_event KBeforeRequest [] c VNone) l1
               ++ [EvCall KBeforeRequest (cb_id f) [] (Raise boom)]).
Proof.
  set (choosy :=
    Flask 1 production {[ "index" := index ]} ∅
          {[ None := [returning 30 VNone; raising 31 boom; returning 32 VNone] ]}
          [] ∅ ∅ [] {[ None := [returning 33 VNone] ]} [index_rule] true
          (returning 0 VNone)).
  assert (Hrun : preprocess_request (serving choosy get_index)
                 = (Raise boom, snd (preprocess_request (serving choosy get_index))))
    by (vm_compute; reflexivity).
  pose proof (preprocess_request_failure (serving choosy get_index) _ boom _ eq_refl Hrun)
    as H.
  vm_compute in H |- *. exact H.
Defined.

(** [detect_encoding] on a few inputs: no data; [{}] in UTF-8, with the
    UTF-8 mark, and in UTF-16 with its mark; a UTF-16 mark followed by
    a character without a zero byte; three bytes of which one is zero;
    one character in UTF-16 of the big-endian order. *)
Example detect_encoding_examples :
  detect_encoding [] = "utf-8"
  ∧ detect_encoding [0x7b; 0x7d] = "utf-8"
  ∧ detect_encoding [0xef; 0xbb; 0xbf; 0x7b; 0x7d] = "utf-8-sig"
  ∧ detect_encoding [0xff; 0xfe; 0x7b; 0; 0x7d; 0] = "utf-16"
  ∧ detect_encoding [0xff; 0xfe; 0x2d; 0x4e] = "utf-8"
  ∧ detect_encoding [0x7b; 0; 0x7d] = "utf-8"
  ∧ detect_encoding [0; 0x7b] = "utf-16-be".
Proof. vm_compute. repeat split. Qed.

(** [replace] finds the occurrences from left to right, without
    overlap; a text may still hold an escaped slash after the escaped
    slashes were replaced. *)
Example str_replace_examples :
  str_replace "aa" "b" "aaa" = "ba"
  ∧ str_replace "<" "\u003c" "a<b<" = "a\u003cb\u003c"
  ∧ str_replace "\/" "/" "\\//" = "\//".
Proof. repeat split. Qed.

(** The debug flag for a few environments; [off] is not among the
    values that switch it off. *)
Example get_debug_flag_examples :
  get_debug_flag ∅ = false
  ∧ get_debug_flag {[ "FLASK_ENV" := "development" ]} = true
  ∧ get_debug_flag {[ "FLASK_ENV" := "development"; "FLASK_DEBUG" := "False" ]} = false
  ∧ get_debug_flag {[ "FLASK_ENV" := "production"; "FLASK_DEBUG" := "1" ]} = true
  ∧ get_debug_flag {[ "FLASK_DEBUG" := "off" ]} = true
  ∧ get_env {[ "FLASK_ENV" := "" ]} = "production".
Proof. vm_compute. repeat split. Qed.

(** A module that binds [app] to an application, a module with an
    application factory and an empty module: the relative import ends
    every call. *)
Example find_best_app_examples :
  let failed := Raise (ImportError "attempted relative import with no known parent package") in
  find_best_app "site" app_module = failed
  ∧ find_best_app "site" factory_module = failed
  ∧ find_best_app "site" ∅ = failed.
Proof. repeat split. Qed.

(** How [call_factory] calls a factory, by the names of its arguments. *)
Example call_factory_examples :
  let shape (c : call_form) : call_outcome :=
    CallReturned (OOther match c with
                         | CallKeyword _ => 1
                         | CallArguments _ => 2
                         | CallScriptInfo => 3
                         | CallEmpty => 4
                         end) in
  call_factory ["config"; "script_info"] false shape [VInt 1] = CallReturned (OOther 1)
  ∧ call_factory ["config"] false shape [VInt 1] = CallReturned (OOther 2)
  ∧ call_factory ["info"] false shape [] = CallReturned (OOther 3)
  ∧ call_factory ["info"] true shape [] = CallReturned (OOther 4)
  ∧ call_factory [] false shape [] = CallReturned (OOther 4).
Proof. repeat split. Qed.

(** The defaults of [dumps] inside a request of the blueprint [admin],
    which has an encoder of its own, for an application with
    [JSON_AS_ASCII] off: the caller's [sort_keys] is kept.  In a request
    outside the blueprint the same call fails, and so does every call
    for an application as [Flask] makes it. *)
Example dump_arg_defaults_example :
  let a := AppJson {[ "admin" := BlueprintJson (Some "AdminEncoder") None ]}
                   None None false true in
  let missing := AttributeError "'Flask' object has no attribute 'json_encoder'" in
  _dump_arg_defaults (Some a) (Some admin_request) {[ "sort_keys" := KwBool false ]}
  = Ok {[ "cls" := KwClass "AdminEncoder"; "ensure_ascii" := KwBool false;
          "sort_keys" := KwBool false ]}
  ∧ _dump_arg_defaults (Some a) (Some get_index) {[ "sort_keys" := KwBool false ]}
    = Raise missing
  ∧ _dump_arg_defaults (Some flask_json) None {[ "cls" := KwClass "MyEncoder" ]}
    = Raise missing
  ∧ _dump_arg_defaults None None {[ "cls" := KwClass "MyEncoder" ]}
    = Ok {[ "cls" := KwClass "MyEncoder"; "sort_keys" := KwBool true ]}.
Proof. vm_compute. repeat split. Qed.

(** A date handed to [JSONEncoder.default]. *)
Example JSONEncoder_default_of_a_date :
  let today := PyObject ["date"; "object"] None in
  JSONEncoder_default (fun _ => "Tue, 03 Nov 2026 00:00:00 GMT")
                      (fun _ => "Tue, 03 Nov 2026 00:00:00 GMT")
                      (fun _ => "2026-11-03") today
  = Raise (TypeError "isinstance() arg 2 must be a type or tuple of types").
Proof. reflexivity. Qed.
